(** * Skill Forge API: entity stores, authorization gate and request handlers

    A shallow embedding of the TypeScript back end (models, middleware,
    controllers and the routes that compose them), followed by the
    properties of its specification.

    Conventions of the embedding:
    - a [Date] is its epoch value in milliseconds; every [new Date()] of the
      source is an explicit argument (models) or a reading [clk k] of the
      clock handed to the handler (controllers), one index per [new Date()]
      expression on the handler's path; nothing is assumed of the readings;
    - a JavaScript [Map] is an association list in insertion order;
    - what the process receives from outside (generated ids, bcrypt digests,
      signed tokens, answers of the payment provider) is an argument of the
      handler that consumes it; so is [String.prototype.toLowerCase], whose
      Unicode case tables belong to the runtime;
    - a handler maps the stores to a response and the new stores; an exception
      caught by the handler's [try]/[catch] is the [None] case of the
      collaborator's answer;
    - a handler runs from its first statement to its response without another
      handler running in between, with one exception: the signup handler is
      also given in the two parts that its [await bcrypt.hash] separates, and
      [Overlap] runs schedules in which other signups are handled between
      the two. *)

From Stdlib Require Import ZArith QArith Lia Ascii String.
From stdpp Require Import strings base list option.

Open Scope Z_scope.

(** ** JavaScript values used by the code *)

Definition Date := Z.

(** [!s] on an optional string: [undefined] and the empty string are falsy. *)
Definition truthy (s : option string) : bool :=
  match s with
  | Some v => negb (String.eqb v "")
  | None => false
  end.

(** [String.prototype.includes]. *)
Fixpoint includes (s sub : string) : bool :=
  if String.prefix sub s then true
  else match s with
       | EmptyString => false
       | String _ s' => includes s' sub
       end.

(** [Array.prototype.slice(start, end)] with its treatment of negative and
    out-of-range indices. *)
Definition slice {A} (l : list A) (start stop : Z) : list A :=
  let len := Z.of_nat (length l) in
  let from := if start <? 0 then Z.max (len + start) 0 else Z.min start len in
  let to := if stop <? 0 then Z.max (len + stop) 0 else Z.min stop len in
  take (Z.to_nat (to - from)) (drop (Z.to_nat from) l).

(** [Array.prototype.sort(cmp)]: an insertion sort driven by the sign of the
    comparator.  The handlers' comparators never answer 0, and ECMAScript
    leaves the order of elements with equal keys to the engine in that case;
    the properties below only use that the result is a permutation. *)
Fixpoint sort_insert {A} (cmp : A -> A -> Z) (x : A) (l : list A) : list A :=
  match l with
  | [] => [x]
  | y :: l' => if 0 <? cmp x y then y :: sort_insert cmp x l' else x :: y :: l'
  end.

Definition sort {A} (cmp : A -> A -> Z) (l : list A) : list A :=
  foldr (sort_insert cmp) [] l.

(** ** [Map<string, V>] *)

Module JsMap.
Section JsMap.
Context {V : Type}.

(** Entries in insertion order. *)
Definition t := list (string * V).

Definition empty : t := [].

Fixpoint get (m : t) (k : string) : option V :=
  match m with
  | [] => None
  | (k', v) :: m' => if decide (k' = k) then Some v else get m' k
  end.

(** [set] keeps the position of a key already present and appends a new
    one. *)
Fixpoint set (m : t) (k : string) (v : V) : t :=
  match m with
  | [] => [(k, v)]
  | (k', v') :: m' =>
      if decide (k' = k) then (k, v) :: m' else (k', v') :: set m' k v
  end.

Definition has (m : t) (k : string) : bool :=
  match get m k with Some _ => true | None => false end.

(** [delete] answers whether the key was present. *)
Definition delete (m : t) (k : string) : bool * t :=
  (has m k, filter (fun e => e.1 <> k) (m : list (string * V))).

Definition keys (m : t) : list string := m.*1.
Definition values (m : t) : list V := m.*2.

(** A [Map] holds a key once. *)
Definition wf (m : t) : Prop := NoDup (keys m).
End JsMap.
Arguments t : clear implicits.
End JsMap.

(** ** types/auth.types.ts *)

Inductive UserRole := STUDENT | INSTRUCTOR | ADMIN.

#[global] Instance UserRole_eq_dec : EqDecision UserRole.
Proof. solve_decision. Defined.

Module JWTPayload.
Record t := mk { userId : string; email : string; role : UserRole }.
End JWTPayload.

Module SignupRequest.
Record t := mk {
  email : string;
  password : string;
  firstName : string;
  lastName : string;
  role : option UserRole;
}.
End SignupRequest.

(** ** types/user.types.ts *)

Inductive Visibility := vis_public | vis_private.
Inductive Difficulty := diff_beginner | diff_intermediate | diff_advanced.
Inductive Pace := pace_slow | pace_normal | pace_fast.

Module UserPreferences.
Record notifications_t := mkN {
  email : bool; push : bool; courseUpdates : bool; marketing : bool }.
Record privacy_t := mkP {
  profileVisibility : Visibility; showProgress : bool }.
Record learning_t := mkL {
  difficulty : Difficulty; pace : Pace; reminderTime : option string }.
Record t := mk {
  notifications : notifications_t;
  privacy : privacy_t;
  learning : learning_t;
}.
End UserPreferences.

(** A stored progress record.  [PUT /users/progress/:courseId] copies three
    fields of an unvalidated body into the record, so these may be
    [undefined] ([None]) in a stored record. *)
Module CourseProgress.
Record t := mk {
  courseId : string;
  enrolledAt : Date;
  completedModules : option (list string);
  currentModule : option string;
  progressPercentage : option Q;
  lastAccessedAt : Date;
  certificateEarned : option bool;
  certificateUrl : option string;
}.

(** [Partial<CourseProgress>]: [None] is an absent key, [Some v] a key
    present with value [v] (which may itself be [undefined]). *)
Record partial := mkPartial {
  p_courseId : option string;
  p_enrolledAt : option Date;
  p_completedModules : option (option (list string));
  p_currentModule : option (option string);
  p_progressPercentage : option (option Q);
  p_lastAccessedAt : option Date;
  p_certificateEarned : option (option bool);
  p_certificateUrl : option (option string);
}.

(** [{ ...base, ...progress }] *)
Definition spread (base : t) (progress : partial) : t :=
  {| courseId := default (courseId base) (p_courseId progress);
     enrolledAt := default (enrolledAt base) (p_enrolledAt progress);
     completedModules :=
       default (completedModules base) (p_completedModules progress);
     currentModule := default (currentModule base) (p_currentModule progress);
     progressPercentage :=
       default (progressPercentage base) (p_progressPercentage progress);
     lastAccessedAt := default (lastAccessedAt base) (p_lastAccessedAt progress);
     certificateEarned :=
       default (certificateEarned base) (p_certificateEarned progress);
     certificateUrl := default (certificateUrl base) (p_certificateUrl progress);
  |}.
End CourseProgress.

Module User.
Record t := mk {
  id : string;
  email : string;
  password : string;
  firstName : string;
  lastName : string;
  role : UserRole;
  avatar : option string;
  bio : option string;
  skills : list string;
  preferences : UserPreferences.t;
  progress : list CourseProgress.t;
  createdAt : Date;
  updatedAt : Date;
}.

(** [Omit<User, 'id' | 'createdAt' | 'updatedAt'>] *)
Record data := mkData {
  d_email : string;
  d_password : string;
  d_firstName : string;
  d_lastName : string;
  d_role : UserRole;
  d_avatar : option string;
  d_bio : option string;
  d_skills : list string;
  d_preferences : UserPreferences.t;
  d_progress : list CourseProgress.t;
}.
End User.


(** ** types/course.types.ts *)

Inductive CourseLevel := BEGINNER | INTERMEDIATE | ADVANCED | ALL_LEVELS.

#[global] Instance CourseLevel_eq_dec : EqDecision CourseLevel.
Proof. solve_decision. Defined.

Inductive LessonType := VIDEO | TEXT | INTERACTIVE | ASSIGNMENT.
Inductive ResourceType := res_pdf | res_link | res_download.
Inductive QuestionType := multiple_choice | true_false | short_answer.

Module Resource.
Record t := mk {
  id : string; title : string; type : ResourceType; url : string;
  size : option Z }.
End Resource.

(** [interactiveContent] has type [any]; it is kept as its JSON text. *)
Module LessonContent.
Record t := mk {
  videoUrl : option string;
  textContent : option string;
  interactiveContent : option string;
  assignmentInstructions : option string;
  resources : option (list Resource.t);
}.
End LessonContent.

Module Lesson.
Record t := mk {
  id : string; title : string; description : string; order : Z;
  type : LessonType; content : LessonContent.t; duration : Z;
  isPreview : bool }.
End Lesson.

Module QuizQuestion.
Record t := mk {
  id : string; question : string; type : QuestionType;
  options : option (list string);
  correctAnswer : string + list string;
  explanation : option string;
  points : Z }.
End QuizQuestion.

Module Quiz.
Record t := mk {
  id : string; title : string; description : string;
  questions : list QuizQuestion.t; passingScore : Z;
  timeLimit : option Z }.
End Quiz.

Module CourseModule.
Record t := mk {
  id : string; title : string; description : string; order : Z;
  duration : Z; lessons : list Lesson.t; quiz : option Quiz.t;
  isPreview : bool }.
End CourseModule.

(** [price] and [rating] are fractional JavaScript numbers (99.99, 4.8):
    rationals here.  The counters are integers. *)
Module Course.
Record t := mk {
  id : string;
  title : string;
  description : string;
  shortDescription : string;
  instructorId : string;
  instructorName : string;
  category : string;
  subcategory : string;
  level : CourseLevel;
  price : Q;
  currency : string;
  thumbnail : string;
  previewVideo : option string;
  duration : Z;
  modules : list CourseModule.t;
  requirements : list string;
  learningOutcomes : list string;
  tags : list string;
  rating : Q;
  reviewCount : Z;
  enrollmentCount : Z;
  isPublished : bool;
  createdAt : Date;
  updatedAt : Date;
}.

(** [Omit<Course, 'id' | 'createdAt' | 'updatedAt'>] *)
Record data := mkData {
  d_title : string;
  d_description : string;
  d_shortDescription : string;
  d_instructorId : string;
  d_instructorName : string;
  d_category : string;
  d_subcategory : string;
  d_level : CourseLevel;
  d_price : Q;
  d_currency : string;
  d_thumbnail : string;
  d_previewVideo : option string;
  d_duration : Z;
  d_modules : list CourseModule.t;
  d_requirements : list string;
  d_learningOutcomes : list string;
  d_tags : list string;
  d_rating : Q;
  d_reviewCount : Z;
  d_enrollmentCount : Z;
  d_isPublished : bool;
}.

(** [Partial<Course>]: [None] is an omitted key. *)
Record partial := mkPartial {
  p_id : option string;
  p_title : option string;
  p_description : option string;
  p_shortDescription : option string;
  p_instructorId : option string;
  p_instructorName : option string;
  p_category : option string;
  p_subcategory : option string;
  p_level : option CourseLevel;
  p_price : option Q;
  p_currency : option string;
  p_thumbnail : option string;
  p_previewVideo : option (option string);
  p_duration : option Z;
  p_modules : option (list CourseModule.t);
  p_requirements : option (list string);
  p_learningOutcomes : option (list string);
  p_tags : option (list string);
  p_rating : option Q;
  p_reviewCount : option Z;
  p_enrollmentCount : option Z;
  p_isPublished : option bool;
  p_createdAt : option Date;
  p_updatedAt : option Date;
}.

End Course.

Module CreateCourseRequest.
Record t := mk {
  title : string;
  description : string;
  shortDescription : string;
  category : string;
  subcategory : string;
  level : CourseLevel;
  price : Q;
  requirements : list string;
  learningOutcomes : list string;
  tags : list string;
}.
End CreateCourseRequest.

Module UpdateCourseRequest.
Record t := mk {
  title : option string;
  description : option string;
  shortDescription : option string;
  category : option string;
  subcategory : option string;
  level : option CourseLevel;
  price : option Q;
  requirements : option (list string);
  learningOutcomes : option (list string);
  tags : option (list string);
}.

(** The request body seen as the [Partial<Course>] handed to the store. *)
Definition as_partial (u : t) : Course.partial :=
  {| Course.p_id := None;
     Course.p_title := title u;
     Course.p_description := description u;
     Course.p_shortDescription := shortDescription u;
     Course.p_instructorId := None;
     Course.p_instructorName := None;
     Course.p_category := category u;
     Course.p_subcategory := subcategory u;
     Course.p_level := level u;
     Course.p_price := price u;
     Course.p_currency := None;
     Course.p_thumbnail := None;
     Course.p_previewVideo := None;
     Course.p_duration := None;
     Course.p_modules := None;
     Course.p_requirements := requirements u;
     Course.p_learningOutcomes := learningOutcomes u;
     Course.p_tags := tags u;
     Course.p_rating := None;
     Course.p_reviewCount := None;
     Course.p_enrollmentCount := None;
     Course.p_isPublished := None;
     Course.p_createdAt := None;
     Course.p_updatedAt := None |}.
End UpdateCourseRequest.

Inductive SortKey :=
  by_title | by_price | by_rating | by_enrollmentCount | by_createdAt.
Inductive SortOrder := asc | desc.

(** The query string of the course listing: [PaginationQuery], the
    [CourseFilters] keys that [CourseModel.findAll] reads, and the two sort
    keys. *)
Module CourseQuery.
Record t := mk {
  page : option Z;
  limit : option Z;
  sortBy : option SortKey;
  sortOrder : option SortOrder;
  category : option string;
  level : option CourseLevel;
  instructorId : option string;
  search : option string;
  priceMin : option Q;
  priceMax : option Q;
  rating : option Q;
}.

Definition pagination_only (page limit : option Z) : t :=
  mk page limit None None None None None None None None None.
End CourseQuery.

(** The [filters] object of [CourseModel.findAll]. *)
Module FindAllFilters.
Record t := mk {
  category : option string;
  level : option CourseLevel;
  instructorId : option string;
  search : option string;
  priceMin : option Q;
  priceMax : option Q;
  rating : option Q;
  includeUnpublished : bool;
}.
End FindAllFilters.

(** ** types/payment.types.ts *)

Inductive PaymentStatus := PENDING | SUCCEEDED | FAILED | CANCELED | REFUNDED.

#[global] Instance PaymentStatus_eq_dec : EqDecision PaymentStatus.
Proof. solve_decision. Defined.

Module PaymentIntent.
Record t := mk {
  id : string;
  amount : Z;
  currency : string;
  status : PaymentStatus;
  courseId : string;
  userId : string;
  stripePaymentIntentId : string;
  createdAt : Date;
  updatedAt : Date;
}.

Record data := mkData {
  d_amount : Z;
  d_currency : string;
  d_status : PaymentStatus;
  d_courseId : string;
  d_userId : string;
  d_stripePaymentIntentId : string;
}.

Record partial := mkPartial {
  p_id : option string;
  p_amount : option Z;
  p_currency : option string;
  p_status : option PaymentStatus;
  p_courseId : option string;
  p_userId : option string;
  p_stripePaymentIntentId : option string;
  p_createdAt : option Date;
  p_updatedAt : option Date;
}.

(** [{ status: s }] *)
Definition status_only (s : PaymentStatus) : partial :=
  mkPartial None None None (Some s) None None None None None.
End PaymentIntent.

(** A verified webhook event: its [type] and the [id] of [data.object]. *)
Module StripeWebhookEvent.
Record t := mk { type : string; object_id : string }.
End StripeWebhookEvent.

(** What the provider answers to the opening of an intent. *)
Module PaymentIntentResponse.
Record t := mk {
  paymentIntentId : string;
  clientSecret : string;
  amount : Z;
  currency : string;
}.
End PaymentIntentResponse.

(** ** types/api.types.ts and utils/response.utils.ts *)

Module PaginationInfo.
Record t := mk {
  page : Z; limit : Z; total : Z; totalPages : Z;
  hasNext : bool; hasPrev : bool }.
End PaginationInfo.

Module UserProfile.
Record t := mk {
  id : string; email : string; firstName : string; lastName : string;
  role : UserRole; avatar : option string; createdAt : Date;
  updatedAt : Date }.
End UserProfile.

(** The [data] member of the envelopes the modelled handlers send. *)
Inductive ResponseData :=
  | data_null
  | data_auth (user : UserProfile.t) (accessToken refreshToken : string)
  | data_course (c : Course.t)
  | data_courses (l : list Course.t)
  | data_course_detail (c : Course.t) (isEnrolled : bool)
                       (progress : option CourseProgress.t)
  | data_confirmed (status : PaymentStatus) (courseId : string).

Inductive ResponseBody :=
  | body_success (data : ResponseData) (message : string)
                 (pagination : option PaginationInfo.t)
  | body_error (error : string)
  | body_received
  | body_webhook_error (error : string).

Module Response.
Record t := mk { statusCode : Z; body : ResponseBody }.
End Response.

Definition sendSuccess (data : ResponseData) (message : string)
    (pagination : option PaginationInfo.t) : Response.t :=
  Response.mk 200 (body_success data message pagination).

Definition sendError (statusCode : Z) (error : string) : Response.t :=
  Response.mk statusCode (body_error error).

Definition sendNotFound (resource : string) : Response.t :=
  sendError 404 (resource +:+ " not found").

Definition sendUnauthorized (message : string) : Response.t :=
  sendError 401 message.

Definition sendForbidden (message : string) : Response.t :=
  sendError 403 message.

Definition sendBadRequest (message : string) : Response.t :=
  sendError 400 message.

(** [Math.ceil(total / limit)] for an integer [limit] other than 0, which
    [paginationSchema] guarantees (1 to 100). *)
Definition createPagination (page limit total : Z) : PaginationInfo.t :=
  let totalPages := - ((- total) / limit) in
  {| PaginationInfo.page := page;
     PaginationInfo.limit := limit;
     PaginationInfo.total := total;
     PaginationInfo.totalPages := totalPages;
     PaginationInfo.hasNext := page <? totalPages;
     PaginationInfo.hasPrev := 1 <? page |}.

(** The envelope of a handler whose payload [ResponseData] does not list:
    the payload and message of [sendSuccess], or the text of [sendError]. *)
Module Envelope.
Record t (A : Type) := mk { statusCode : Z; body : (A * string) + string }.
Arguments mk {A} _ _.
Arguments statusCode {A} _.
Arguments body {A} _.

Definition success {A} (data : A) (message : string) : t A :=
  mk 200 (inl (data, message)).
Definition error {A} (statusCode : Z) (text : string) : t A :=
  mk statusCode (inr text).
End Envelope.

(** ** utils/jwt.utils.ts *)

(** [s.substring(n)] *)
Fixpoint substring_from (n : nat) (s : string) : string :=
  match n, s with
  | O, _ => s
  | S n', String _ s' => substring_from n' s'
  | S _, EmptyString => EmptyString
  end.

Definition extractTokenFromHeader (authHeader : option string)
    : option string :=
  match authHeader with
  | None => None
  | Some header =>
      if negb (truthy authHeader) || negb (String.prefix "Bearer " header)
      then None
      else Some (substring_from 7 header)
  end.

(** ** models/User.ts *)

Module UserModel.

Definition store := JsMap.t User.t.

(** [id] is the generated [user_<Date.now()>_<random>] key, [now] the
    [new Date()] of the call. *)
Definition create (users : store) (id : string) (now : Date)
    (userData : User.data) : User.t * store :=
  let user :=
    {| User.id := id;
       User.email := User.d_email userData;
       User.password := User.d_password userData;
       User.firstName := User.d_firstName userData;
       User.lastName := User.d_lastName userData;
       User.role := User.d_role userData;
       User.avatar := User.d_avatar userData;
       User.bio := User.d_bio userData;
       User.skills := User.d_skills userData;
       User.preferences := User.d_preferences userData;
       User.progress := User.d_progress userData;
       User.createdAt := now;
       User.updatedAt := now |} in
  (user, JsMap.set users id user).

Definition findById (users : store) (id : string) : option User.t :=
  JsMap.get users id.

(** The first user, in insertion order, with that email. *)
Definition findByEmail (users : store) (email : string) : option User.t :=
  snd <$> list_find (fun u => User.email u = email) (JsMap.values users).

Definition delete (users : store) (id : string) : bool * store :=
  JsMap.delete users id.

(** The user object after [user.progress = ...; user.updatedAt = now]. *)
Definition with_progress (user : User.t) (progress : list CourseProgress.t)
    (now : Date) : User.t :=
  {| User.id := User.id user;
     User.email := User.email user;
     User.password := User.password user;
     User.firstName := User.firstName user;
     User.lastName := User.lastName user;
     User.role := User.role user;
     User.avatar := User.avatar user;
     User.bio := User.bio user;
     User.skills := User.skills user;
     User.preferences := User.preferences user;
     User.progress := progress;
     User.createdAt := User.createdAt user;
     User.updatedAt := now |}.

(** [tEnrolled] and [tAccessed] are the two [new Date()] of the pushed
    literal (read only when a record is pushed), [tUpdated] the one stored in
    [updatedAt]. *)
Definition updateProgress (users : store) (userId courseId : string)
    (progress : CourseProgress.partial) (tEnrolled tAccessed tUpdated : Date)
    : bool * store :=
  match JsMap.get users userId with
  | None => (false, users)
  | Some user =>
      let progress' :=
        match list_find (fun p => CourseProgress.courseId p = courseId)
                        (User.progress user) with
        | Some (existingProgressIndex, existing) =>
            <[existingProgressIndex :=
                CourseProgress.spread existing progress]> (User.progress user)
        | None =>
            User.progress user ++
            [CourseProgress.spread
               {| CourseProgress.courseId := courseId;
                  CourseProgress.enrolledAt := tEnrolled;
                  CourseProgress.completedModules := Some [];
                  CourseProgress.currentModule := None;
                  CourseProgress.progressPercentage := Some 0%Q;
                  CourseProgress.lastAccessedAt := tAccessed;
                  CourseProgress.certificateEarned := None;
                  CourseProgress.certificateUrl := None |}
               progress]
        end in
      (true, JsMap.set users userId (with_progress user progress' tUpdated))
  end.

Definition getDefaultPreferences : UserPreferences.t :=
  {| UserPreferences.notifications := UserPreferences.mkN true true true false;
     UserPreferences.privacy := UserPreferences.mkP vis_public true;
     UserPreferences.learning :=
       UserPreferences.mkL diff_intermediate pace_normal None |}.

(** [Partial<User>]: [None] is an omitted key. *)
Record partial := mkPartial {
  p_id : option string;
  p_email : option string;
  p_password : option string;
  p_firstName : option string;
  p_lastName : option string;
  p_role : option UserRole;
  p_avatar : option (option string);
  p_bio : option (option string);
  p_skills : option (list string);
  p_preferences : option UserPreferences.t;
  p_progress : option (list CourseProgress.t);
  p_createdAt : option Date;
  p_updatedAt : option Date;
}.

(** [{ password: p }] *)
Definition password_only (p : string) : partial :=
  mkPartial None None (Some p) None None None None None None None None None
            None.

(** [{ ...user, ...updates, updatedAt: new Date() }] *)
Definition merged (user : User.t) (updates : partial) (now : Date) : User.t :=
  {| User.id := default (User.id user) (p_id updates);
     User.email := default (User.email user) (p_email updates);
     User.password := default (User.password user) (p_password updates);
     User.firstName := default (User.firstName user) (p_firstName updates);
     User.lastName := default (User.lastName user) (p_lastName updates);
     User.role := default (User.role user) (p_role updates);
     User.avatar := default (User.avatar user) (p_avatar updates);
     User.bio := default (User.bio user) (p_bio updates);
     User.skills := default (User.skills user) (p_skills updates);
     User.preferences :=
       default (User.preferences user) (p_preferences updates);
     User.progress := default (User.progress user) (p_progress updates);
     User.createdAt := default (User.createdAt user) (p_createdAt updates);
     User.updatedAt := now |}.

Definition update (users : store) (id : string) (updates : partial)
    (now : Date) : option User.t * store :=
  match JsMap.get users id with
  | None => (None, users)
  | Some user =>
      let updatedUser := merged user updates now in
      (Some updatedUser, JsMap.set users id updatedUser)
  end.

End UserModel.

(** ** models/Course.ts *)

Module CourseModel.

Definition store := JsMap.t Course.t.

Definition create (courses : store) (id : string) (now : Date)
    (courseData : Course.data) : Course.t * store :=
  let course :=
    {| Course.id := id;
       Course.title := Course.d_title courseData;
       Course.description := Course.d_description courseData;
       Course.shortDescription := Course.d_shortDescription courseData;
       Course.instructorId := Course.d_instructorId courseData;
       Course.instructorName := Course.d_instructorName courseData;
       Course.category := Course.d_category courseData;
       Course.subcategory := Course.d_subcategory courseData;
       Course.level := Course.d_level courseData;
       Course.price := Course.d_price courseData;
       Course.currency := Course.d_currency courseData;
       Course.thumbnail := Course.d_thumbnail courseData;
       Course.previewVideo := Course.d_previewVideo courseData;
       Course.duration := Course.d_duration courseData;
       Course.modules := Course.d_modules courseData;
       Course.requirements := Course.d_requirements courseData;
       Course.learningOutcomes := Course.d_learningOutcomes courseData;
       Course.tags := Course.d_tags courseData;
       Course.rating := Course.d_rating courseData;
       Course.reviewCount := Course.d_reviewCount courseData;
       Course.enrollmentCount := Course.d_enrollmentCount courseData;
       Course.isPublished := Course.d_isPublished courseData;
       Course.createdAt := now;
       Course.updatedAt := now |} in
  (course, JsMap.set courses id course).

Definition findById (courses : store) (id : string) : option Course.t :=
  JsMap.get courses id.

(** [{ ...course, ...updates, updatedAt: new Date() }] *)
Definition merged (course : Course.t) (updates : Course.partial) (now : Date)
    : Course.t :=
  {| Course.id := default (Course.id course) (Course.p_id updates);
     Course.title := default (Course.title course) (Course.p_title updates);
     Course.description :=
       default (Course.description course) (Course.p_description updates);
     Course.shortDescription :=
       default (Course.shortDescription course)
               (Course.p_shortDescription updates);
     Course.instructorId :=
       default (Course.instructorId course) (Course.p_instructorId updates);
     Course.instructorName :=
       default (Course.instructorName course) (Course.p_instructorName updates);
     Course.category :=
       default (Course.category course) (Course.p_category updates);
     Course.subcategory :=
       default (Course.subcategory course) (Course.p_subcategory updates);
     Course.level := default (Course.level course) (Course.p_level updates);
     Course.price := default (Course.price course) (Course.p_price updates);
     Course.currency :=
       default (Course.currency course) (Course.p_currency updates);
     Course.thumbnail :=
       default (Course.thumbnail course) (Course.p_thumbnail updates);
     Course.previewVideo :=
       default (Course.previewVideo course) (Course.p_previewVideo updates);
     Course.duration :=
       default (Course.duration course) (Course.p_duration updates);
     Course.modules := default (Course.modules course) (Course.p_modules updates);
     Course.requirements :=
       default (Course.requirements course) (Course.p_requirements updates);
     Course.learningOutcomes :=
       default (Course.learningOutcomes course)
               (Course.p_learningOutcomes updates);
     Course.tags := default (Course.tags course) (Course.p_tags updates);
     Course.rating := default (Course.rating course) (Course.p_rating updates);
     Course.reviewCount :=
       default (Course.reviewCount course) (Course.p_reviewCount updates);
     Course.enrollmentCount :=
       default (Course.enrollmentCount course)
               (Course.p_enrollmentCount updates);
     Course.isPublished :=
       default (Course.isPublished course) (Course.p_isPublished updates);
     Course.createdAt :=
       default (Course.createdAt course) (Course.p_createdAt updates);
     Course.updatedAt := now |}.

Definition update (courses : store) (id : string) (updates : Course.partial)
    (now : Date) : option Course.t * store :=
  match JsMap.get courses id with
  | None => (None, courses)
  | Some course =>
      let updatedCourse := merged course updates now in
      (Some updatedCourse, JsMap.set courses id updatedCourse)
  end.

(** The [search] filter.  [toLowerCase] is [String.prototype.toLowerCase]. *)
Definition matches_search (toLowerCase : string -> string)
    (course : Course.t) (search : string) : bool :=
  let searchTerm := toLowerCase search in
  includes (toLowerCase (Course.title course)) searchTerm
  || includes (toLowerCase (Course.description course)) searchTerm
  || existsb (fun tag => includes (toLowerCase tag) searchTerm)
             (Course.tags course).

Definition keep_if {A} (active : bool) (f : A -> bool) (l : list A) : list A :=
  if active then List.filter f l else l.

(** A filter value is applied when it is truthy ([category], [level],
    [instructorId], [search], [rating]) or defined ([priceMin],
    [priceMax]). *)
Definition findAll (toLowerCase : string -> string) (courses : store)
    (filters : FindAllFilters.t) : list Course.t :=
  let courseList := JsMap.values courses in
  let courseList :=
    keep_if (truthy (FindAllFilters.category filters))
      (fun course =>
         bool_decide (Some (Course.category course)
                      = FindAllFilters.category filters)) courseList in
  let courseList :=
    keep_if (bool_decide (is_Some (FindAllFilters.level filters)))
      (fun course =>
         bool_decide (Some (Course.level course)
                      = FindAllFilters.level filters)) courseList in
  let courseList :=
    keep_if (truthy (FindAllFilters.instructorId filters))
      (fun course =>
         bool_decide (Some (Course.instructorId course)
                      = FindAllFilters.instructorId filters)) courseList in
  let courseList :=
    keep_if (truthy (FindAllFilters.search filters))
      (fun course =>
         matches_search toLowerCase course
           (default "" (FindAllFilters.search filters)))
      courseList in
  let courseList :=
    match FindAllFilters.priceMin filters with
    | Some priceMin =>
        List.filter (fun course => Qle_bool priceMin (Course.price course))
                    courseList
    | None => courseList
    end in
  let courseList :=
    match FindAllFilters.priceMax filters with
    | Some priceMax =>
        List.filter (fun course => Qle_bool (Course.price course) priceMax)
                    courseList
    | None => courseList
    end in
  let courseList :=
    match FindAllFilters.rating filters with
    | Some rating =>
        keep_if (negb (Qeq_bool rating 0))
          (fun course => Qle_bool rating (Course.rating course)) courseList
    | None => courseList
    end in
  keep_if (negb (FindAllFilters.includeUnpublished filters))
    Course.isPublished courseList.

(** The course object after [course.enrollmentCount += 1;
    course.updatedAt = now]. *)
Definition enrolled_once_more (course : Course.t) (now : Date) : Course.t :=
  merged course
    {| Course.p_id := None; Course.p_title := None;
       Course.p_description := None; Course.p_shortDescription := None;
       Course.p_instructorId := None; Course.p_instructorName := None;
       Course.p_category := None; Course.p_subcategory := None;
       Course.p_level := None; Course.p_price := None;
       Course.p_currency := None; Course.p_thumbnail := None;
       Course.p_previewVideo := None; Course.p_duration := None;
       Course.p_modules := None; Course.p_requirements := None;
       Course.p_learningOutcomes := None; Course.p_tags := None;
       Course.p_rating := None; Course.p_reviewCount := None;
       Course.p_enrollmentCount := Some (Course.enrollmentCount course + 1);
       Course.p_isPublished := None; Course.p_createdAt := None;
       Course.p_updatedAt := None |} now.

Definition incrementEnrollment (courses : store) (courseId : string)
    (now : Date) : bool * store :=
  match JsMap.get courses courseId with
  | None => (false, courses)
  | Some course =>
      (true, JsMap.set courses courseId (enrolled_once_more course now))
  end.

Definition delete (courses : store) (id : string) : bool * store :=
  JsMap.delete courses id.

Definition findByInstructor (courses : store) (instructorId : string)
    : list Course.t :=
  List.filter
    (fun course => bool_decide (Course.instructorId course = instructorId))
    (JsMap.values courses).

(** [{ isPublished: true }] *)
Definition published : Course.partial :=
  Course.mkPartial None None None None None None None None None None None
    None None None None None None None None None None (Some true) None None.

End CourseModel.

(** ** models/Payment.ts *)

Module PaymentModel.

Definition store := JsMap.t PaymentIntent.t.

Definition create (payments : store) (id : string) (now : Date)
    (paymentData : PaymentIntent.data) : PaymentIntent.t * store :=
  let payment :=
    {| PaymentIntent.id := id;
       PaymentIntent.amount := PaymentIntent.d_amount paymentData;
       PaymentIntent.currency := PaymentIntent.d_currency paymentData;
       PaymentIntent.status := PaymentIntent.d_status paymentData;
       PaymentIntent.courseId := PaymentIntent.d_courseId paymentData;
       PaymentIntent.userId := PaymentIntent.d_userId paymentData;
       PaymentIntent.stripePaymentIntentId :=
         PaymentIntent.d_stripePaymentIntentId paymentData;
       PaymentIntent.createdAt := now;
       PaymentIntent.updatedAt := now |} in
  (payment, JsMap.set payments id payment).

Definition findById (payments : store) (id : string)
    : option PaymentIntent.t :=
  JsMap.get payments id.

Definition findByStripeId (payments : store) (stripePaymentIntentId : string)
    : option PaymentIntent.t :=
  snd <$> list_find
            (fun p => PaymentIntent.stripePaymentIntentId p
                      = stripePaymentIntentId)
            (JsMap.values payments).

Definition merged (payment : PaymentIntent.t) (updates : PaymentIntent.partial)
    (now : Date) : PaymentIntent.t :=
  {| PaymentIntent.id :=
       default (PaymentIntent.id payment) (PaymentIntent.p_id updates);
     PaymentIntent.amount :=
       default (PaymentIntent.amount payment) (PaymentIntent.p_amount updates);
     PaymentIntent.currency :=
       default (PaymentIntent.currency payment)
               (PaymentIntent.p_currency updates);
     PaymentIntent.status :=
       default (PaymentIntent.status payment) (PaymentIntent.p_status updates);
     PaymentIntent.courseId :=
       default (PaymentIntent.courseId payment)
               (PaymentIntent.p_courseId updates);
     PaymentIntent.userId :=
       default (PaymentIntent.userId payment) (PaymentIntent.p_userId updates);
     PaymentIntent.stripePaymentIntentId :=
       default (PaymentIntent.stripePaymentIntentId payment)
               (PaymentIntent.p_stripePaymentIntentId updates);
     PaymentIntent.createdAt :=
       default (PaymentIntent.createdAt payment)
               (PaymentIntent.p_createdAt updates);
     PaymentIntent.updatedAt := now |}.

Definition update (payments : store) (id : string)
    (updates : PaymentIntent.partial) (now : Date)
    : option PaymentIntent.t * store :=
  match JsMap.get payments id with
  | None => (None, payments)
  | Some payment =>
      let updatedPayment := merged payment updates now in
      (Some updatedPayment, JsMap.set payments id updatedPayment)
  end.

Definition findSuccessfulPayment (payments : store) (userId courseId : string)
    : option PaymentIntent.t :=
  snd <$> list_find
            (fun p => PaymentIntent.userId p = userId
                      /\ PaymentIntent.courseId p = courseId
                      /\ PaymentIntent.status p = SUCCEEDED)
            (JsMap.values payments).

(** Every record is stored under its own [id], as [create] does. *)
Definition keyed_by_id (payments : store) : Prop :=
  Forall (fun e => PaymentIntent.id e.2 = e.1) payments.

End PaymentModel.

(** The module-level [initializeUsers()]: the three demo accounts, created
    in this order under the generated ids [ids] at the instants [ts]. *)
Definition demoUser (email firstName lastName bio : string) (role : UserRole)
    (skills : list string) : User.data :=
  {| User.d_email := email;
     User.d_password :=
       "$2a$10$92IXUNpkjO0rOQ5byMi.Ye4oKoEa3Ro9llC/.og/at2.uheWG/igi";
     User.d_firstName := firstName;
     User.d_lastName := lastName;
     User.d_role := role;
     User.d_avatar := None;
     User.d_bio := Some bio;
     User.d_skills := skills;
     User.d_preferences := UserModel.getDefaultPreferences;
     User.d_progress := [] |}.

Definition initializeUsers (ids : string * string * string)
    (ts : Date * Date * Date) : UserModel.store :=
  let '(id1, id2, id3) := ids in
  let '(t1, t2, t3) := ts in
  let users := JsMap.empty in
  let users :=
    (UserModel.create users id1 t1
       (demoUser "admin@skillforge.com" "Admin" "User" "System administrator"
          ADMIN ["Management"; "System Administration"])).2 in
  let users :=
    (UserModel.create users id2 t2
       (demoUser "instructor@skillforge.com" "John" "Instructor"
          "Experienced software developer and instructor" INSTRUCTOR
          ["JavaScript"; "React"; "Node.js"; "Teaching"])).2 in
  (UserModel.create users id3 t3
     (demoUser "student@skillforge.com" "Jane" "Student"
        "Aspiring web developer" STUDENT ["HTML"; "CSS"])).2.

(** ** services/stripe.service.ts

    The provider's answer is the argument: the [status] of the retrieved
    payment intent or of the created refund, the event rebuilt from a signed
    payload; [None] when the client throws. *)

Module stripeService.

Definition confirmPayment (retrieved : option string) : option PaymentStatus :=
  (fun status : string =>
     if String.eqb status "succeeded" then SUCCEEDED
     else if String.eqb status "processing" then PENDING
     else if String.eqb status "requires_payment_method"
             || String.eqb status "requires_confirmation"
             || String.eqb status "requires_action" then PENDING
     else if String.eqb status "canceled" then CANCELED
     else FAILED) <$> retrieved.

Definition refundPayment (refund : option string) : option bool :=
  (fun status : string => String.eqb status "succeeded") <$> refund.

Definition handleWebhook (constructed : option StripeWebhookEvent.t)
    : option StripeWebhookEvent.t :=
  constructed.

(** [created] is the intent the provider opened for the course's price,
    [None] when the client throws. *)
Definition createPaymentIntent (created : option PaymentIntentResponse.t)
    : option PaymentIntentResponse.t :=
  created.

End stripeService.

(** ** middleware/auth.middleware.ts

    [Bearer] is what [extractTokenFromHeader] and [verifyAccessToken] make of
    the [Authorization] header.  A middleware answers [inl response] when it
    ends the request and [inr user] when it calls [next()]. *)

Inductive Bearer :=
  | no_token
  | invalid_token
  | valid_token (payload : JWTPayload.t).

Definition authenticate (header : Bearer) : Response.t + option JWTPayload.t :=
  match header with
  | no_token => inl (sendUnauthorized "Access token required")
  | invalid_token => inl (sendUnauthorized "Invalid or expired token")
  | valid_token payload => inr (Some payload)
  end.

Definition optionalAuth (header : Bearer) : Response.t + option JWTPayload.t :=
  match header with
  | valid_token payload => inr (Some payload)
  | _ => inr None
  end.

Definition authorize (roles : list UserRole) (user : option JWTPayload.t)
    : Response.t + option JWTPayload.t :=
  match user with
  | None => inl (sendUnauthorized "Authentication required")
  | Some u =>
      if bool_decide (JWTPayload.role u ∈ roles) then inr user
      else inl (sendForbidden "Insufficient permissions")
  end.

Definition requireInstructorOrAdmin (user : option JWTPayload.t)
    : Response.t + option JWTPayload.t :=
  match user with
  | None => inl (sendUnauthorized "Authentication required")
  | Some u =>
      if bool_decide (JWTPayload.role u <> INSTRUCTOR)
         && bool_decide (JWTPayload.role u <> ADMIN)
      then inl (sendForbidden "Instructor or admin access required")
      else inr user
  end.

(** [resourceId] is [req.params[resourceIdParam]]. *)
Definition requireOwnership (resourceIdParam : string)
    (resourceId : option string) (user : option JWTPayload.t)
    : Response.t + option JWTPayload.t :=
  match user with
  | None => inl (sendUnauthorized "Authentication required")
  | Some u =>
      if bool_decide (JWTPayload.role u = ADMIN) then inr user
      else if (String.eqb resourceIdParam "userId"
               || String.eqb resourceIdParam "id")
              && bool_decide (resourceId <> Some (JWTPayload.userId u))
      then inl (sendForbidden
                  "Access denied: You can only access your own resources")
      else inr user
  end.

(** ** middleware/validation.middleware.ts: [validateFile] *)

Module UploadedFile.
Record t := mk { mimetype : string; size : Z }.
End UploadedFile.

Module FileOptions.
(** The options after their defaults were applied. *)
Record t := mk {
  required : bool;
  maxSize : Z;
  allowedTypes : list string;
}.

(** [{ required = false, maxSize = 10 * 1024 * 1024, allowedTypes = [] }] *)
Definition defaults (required : option bool) (maxSize : option Z)
    (allowedTypes : option (list string)) : t :=
  mk (default false required) (default (10 * 1024 * 1024) maxSize)
     (default [] allowedTypes).
End FileOptions.

(** One element of [allowedTypes] against the file's [mimetype]: a full type
    must be equal, a family (no [/]) must be followed by [/]. *)
Definition type_allows (mimetype type : string) : bool :=
  if includes type "/" then String.eqb mimetype type
  else String.prefix (type +:+ "/") mimetype.

(** [None] is [next()]. *)
Definition validateFile (options : FileOptions.t)
    (file : option UploadedFile.t) : option Response.t :=
  match file with
  | None =>
      if FileOptions.required options
      then Some (sendError 400 "Validation failed")
      else None
  | Some f =>
      if (0 <? Z.of_nat (length (FileOptions.allowedTypes options)))
         && negb (existsb (type_allows (UploadedFile.mimetype f))
                          (FileOptions.allowedTypes options))
      then Some (sendError 400 "Validation failed")
      else if FileOptions.maxSize options <? UploadedFile.size f
      then Some (sendError 400 "Validation failed")
      else None
  end.

(** [Number.MAX_SAFE_INTEGER], the largest number [Joi.number()] admits
    unless [unsafe()] is asked for. *)
Definition MAX_SAFE_INTEGER : Z := 9007199254740991.

(** [validateQuery(paginationSchema)] on a query whose [page] and [limit],
    when present, are whole numbers: Joi refuses a key the schema does not
    list, a [page] below 1 or beyond the safe integers and a [limit] outside
    1..100. *)
Definition validatePagination (query : CourseQuery.t)
    : Response.t + CourseQuery.t :=
  let in_range (lo hi : Z) (v : option Z) :=
    match v with Some n => (lo <=? n) && (n <=? hi) | None => true end in
  let page_ok := in_range 1 MAX_SAFE_INTEGER (CourseQuery.page query) in
  let only_pagination :=
    bool_decide (CourseQuery.sortBy query = None)
    && bool_decide (CourseQuery.sortOrder query = None)
    && bool_decide (CourseQuery.category query = None)
    && bool_decide (CourseQuery.level query = None)
    && bool_decide (CourseQuery.instructorId query = None)
    && bool_decide (CourseQuery.search query = None)
    && match CourseQuery.priceMin query, CourseQuery.priceMax query,
             CourseQuery.rating query with
       | None, None, None => true
       | _, _, _ => false
       end in
  if page_ok && in_range 1 100 (CourseQuery.limit query) && only_pagination
  then inr query
  else inl (sendError 400 "Validation failed").

(** ** The three stores of the process *)

Module State.
Record t := mk {
  users : UserModel.store;
  courses : CourseModel.store;
  payments : PaymentModel.store;
}.

Definition with_users (st : t) (users' : UserModel.store) : t :=
  mk users' (courses st) (payments st).
Definition with_courses (st : t) (courses' : CourseModel.store) : t :=
  mk (users st) courses' (payments st).
Definition with_payments (st : t) (payments' : PaymentModel.store) : t :=
  mk (users st) (courses st) payments'.
End State.

Definition Clock := nat -> Date.

(** ** controllers/auth.controller.ts *)

Module AuthController.

Definition userProfile (user : User.t) : UserProfile.t :=
  {| UserProfile.id := User.id user;
     UserProfile.email := User.email user;
     UserProfile.firstName := User.firstName user;
     UserProfile.lastName := User.lastName user;
     UserProfile.role := User.role user;
     UserProfile.avatar := User.avatar user;
     UserProfile.createdAt := User.createdAt user;
     UserProfile.updatedAt := User.updatedAt user |}.

(** The signup handler suspends at [await bcrypt.hash], between the lookup
    of the email and the insertion.  [signup_check] is the handler up to
    that point, on the stores of then: the 409 answer that ends it, or
    [None] when it goes on to hash the password. *)
Definition signup_check (body : SignupRequest.t) (st : State.t)
    : option Response.t :=
  match UserModel.findByEmail (State.users st) (SignupRequest.email body) with
  | Some existingUser =>
      Some (sendError 409 "User with this email already exists")
  | None => None
  end.

(** [signup_insert] is the handler from its resumption to its answer, on the
    stores the process has by then.  [id] and [now] are the key and the
    instant [UserModel.create] draws, [hashedPassword] the digest
    [bcrypt.hash] returned, [generateTokenPair] the signing of the two
    tokens. *)
Definition signup_insert (body : SignupRequest.t) (id : string) (now : Date)
    (hashedPassword : string)
    (generateTokenPair : JWTPayload.t -> string * string)
    (st : State.t) : Response.t * State.t :=
  let email := SignupRequest.email body in
  let role := default STUDENT (SignupRequest.role body) in
  let '(user, users') :=
    UserModel.create (State.users st) id now
      {| User.d_email := email;
         User.d_password := hashedPassword;
         User.d_firstName := SignupRequest.firstName body;
         User.d_lastName := SignupRequest.lastName body;
         User.d_role := role;
         User.d_avatar := None;
         User.d_bio := Some "";
         User.d_skills := [];
         User.d_preferences := UserModel.getDefaultPreferences;
         User.d_progress := [] |} in
  let tokens :=
    generateTokenPair
      (JWTPayload.mk (User.id user) (User.email user) (User.role user)) in
  (sendSuccess (data_auth (userProfile user) tokens.1 tokens.2)
     "Account created successfully" None,
   State.with_users st users').

(** The handler when no other handler runs while it is suspended: the
    insertion acts on the stores the lookup read. *)
Definition signup (body : SignupRequest.t) (id : string) (now : Date)
    (hashedPassword : string)
    (generateTokenPair : JWTPayload.t -> string * string)
    (st : State.t) : Response.t * State.t :=
  match signup_check body st with
  | Some response => (response, st)
  | None => signup_insert body id now hashedPassword generateTokenPair st
  end.

(** [compare] is [bcrypt.compare]. *)
Definition login (email password : string)
    (compare : string -> string -> bool)
    (generateTokenPair : JWTPayload.t -> string * string)
    (st : State.t) : Response.t :=
  match UserModel.findByEmail (State.users st) email with
  | None => sendUnauthorized "Invalid email or password"
  | Some user =>
      if negb (compare password (User.password user))
      then sendUnauthorized "Invalid email or password"
      else
        let tokens :=
          generateTokenPair
            (JWTPayload.mk (User.id user) (User.email user) (User.role user)) in
        sendSuccess (data_auth (userProfile user) tokens.1 tokens.2)
          "Login successful" None
  end.

(** [verified] is the payload [verifyRefreshToken] returns, [None] when it
    throws. *)
Definition refreshToken (verified : option JWTPayload.t)
    (generateTokenPair : JWTPayload.t -> string * string)
    (st : State.t) : Envelope.t (string * string) :=
  match verified with
  | None => Envelope.error 401 "Invalid or expired refresh token"
  | Some payload =>
      match UserModel.findById (State.users st) (JWTPayload.userId payload) with
      | None => Envelope.error 401 "User not found"
      | Some user =>
          Envelope.success
            (generateTokenPair
               (JWTPayload.mk (User.id user) (User.email user)
                  (User.role user)))
            "Tokens refreshed successfully"
      end
  end.

(** [hashedNewPassword] is the digest [bcrypt.hash] returns for the new
    password. *)
Definition changePassword (user : option JWTPayload.t)
    (currentPassword : string) (compare : string -> string -> bool)
    (hashedNewPassword : string) (now : Date) (st : State.t)
    : Response.t * State.t :=
  match user with
  | None => (sendUnauthorized "Authentication required", st)
  | Some caller =>
      match UserModel.findById (State.users st) (JWTPayload.userId caller) with
      | None => (sendError 404 "User not found", st)
      | Some stored =>
          if negb (compare currentPassword (User.password stored))
          then (sendUnauthorized "Current password is incorrect", st)
          else
            (sendSuccess data_null "Password changed successfully" None,
             State.with_users st
               (UserModel.update (State.users st) (User.id stored)
                  (UserModel.password_only hashedNewPassword) now).2)
      end
  end.

End AuthController.

(** ** controllers/course.controller.ts *)

Module CourseController.

Definition field_lt (key : SortKey) (a b : Course.t) : bool :=
  match key with
  | by_title => String.ltb (Course.title a) (Course.title b)
  | by_price => negb (Qle_bool (Course.price b) (Course.price a))
  | by_rating => negb (Qle_bool (Course.rating b) (Course.rating a))
  | by_enrollmentCount => Course.enrollmentCount a <? Course.enrollmentCount b
  | by_createdAt => Course.createdAt a <? Course.createdAt b
  end.

(** The comparator handed to [courses.sort]. *)
Definition compare (sortBy : SortKey) (sortOrder : SortOrder)
    (a b : Course.t) : Z :=
  match sortOrder with
  | asc => if field_lt sortBy b a then 1 else -1
  | desc => if field_lt sortBy a b then 1 else -1
  end.

Definition is_admin (user : option JWTPayload.t) : bool :=
  bool_decide (JWTPayload.role <$> user = Some ADMIN).

Definition getAllCourses (toLowerCase : string -> string)
    (user : option JWTPayload.t) (query : CourseQuery.t) (st : State.t)
    : Response.t :=
  let page := default 1 (CourseQuery.page query) in
  let limit := default 12 (CourseQuery.limit query) in
  let sortBy := default by_createdAt (CourseQuery.sortBy query) in
  let sortOrder := default desc (CourseQuery.sortOrder query) in
  let courses :=
    CourseModel.findAll toLowerCase (State.courses st)
      {| FindAllFilters.category := CourseQuery.category query;
         FindAllFilters.level := CourseQuery.level query;
         FindAllFilters.instructorId := CourseQuery.instructorId query;
         FindAllFilters.search := CourseQuery.search query;
         FindAllFilters.priceMin := CourseQuery.priceMin query;
         FindAllFilters.priceMax := CourseQuery.priceMax query;
         FindAllFilters.rating := CourseQuery.rating query;
         FindAllFilters.includeUnpublished := is_admin user |} in
  let courses := sort (compare sortBy sortOrder) courses in
  let startIndex := (page - 1) * limit in
  let endIndex := startIndex + limit in
  let paginatedCourses := slice courses startIndex endIndex in
  let pagination := createPagination page limit (Z.of_nat (length courses)) in
  sendSuccess (data_courses paginatedCourses) "Courses retrieved successfully"
    (Some pagination).

Definition getCourseById (user : option JWTPayload.t) (id : string)
    (st : State.t) : Response.t :=
  match CourseModel.findById (State.courses st) id with
  | None => sendNotFound "Course"
  | Some course =>
      if negb (Course.isPublished course)
         && negb (is_admin user)
         && bool_decide (JWTPayload.userId <$> user
                         <> Some (Course.instructorId course))
      then sendForbidden "Course not available"
      else
        let userProgress :=
          u ← user;
          stored ← UserModel.findById (State.users st) (JWTPayload.userId u);
          snd <$> list_find (fun p => CourseProgress.courseId p = id)
                            (User.progress stored) in
        sendSuccess
          (data_course_detail course
             (bool_decide (is_Some userProgress)) userProgress)
          "Course retrieved successfully" None
  end.


Definition updateCourse (user : option JWTPayload.t) (id : string)
    (updates : UpdateCourseRequest.t) (now : Date) (st : State.t)
    : Response.t * State.t :=
  match user with
  | None => (sendError 401 "Authentication required", st)
  | Some caller =>
      match CourseModel.findById (State.courses st) id with
      | None => (sendNotFound "Course", st)
      | Some course =>
          if bool_decide (Course.instructorId course <> JWTPayload.userId caller)
             && bool_decide (JWTPayload.role caller <> ADMIN)
          then (sendForbidden "You can only update your own courses", st)
          else
            match CourseModel.update (State.courses st) id
                    (UpdateCourseRequest.as_partial updates) now with
            | (None, courses') =>
                (sendNotFound "Course", State.with_courses st courses')
            | (Some updatedCourse, courses') =>
                (sendSuccess (data_course updatedCourse)
                   "Course updated successfully" None,
                 State.with_courses st courses')
            end
      end
  end.

(** The block both enrollment branches run: [UserModel.updateProgress] with
    a fresh record, then [CourseModel.incrementEnrollment]. *)
Definition enroll (userId id : string) (clk : Clock) (st : State.t)
    : Response.t * State.t :=
  let users' :=
    (UserModel.updateProgress (State.users st) userId id
       {| CourseProgress.p_courseId := Some id;
          CourseProgress.p_enrolledAt := Some (clk 0%nat);
          CourseProgress.p_completedModules := Some (Some []);
          CourseProgress.p_currentModule := None;
          CourseProgress.p_progressPercentage := Some (Some 0%Q);
          CourseProgress.p_lastAccessedAt := Some (clk 1%nat);
          CourseProgress.p_certificateEarned := None;
          CourseProgress.p_certificateUrl := None |}
       (clk 2%nat) (clk 3%nat) (clk 4%nat)).2 in
  let courses' :=
    (CourseModel.incrementEnrollment (State.courses st) id (clk 5%nat)).2 in
  (sendSuccess data_null "Enrolled in course successfully" None,
   State.mk users' courses' (State.payments st)).

Definition enrollInCourse (user : option JWTPayload.t) (id : string)
    (paymentIntentId : option string) (clk : Clock) (st : State.t)
    : Response.t * State.t :=
  match user with
  | None => (sendError 401 "Authentication required", st)
  | Some caller =>
      match CourseModel.findById (State.courses st) id with
      | None => (sendNotFound "Course", st)
      | Some course =>
          if negb (Course.isPublished course)
          then (sendForbidden "Course is not available for enrollment", st)
          else
            match UserModel.findById (State.users st)
                    (JWTPayload.userId caller) with
            | None => (sendNotFound "User", st)
            | Some stored =>
                match list_find (fun p => CourseProgress.courseId p = id)
                                (User.progress stored) with
                | Some existingProgress =>
                    (sendError 409 "Already enrolled in this course", st)
                | None =>
                    if Qeq_bool (Course.price course) 0
                    then enroll (JWTPayload.userId caller) id clk st
                    else if negb (truthy paymentIntentId)
                    then (sendError 400 "Payment required for paid courses", st)
                    else
                      match PaymentModel.findByStripeId (State.payments st)
                              (default "" paymentIntentId) with
                      | Some payment =>
                          if bool_decide
                               (PaymentIntent.status payment <> SUCCEEDED)
                          then (sendError 400 "Payment not completed", st)
                          else enroll (JWTPayload.userId caller) id clk st
                      | None => (sendError 400 "Payment not completed", st)
                      end
                end
            end
      end
  end.

Definition deleteCourse (user : option JWTPayload.t) (id : string)
    (st : State.t) : Response.t * State.t :=
  match user with
  | None => (sendError 401 "Authentication required", st)
  | Some caller =>
      match CourseModel.findById (State.courses st) id with
      | None => (sendNotFound "Course", st)
      | Some course =>
          if bool_decide (Course.instructorId course <> JWTPayload.userId caller)
             && bool_decide (JWTPayload.role caller <> ADMIN)
          then (sendForbidden "You can only delete your own courses", st)
          else
            let '(success, courses') :=
              CourseModel.delete (State.courses st) id in
            if negb success
            then (sendError 500 "Failed to delete course",
                  State.with_courses st courses')
            else (sendSuccess data_null "Course deleted successfully" None,
                  State.with_courses st courses')
      end
  end.

Definition publishCourse (user : option JWTPayload.t) (id : string)
    (now : Date) (st : State.t) : Response.t * State.t :=
  match user with
  | None => (sendError 401 "Authentication required", st)
  | Some caller =>
      match CourseModel.findById (State.courses st) id with
      | None => (sendNotFound "Course", st)
      | Some course =>
          if bool_decide (Course.instructorId course <> JWTPayload.userId caller)
             && bool_decide (JWTPayload.role caller <> ADMIN)
          then (sendForbidden "You can only publish your own courses", st)
          else
            match CourseModel.update (State.courses st) id
                    CourseModel.published now with
            | (None, courses') =>
                (sendError 500 "Failed to publish course",
                 State.with_courses st courses')
            | (Some updatedCourse, courses') =>
                (sendSuccess (data_course updatedCourse)
                   "Course published successfully" None,
                 State.with_courses st courses')
            end
      end
  end.

Definition getInstructorCourses (user : option JWTPayload.t)
    (page limit : option Z) (st : State.t) : Response.t :=
  match user with
  | None => sendError 401 "Authentication required"
  | Some caller =>
      let page := default 1 page in
      let limit := default 10 limit in
      let courses :=
        CourseModel.findByInstructor (State.courses st)
          (JWTPayload.userId caller) in
      let startIndex := (page - 1) * limit in
      let endIndex := startIndex + limit in
      let paginatedCourses := slice courses startIndex endIndex in
      let pagination :=
        createPagination page limit (Z.of_nat (length courses)) in
      sendSuccess (data_courses paginatedCourses)
        "Instructor courses retrieved successfully" (Some pagination)
  end.

(** [q] is the search text of the query string. *)
Definition searchCourses (toLowerCase : string -> string)
    (user : option JWTPayload.t) (q : option string) (page limit : option Z)
    (st : State.t) : Response.t :=
  let page := default 1 page in
  let limit := default 12 limit in
  if negb (truthy q) then sendError 400 "Search query is required"
  else
    let courses :=
      CourseModel.findAll toLowerCase (State.courses st)
        {| FindAllFilters.category := None;
           FindAllFilters.level := None;
           FindAllFilters.instructorId := None;
           FindAllFilters.search := q;
           FindAllFilters.priceMin := None;
           FindAllFilters.priceMax := None;
           FindAllFilters.rating := None;
           FindAllFilters.includeUnpublished := is_admin user |} in
    let startIndex := (page - 1) * limit in
    let endIndex := startIndex + limit in
    let paginatedCourses := slice courses startIndex endIndex in
    let pagination :=
      createPagination page limit (Z.of_nat (length courses)) in
    sendSuccess (data_courses paginatedCourses)
      "Search results retrieved successfully" (Some pagination).

End CourseController.

(** ** controllers/payment.controller.ts *)

Module PaymentController.

(** The string value of the enum, as the template literal prints it. *)
Definition status_text (s : PaymentStatus) : string :=
  match s with
  | PENDING => "pending"
  | SUCCEEDED => "succeeded"
  | FAILED => "failed"
  | CANCELED => "canceled"
  | REFUNDED => "refunded"
  end.

(** [retrieved] is the provider's answer to the status query. *)
Definition confirmPayment (user : option JWTPayload.t)
    (paymentIntentId : string) (retrieved : option string) (now : Date)
    (st : State.t) : Response.t * State.t :=
  match user with
  | None => (sendError 401 "Authentication required", st)
  | Some caller =>
      match PaymentModel.findByStripeId (State.payments st) paymentIntentId with
      | None => (sendNotFound "Payment", st)
      | Some payment =>
          if bool_decide (PaymentIntent.userId payment
                          <> JWTPayload.userId caller)
          then (sendError 403 "Access denied", st)
          else
            match stripeService.confirmPayment retrieved with
            | None => (sendError 500 "Failed to confirm payment", st)
            | Some paymentStatus =>
                let payments' :=
                  (PaymentModel.update (State.payments st)
                     (PaymentIntent.id payment)
                     (PaymentIntent.status_only paymentStatus) now).2 in
                (if bool_decide (paymentStatus = SUCCEEDED)
                 then sendSuccess
                        (data_confirmed paymentStatus
                           (PaymentIntent.courseId payment))
                        "Payment confirmed successfully" None
                 else sendError 400 ("Payment " +:+ status_text paymentStatus),
                 State.with_payments st payments')
            end
      end
  end.

(** [refund] is the provider's answer to the refund request; the [amount]
    and [reason] of the body only travel to the provider. *)
Definition refundPayment (user : option JWTPayload.t)
    (paymentIntentId : string) (refund : option string) (now : Date)
    (st : State.t) : Response.t * State.t :=
  match user with
  | None => (sendError 401 "Authentication required", st)
  | Some caller =>
      match PaymentModel.findByStripeId (State.payments st) paymentIntentId with
      | None => (sendNotFound "Payment", st)
      | Some payment =>
          if bool_decide (PaymentIntent.userId payment
                          <> JWTPayload.userId caller)
             && bool_decide (JWTPayload.role caller <> ADMIN)
          then (sendError 403 "Access denied", st)
          else if bool_decide (PaymentIntent.status payment <> SUCCEEDED)
          then (sendBadRequest "Only successful payments can be refunded", st)
          else
            match stripeService.refundPayment refund with
            | None => (sendError 500 "Failed to process refund", st)
            | Some true =>
                let payments' :=
                  (PaymentModel.update (State.payments st)
                     (PaymentIntent.id payment)
                     (PaymentIntent.status_only REFUNDED) now).2 in
                (sendSuccess data_null "Refund processed successfully" None,
                 State.with_payments st payments')
            | Some false => (sendError 500 "Failed to process refund", st)
            end
      end
  end.

(** One [case] of the webhook's [switch]. *)
Definition mark (objectId : string) (status : PaymentStatus) (now : Date)
    (st : State.t) : State.t :=
  match PaymentModel.findByStripeId (State.payments st) objectId with
  | Some payment =>
      State.with_payments st
        (PaymentModel.update (State.payments st) (PaymentIntent.id payment)
           (PaymentIntent.status_only status) now).2
  | None => st
  end.

(** [constructed] is the event the provider's library rebuilds from the
    signed payload, [None] when the signature check throws. *)
Definition handleWebhook (constructed : option StripeWebhookEvent.t)
    (now : Date) (st : State.t) : Response.t * State.t :=
  match stripeService.handleWebhook constructed with
  | None =>
      (Response.mk 400
         (body_webhook_error "Webhook signature verification failed"), st)
  | Some event =>
      let st' :=
        if String.eqb (StripeWebhookEvent.type event) "payment_intent.succeeded"
        then mark (StripeWebhookEvent.object_id event) SUCCEEDED now st
        else if String.eqb (StripeWebhookEvent.type event)
                           "payment_intent.payment_failed"
        then mark (StripeWebhookEvent.object_id event) FAILED now st
        else st in
      (Response.mk 200 body_received, st')
  end.

(** [created] is the provider's answer, [id] and [now] the key and the
    instant [PaymentModel.create] draws.  The [currency] of the body only
    travels to the provider. *)
Definition createPaymentIntent (user : option JWTPayload.t)
    (courseId : string) (created : option PaymentIntentResponse.t)
    (id : string) (now : Date) (st : State.t)
    : Envelope.t PaymentIntentResponse.t * State.t :=
  match user with
  | None => (Envelope.error 401 "Authentication required", st)
  | Some caller =>
      match CourseModel.findById (State.courses st) courseId with
      | None => (Envelope.error 404 "Course not found", st)
      | Some course =>
          if negb (Course.isPublished course)
          then (Envelope.error 400 "Course is not available for purchase", st)
          else if Qeq_bool (Course.price course) 0
          then (Envelope.error 400 "This course is free", st)
          else
            match PaymentModel.findSuccessfulPayment (State.payments st)
                    (JWTPayload.userId caller) courseId with
            | Some existingPayment =>
                (Envelope.error 409 "Course already purchased", st)
            | None =>
                match stripeService.createPaymentIntent created with
                | None =>
                    (Envelope.error 500 "Failed to create payment intent", st)
                | Some paymentIntentResponse =>
                    (Envelope.success paymentIntentResponse
                       "Payment intent created successfully",
                     State.with_payments st
                       (PaymentModel.create (State.payments st) id now
                          {| PaymentIntent.d_amount :=
                               PaymentIntentResponse.amount
                                 paymentIntentResponse;
                             PaymentIntent.d_currency :=
                               PaymentIntentResponse.currency
                                 paymentIntentResponse;
                             PaymentIntent.d_status := PENDING;
                             PaymentIntent.d_courseId := courseId;
                             PaymentIntent.d_userId :=
                               JWTPayload.userId caller;
                             PaymentIntent.d_stripePaymentIntentId :=
                               PaymentIntentResponse.paymentIntentId
                                 paymentIntentResponse |}).2)
                end
            end
      end
  end.

End PaymentController.

(** ** controllers/user.controller.ts *)

Module ProgressBody.
(** The three members read from the unvalidated body of
    [PUT /users/progress/:courseId]; an absent member is [undefined]. *)
Record t := mk {
  completedModules : option (list string);
  currentModule : option string;
  progressPercentage : option Q;
}.
End ProgressBody.

Module UserController.

Definition updateProgress (user : option JWTPayload.t) (courseId : string)
    (body : ProgressBody.t) (clk : Clock) (st : State.t)
    : Response.t * State.t :=
  match user with
  | None => (sendError 401 "Authentication required", st)
  | Some caller =>
      let '(success, users') :=
        UserModel.updateProgress (State.users st) (JWTPayload.userId caller)
          courseId
          {| CourseProgress.p_courseId := None;
             CourseProgress.p_enrolledAt := None;
             CourseProgress.p_completedModules :=
               Some (ProgressBody.completedModules body);
             CourseProgress.p_currentModule :=
               Some (ProgressBody.currentModule body);
             CourseProgress.p_progressPercentage :=
               Some (ProgressBody.progressPercentage body);
             CourseProgress.p_lastAccessedAt := Some (clk 0%nat);
             CourseProgress.p_certificateEarned := None;
             CourseProgress.p_certificateUrl := None |}
          (clk 1%nat) (clk 2%nat) (clk 3%nat) in
      if negb success then (sendNotFound "User", State.with_users st users')
      else (sendSuccess data_null "Progress updated successfully" None,
            State.with_users st users')
  end.

Definition deleteAccount (user : option JWTPayload.t) (st : State.t)
    : Response.t * State.t :=
  match user with
  | None => (sendError 401 "Authentication required", st)
  | Some caller =>
      let '(success, users') :=
        UserModel.delete (State.users st) (JWTPayload.userId caller) in
      if negb success then (sendNotFound "User", State.with_users st users')
      else (sendSuccess data_null "Account deleted successfully" None,
            State.with_users st users')
  end.

End UserController.

(** ** routes/*.routes.ts: the middleware chain in front of each handler

    [validateBody] and [validateParams] are represented by the types of the
    arguments; [validateQuery(paginationSchema)] is [validatePagination]. *)

Module Routes.

Definition chain {A} (gate : Response.t + A)
    (handler : A -> Response.t * State.t) (st : State.t)
    : Response.t * State.t :=
  match gate with
  | inl response => (response, st)
  | inr a => handler a
  end.

(** [GET /api/courses] *)
Definition get_courses (toLowerCase : string -> string) (header : Bearer)
    (query : CourseQuery.t) (st : State.t) : Response.t :=
  match optionalAuth header, validatePagination query with
  | inl response, _ => response
  | inr _, inl response => response
  | inr user, inr query' =>
      CourseController.getAllCourses toLowerCase user query' st
  end.

(** [GET /api/courses/:id] *)
Definition get_course (header : Bearer) (id : string) (st : State.t)
    : Response.t :=
  match optionalAuth header with
  | inl response => response
  | inr user => CourseController.getCourseById user id st
  end.

(** [POST /api/courses/:id/enroll] *)
Definition post_course_enroll (header : Bearer) (id : string)
    (paymentIntentId : option string) (clk : Clock) (st : State.t)
    : Response.t * State.t :=
  chain (authenticate header)
    (fun user => CourseController.enrollInCourse user id paymentIntentId clk st)
    st.



(** [PUT /api/users/progress/:courseId] *)
Definition put_user_progress (header : Bearer) (courseId : string)
    (body : ProgressBody.t) (clk : Clock) (st : State.t)
    : Response.t * State.t :=
  chain (authenticate header)
    (fun user => UserController.updateProgress user courseId body clk st) st.

(** [DELETE /api/users/account] *)
Definition delete_user_account (header : Bearer) (st : State.t)
    : Response.t * State.t :=
  chain (authenticate header)
    (fun user => UserController.deleteAccount user st) st.

(** [POST /api/payments/confirm] *)
Definition post_payments_confirm (header : Bearer) (paymentIntentId : string)
    (retrieved : option string) (now : Date) (st : State.t)
    : Response.t * State.t :=
  chain (authenticate header)
    (fun user =>
       PaymentController.confirmPayment user paymentIntentId retrieved now st)
    st.

(** [POST /api/payments/refund] *)
Definition post_payments_refund (header : Bearer) (paymentIntentId : string)
    (refund : option string) (now : Date) (st : State.t)
    : Response.t * State.t :=
  chain (authenticate header)
    (fun user =>
       PaymentController.refundPayment user paymentIntentId refund now st)
    st.

(** [validateQuery(paginationSchema)] on the query of the search route,
    whose key [q] the schema does not list. *)
Definition validateSearchQuery (q : option string) (page limit : option Z)
    : option Response.t :=
  let page_ok :=
    match page with
    | Some n => (1 <=? n) && (n <=? MAX_SAFE_INTEGER)
    | None => true
    end in
  let limit_ok :=
    match limit with Some n => (1 <=? n) && (n <=? 100) | None => true end in
  let q_absent := match q with Some _ => false | None => true end in
  if page_ok && limit_ok && q_absent then None
  else Some (sendError 400 "Validation failed").

(** [GET /api/courses/search] *)
Definition get_courses_search (toLowerCase : string -> string)
    (header : Bearer) (q : option string) (page limit : option Z)
    (st : State.t) : Response.t :=
  match optionalAuth header, validateSearchQuery q page limit with
  | inl response, _ => response
  | inr _, Some response => response
  | inr user, None =>
      CourseController.searchCourses toLowerCase user q page limit st
  end.

(** [DELETE /api/courses/:id] *)
Definition delete_course (header : Bearer) (id : string) (st : State.t)
    : Response.t * State.t :=
  chain (authenticate header)
    (fun user =>
       chain (requireInstructorOrAdmin user)
         (fun user => CourseController.deleteCourse user id st) st)
    st.

(** [POST /api/courses/:id/publish] *)
Definition post_course_publish (header : Bearer) (id : string) (now : Date)
    (st : State.t) : Response.t * State.t :=
  chain (authenticate header)
    (fun user =>
       chain (requireInstructorOrAdmin user)
         (fun user => CourseController.publishCourse user id now st) st)
    st.

End Routes.

(** ** Predicates of the specification *)

(** No two stored users share an email. *)
Definition emails_unique (users : UserModel.store) : Prop :=
  NoDup (User.email <$> JsMap.values users).

(** The stored users with a given email. *)
Definition users_with_email (users : UserModel.store) (email : string)
    : list User.t :=
  filter (fun u => User.email u = email) (JsMap.values users).

(** The progress records a user holds for a course. *)
Definition progress_for (user : User.t) (courseId : string)
    : list CourseProgress.t :=
  filter (fun p => CourseProgress.courseId p = courseId) (User.progress user).

(** The record [enroll] pushes for a user who has none for the course. *)
Definition enrolled_record (id : string) (clk : Clock) : CourseProgress.t :=
  {| CourseProgress.courseId := id;
     CourseProgress.enrolledAt := clk 0%nat;
     CourseProgress.completedModules := Some [];
     CourseProgress.currentModule := None;
     CourseProgress.progressPercentage := Some 0%Q;
     CourseProgress.lastAccessedAt := clk 1%nat;
     CourseProgress.certificateEarned := None;
     CourseProgress.certificateUrl := None |}.

(** The course holds the search text, both lowered, in its title, in its
    description or in one of its tags. *)
Definition holds_text (toLowerCase : string -> string) (course : Course.t)
    (search : string) : Prop :=
  includes (toLowerCase (Course.title course)) (toLowerCase search) = true
  \/ includes (toLowerCase (Course.description course)) (toLowerCase search)
     = true
  \/ exists tag,
       tag ∈ Course.tags course
       /\ includes (toLowerCase tag) (toLowerCase search) = true.

(** The courses a listing response carries. *)
Definition listed (response : Response.t) : list Course.t :=
  match Response.body response with
  | body_success (data_courses l) _ _ => l
  | _ => []
  end.

(** The payment stored under [id] belongs to the provider intent [stripeId]
    and is Succeeded or Refunded. *)
Definition settled (payments : PaymentModel.store) (id stripeId : string)
    : Prop :=
  exists p,
    PaymentModel.findById payments id = Some p
    /\ PaymentIntent.stripePaymentIntentId p = stripeId
    /\ (PaymentIntent.status p = SUCCEEDED
        \/ PaymentIntent.status p = REFUNDED).

(** The payment store is a well-formed [Map] keyed by the records' ids. *)
Definition sound (payments : PaymentModel.store) : Prop :=
  JsMap.wf payments /\ PaymentModel.keyed_by_id payments.

(** The status that the [switch] of the webhook handler writes for an event,
    if its type is one of the two the handler acts on. *)
Definition event_status (event : StripeWebhookEvent.t)
    : option PaymentStatus :=
  if String.eqb (StripeWebhookEvent.type event) "payment_intent.succeeded"
  then Some SUCCEEDED
  else if String.eqb (StripeWebhookEvent.type event)
                     "payment_intent.payment_failed"
  then Some FAILED
  else None.

(** No stored user holds two progress records for the same course. *)
Definition one_progress_per_course (users : UserModel.store) : Prop :=
  forall id user,
    UserModel.findById users id = Some user ->
    NoDup (CourseProgress.courseId <$> User.progress user).

(** The window of a list that the handlers return for a page. *)
Definition page_window {A} (l : list A) (page limit : Z) : list A :=
  slice l ((page - 1) * limit) ((page - 1) * limit + limit).

(** The pages 1 to [n], one after the other. *)
Definition pages_upto {A} (l : list A) (limit : Z) (n : nat) : list A :=
  concat ((fun k => page_window l (Z.of_nat k + 1) limit) <$> seq 0 n).

(** An operation on a stored course that is neither its creation nor its
    deletion. *)
Module CourseOp.
Inductive t :=
  | update (user : option JWTPayload.t) (id : string)
           (updates : UpdateCourseRequest.t) (now : Date)
  | publish (user : option JWTPayload.t) (id : string) (now : Date)
  | enroll (user : option JWTPayload.t) (id : string)
           (paymentIntentId : option string) (clk : Clock).

Definition run (op : t) (st : State.t) : Response.t * State.t :=
  match op with
  | update user id updates now =>
      CourseController.updateCourse user id updates now st
  | publish user id now => CourseController.publishCourse user id now st
  | enroll user id paymentIntentId clk =>
      CourseController.enrollInCourse user id paymentIntentId clk st
  end.

Definition run_all (ops : list t) (st : State.t) : State.t :=
  foldl (fun st op => (run op st).2) st ops.
End CourseOp.

(** What no such operation takes back from a course. *)
Definition course_advanced (before after : Course.t) : Prop :=
  Course.id after = Course.id before
  /\ Course.instructorId after = Course.instructorId before
  /\ Course.createdAt after = Course.createdAt before
  /\ (Course.isPublished before = true -> Course.isPublished after = true)
  /\ Course.enrollmentCount before <= Course.enrollmentCount after.

(** Every course stored under [id] before is still stored under [id] and
    has only advanced. *)
Definition courses_advanced (courses courses' : CourseModel.store) : Prop :=
  forall id course,
    CourseModel.findById courses id = Some course ->
    exists course',
      CourseModel.findById courses' id = Some course'
      /\ course_advanced course course'.

(** Two payment records that differ at most in [status] and [updatedAt]. *)
Definition same_payment (p p' : PaymentIntent.t) : Prop :=
  PaymentIntent.id p' = PaymentIntent.id p
  /\ PaymentIntent.amount p' = PaymentIntent.amount p
  /\ PaymentIntent.currency p' = PaymentIntent.currency p
  /\ PaymentIntent.courseId p' = PaymentIntent.courseId p
  /\ PaymentIntent.userId p' = PaymentIntent.userId p
  /\ PaymentIntent.stripePaymentIntentId p'
     = PaymentIntent.stripePaymentIntentId p
  /\ PaymentIntent.createdAt p' = PaymentIntent.createdAt p.

(** The second payment store holds the keys of the first, in the same order,
    and under each key the same record but for [status] and [updatedAt]. *)
Definition payments_kept (payments payments' : PaymentModel.store) : Prop :=
  JsMap.keys payments' = JsMap.keys payments
  /\ forall id p',
       PaymentModel.findById payments' id = Some p' ->
       exists p,
         PaymentModel.findById payments id = Some p /\ same_payment p p'.

(** The record [createPaymentIntent] stores. *)
Definition pending_payment (id : string) (now : Date) (caller : JWTPayload.t)
    (courseId : string) (response : PaymentIntentResponse.t)
    : PaymentIntent.t :=
  {| PaymentIntent.id := id;
     PaymentIntent.amount := PaymentIntentResponse.amount response;
     PaymentIntent.currency := PaymentIntentResponse.currency response;
     PaymentIntent.status := PENDING;
     PaymentIntent.courseId := courseId;
     PaymentIntent.userId := JWTPayload.userId caller;
     PaymentIntent.stripePaymentIntentId :=
       PaymentIntentResponse.paymentIntentId response;
     PaymentIntent.createdAt := now;
     PaymentIntent.updatedAt := now |}.

(** The paid-course condition of the enrollment handler. *)
Definition payment_presented (st : State.t) (paymentIntentId : option string)
    : Prop :=
  truthy paymentIntentId = true
  /\ exists payment,
       PaymentModel.findByStripeId (State.payments st)
         (default "" paymentIntentId) = Some payment
       /\ PaymentIntent.status payment = SUCCEEDED.

(** ** Sample data *)

Module Sample.

Definition clock : Clock := fun k => 1700000000000 + Z.of_nat k.

Definition tokens (payload : JWTPayload.t) : string * string :=
  ("access." +:+ JWTPayload.userId payload,
   "refresh." +:+ JWTPayload.userId payload).

Definition caller (userId : string) (role : UserRole) : JWTPayload.t :=
  JWTPayload.mk userId (userId +:+ "@example.com") role.

Definition user (id : string) (role : UserRole)
    (progress : list CourseProgress.t) : User.t :=
  {| User.id := id;
     User.email := id +:+ "@example.com";
     User.password := "$2a$12$digest";
     User.firstName := "Ada";
     User.lastName := "Lovelace";
     User.role := role;
     User.avatar := None;
     User.bio := Some "";
     User.skills := [];
     User.preferences := UserModel.getDefaultPreferences;
     User.progress := progress;
     User.createdAt := 1690000000000;
     User.updatedAt := 1690000000000 |}.

Definition course (id instructorId : string) (price : Q) (isPublished : bool)
    : Course.t :=
  {| Course.id := id;
     Course.title := "Advanced React Development";
     Course.description :=
       "Take your React skills to the next level with advanced patterns.";
     Course.shortDescription := "Advanced React patterns";
     Course.instructorId := instructorId;
     Course.instructorName := "John Instructor";
     Course.category := "Programming";
     Course.subcategory := "Frontend Development";
     Course.level := ADVANCED;
     Course.price := price;
     Course.currency := "USD";
     Course.thumbnail := "https://example.com/thumbnail.jpeg";
     Course.previewVideo := None;
     Course.duration := 800;
     Course.modules := [];
     Course.requirements := ["JavaScript ES6+ knowledge"];
     Course.learningOutcomes := ["Master advanced React patterns"];
     Course.tags := ["React"; "JavaScript"];
     Course.rating := 4.9%Q;
     Course.reviewCount := 890;
     Course.enrollmentCount := 2500;
     Course.isPublished := isPublished;
     Course.createdAt := 1690000000000;
     Course.updatedAt := 1690000000000 |}.

Definition payment (id stripeId userId courseId : string)
    (status : PaymentStatus) : PaymentIntent.t :=
  {| PaymentIntent.id := id;
     PaymentIntent.amount := 14999;
     PaymentIntent.currency := "usd";
     PaymentIntent.status := status;
     PaymentIntent.courseId := courseId;
     PaymentIntent.userId := userId;
     PaymentIntent.stripePaymentIntentId := stripeId;
     PaymentIntent.createdAt := 1695000000000;
     PaymentIntent.updatedAt := 1695000000000 |}.

Definition signupRequest (email : string) : SignupRequest.t :=
  SignupRequest.mk email "secret1" "A" "B" None.


Definition noChange : UpdateCourseRequest.t :=
  UpdateCourseRequest.mk None None None None None None None None None None.

Definition emptyState : State.t :=
  State.mk JsMap.empty JsMap.empty JsMap.empty.

(** A student, a second student who paid for one course, an instructor with
    a free course, two paid ones and an unpublished draft. *)
Definition campus : State.t :=
  State.mk
    [("u_student", user "u_student" STUDENT []);
     ("u_other", user "u_other" STUDENT []);
     ("u_instructor", user "u_instructor" INSTRUCTOR [])]
    [("c_free", course "c_free" "u_instructor" 0%Q true);
     ("c_paid", course "c_paid" "u_instructor" 149.99%Q true);
     ("c_other", course "c_other" "u_instructor" 99.99%Q true);
     ("c_draft", course "c_draft" "u_instructor" 149.99%Q false)]
    [("payment_1",
      payment "payment_1" "pi_1" "u_other" "c_other" SUCCEEDED)].

Definition courseData : Course.data :=
  {| Course.d_title := "Functional programming in practice";
     Course.d_description :=
       "A course on typed functional programming, from first principles.";
     Course.d_shortDescription := "Typed functional programming";
     Course.d_instructorId := "u_instructor";
     Course.d_instructorName := "Ada Lovelace";
     Course.d_category := "Programming";
     Course.d_subcategory := "Languages";
     Course.d_level := BEGINNER;
     Course.d_price := 49.99%Q;
     Course.d_currency := "USD";
     Course.d_thumbnail := "https://example.com/thumbnail.jpeg";
     Course.d_previewVideo := None;
     Course.d_duration := 0;
     Course.d_modules := [];
     Course.d_requirements := [];
     Course.d_learningOutcomes := [];
     Course.d_tags := [];
     Course.d_rating := 0%Q;
     Course.d_reviewCount := 0;
     Course.d_enrollmentCount := 0;
     Course.d_isPublished := false |}.

(** [{ price: p }] *)
Definition newPrice (p : Q) : Course.partial :=
  Course.mkPartial None None None None None None None None None (Some p)
    None None None None None None None None None None None None None None.

Definition failedEvent (stripeId : string) : StripeWebhookEvent.t :=
  StripeWebhookEvent.mk "payment_intent.payment_failed" stripeId.

Definition succeededEvent (stripeId : string) : StripeWebhookEvent.t :=
  StripeWebhookEvent.mk "payment_intent.succeeded" stripeId.

Definition intentResponse (stripeId : string) : PaymentIntentResponse.t :=
  PaymentIntentResponse.mk stripeId (stripeId +:+ "_secret") 14999 "usd".

(** [bcrypt.compare] for digests of the form [$2a$12$<password>]. *)
Definition compare (password digest : string) : bool :=
  String.eqb digest ("$2a$12$" +:+ password).

Definition lower_ascii (c : ascii) : ascii :=
  let n := nat_of_ascii c in
  if ((65 <=? n) && (n <=? 90))%nat then ascii_of_nat (n + 32) else c.

(** [String.prototype.toLowerCase] on ASCII text, which the sample data is
    written in: the letters [A] to [Z] are lowered, every other ASCII
    character is kept. *)
Fixpoint toLowerCase (s : string) : string :=
  match s with
  | EmptyString => EmptyString
  | String c s' => String (lower_ascii c) (toLowerCase s')
  end.

End Sample.

(** A run of signup requests, each with what the environment supplied. *)
Module SignupCall.
Record t := mk {
  body : SignupRequest.t;
  id : string;
  now : Date;
  hashedPassword : string;
  generateTokenPair : JWTPayload.t -> string * string;
}.

Definition run (call : t) (st : State.t) : Response.t * State.t :=
  AuthController.signup (body call) (id call) (now call)
    (hashedPassword call) (generateTokenPair call) st.

Definition run_all (calls : list t) (st : State.t) : State.t :=
  foldl (fun st call => (run call st).2) st calls.

Definition email (call : t) : string := SignupRequest.email (body call).
End SignupCall.

(** Signup requests that overlap.  The process handles one event at a time:
    a request arrives and runs up to its [await bcrypt.hash], where it is
    answered 409 or suspended; or the digest of a suspended request is ready
    and the request runs from there to its answer. *)
Module Overlap.
Inductive event :=
  | arrive (call : SignupCall.t)
  | resume (n : nat).

(** The stores, the requests suspended at their hashing (oldest first) and
    the answers given so far (oldest first). *)
Record t := mk {
  state : State.t;
  suspended : list SignupCall.t;
  answers : list Response.t;
}.

Definition start (st : State.t) : t := mk st [] [].

(** [resume n] resumes the [n]-th suspended request, if there is one. *)
Definition step (s : t) (e : event) : t :=
  match e with
  | arrive call =>
      match AuthController.signup_check (SignupCall.body call) (state s) with
      | Some response => mk (state s) (suspended s) (answers s ++ [response])
      | None => mk (state s) (suspended s ++ [call]) (answers s)
      end
  | resume n =>
      match suspended s !! n with
      | None => s
      | Some call =>
          let result :=
            AuthController.signup_insert (SignupCall.body call)
              (SignupCall.id call) (SignupCall.now call)
              (SignupCall.hashedPassword call)
              (SignupCall.generateTokenPair call) (state s) in
          mk result.2 (delete n (suspended s)) (answers s ++ [result.1])
      end
  end.

Definition run (events : list event) (s : t) : t := foldl step s events.

(** No request arrives while a request with the same email is suspended. *)
Fixpoint apart (events : list event) (s : t) : Prop :=
  match events with
  | [] => True
  | e :: events' =>
      match e with
      | arrive call =>
          Forall (fun c => SignupCall.email c <> SignupCall.email call)
                 (suspended s)
      | resume _ => True
      end
      /\ apart events' (step s e)
  end.

(** The suspended requests have passed their check and would pass it again:
    their emails are distinct and none is stored. *)
Definition cleared (s : t) : Prop :=
  NoDup (SignupCall.email <$> suspended s)
  /\ Forall (fun c =>
               UserModel.findByEmail (State.users (state s))
                 (SignupCall.email c) = None)
            (suspended s).
End Overlap.

(** A payment operation with what the provider answered to it. *)
Module PaymentOp.
Inductive t :=
  | confirm (user : option JWTPayload.t) (paymentIntentId : string)
            (retrieved : option string) (now : Date)
  | refund (user : option JWTPayload.t) (paymentIntentId : string)
           (refunded : option string) (now : Date)
  | webhook (constructed : option StripeWebhookEvent.t) (now : Date).

Definition run (op : t) (st : State.t) : Response.t * State.t :=
  match op with
  | confirm user paymentIntentId retrieved now =>
      PaymentController.confirmPayment user paymentIntentId retrieved now st
  | refund user paymentIntentId refunded now =>
      PaymentController.refundPayment user paymentIntentId refunded now st
  | webhook constructed now =>
      PaymentController.handleWebhook constructed now st
  end.

Definition run_all (ops : list t) (st : State.t) : State.t :=
  foldl (fun st op => (run op st).2) st ops.

(** For the intent [stripeId], the provider reports success to this
    operation: a confirmation of it is answered [succeeded] (or the query
    throws), and the operation is not its [payment_intent.payment_failed]
    event. *)
Definition provider_agrees (stripeId : string) (op : t) : Prop :=
  match op with
  | confirm _ paymentIntentId retrieved _ =>
      paymentIntentId = stripeId ->
      match stripeService.confirmPayment retrieved with
      | Some status => status = SUCCEEDED
      | None => True
      end
  | refund _ _ _ _ => True
  | webhook (Some event) _ =>
      StripeWebhookEvent.type event = "payment_intent.payment_failed" ->
      StripeWebhookEvent.object_id event <> stripeId
  | webhook None _ => True
  end.
End PaymentOp.

(** A payment record without its update timestamp. *)
Definition forget_updatedAt (p : PaymentIntent.t) : PaymentIntent.t :=
  {| PaymentIntent.id := PaymentIntent.id p;
     PaymentIntent.amount := PaymentIntent.amount p;
     PaymentIntent.currency := PaymentIntent.currency p;
     PaymentIntent.status := PaymentIntent.status p;
     PaymentIntent.courseId := PaymentIntent.courseId p;
     PaymentIntent.userId := PaymentIntent.userId p;
     PaymentIntent.stripePaymentIntentId :=
       PaymentIntent.stripePaymentIntentId p;
     PaymentIntent.createdAt := PaymentIntent.createdAt p;
     PaymentIntent.updatedAt := 0 |}.

(** Two payment stores with the same keys in the same order and the same
    records but for [updatedAt]. *)
Definition same_but_updatedAt (s1 s2 : PaymentModel.store) : Prop :=
  prod_map id forget_updatedAt <$> s1 = prod_map id forget_updatedAt <$> s2.

(** The fields of a course other than [updatedAt] after an update: those of
    [updates] where present, those of [course] elsewhere. *)
Definition merged_fields (course : Course.t) (updates : Course.partial)
    (updated : Course.t) : Prop :=
  Course.id updated = default (Course.id course) (Course.p_id updates)
  /\ Course.title updated
     = default (Course.title course) (Course.p_title updates)
  /\ Course.description updated
     = default (Course.description course) (Course.p_description updates)
  /\ Course.shortDescription updated
     = default (Course.shortDescription course)
               (Course.p_shortDescription updates)
  /\ Course.instructorId updated
     = default (Course.instructorId course) (Course.p_instructorId updates)
  /\ Course.instructorName updated
     = default (Course.instructorName course) (Course.p_instructorName updates)
  /\ Course.category updated
     = default (Course.category course) (Course.p_category updates)
  /\ Course.subcategory updated
     = default (Course.subcategory course) (Course.p_subcategory updates)
  /\ Course.level updated
     = default (Course.level course) (Course.p_level updates)
  /\ Course.price updated
     = default (Course.price course) (Course.p_price updates)
  /\ Course.currency updated
     = default (Course.currency course) (Course.p_currency updates)
  /\ Course.thumbnail updated
     = default (Course.thumbnail course) (Course.p_thumbnail updates)
  /\ Course.previewVideo updated
     = default (Course.previewVideo course) (Course.p_previewVideo updates)
  /\ Course.duration updated
     = default (Course.duration course) (Course.p_duration updates)
  /\ Course.modules updated
     = default (Course.modules course) (Course.p_modules updates)
  /\ Course.requirements updated
     = default (Course.requirements course) (Course.p_requirements updates)
  /\ Course.learningOutcomes updated
     = default (Course.learningOutcomes course)
               (Course.p_learningOutcomes updates)
  /\ Course.tags updated
     = default (Course.tags course) (Course.p_tags updates)
  /\ Course.rating updated
     = default (Course.rating course) (Course.p_rating updates)
  /\ Course.reviewCount updated
     = default (Course.reviewCount course) (Course.p_reviewCount updates)
  /\ Course.enrollmentCount updated
     = default (Course.enrollmentCount course)
               (Course.p_enrollmentCount updates)
  /\ Course.isPublished updated
     = default (Course.isPublished course) (Course.p_isPublished updates)
  /\ Course.createdAt updated
     = default (Course.createdAt course) (Course.p_createdAt updates).

(** * Properties *)

(** ** Lists *)

Lemma filter_none {A} (P : A -> Prop) `{!forall x, Decision (P x)}
    (l : list A) :
  Forall (fun x => ~ P x) l -> filter P l = [].
Proof.
  induction 1 as [|x l Hx _ IHl]; [done|].
  by rewrite filter_cons, decide_False.
Qed.

Lemma list_find_none_filter {A} (P : A -> Prop) `{!forall x, Decision (P x)}
    (l : list A) :
  list_find P l = None -> filter P l = [].
Proof. intros Hnone. apply filter_none. by apply (list_find_None P l). Qed.

(** ** Facts about [JsMap] *)

Section JsMapFacts.
Context {V : Type}.
Implicit Types (m : JsMap.t V) (k : string) (v : V).

Lemma get_set_eq m k v : JsMap.get (JsMap.set m k v) k = Some v.
Proof.
  induction m as [|[k' v'] m IH]; simpl.
  - by rewrite decide_True.
  - destruct (decide (k' = k)) as [->|Hne]; simpl.
    + by rewrite decide_True.
    + by rewrite decide_False.
Qed.

Lemma get_set_ne m k k' v :
  k <> k' -> JsMap.get (JsMap.set m k v) k' = JsMap.get m k'.
Proof.
  intros Hne. induction m as [|[k0 v0] m IH]; simpl.
  - by rewrite decide_False.
  - destruct (decide (k0 = k)) as [->|Hk]; simpl.
    + by rewrite !decide_False.
    + by rewrite IH.
Qed.

Lemma set_fresh m k v :
  JsMap.get m k = None -> JsMap.set m k v = m ++ [(k, v)].
Proof.
  induction m as [|[k' v'] m IH]; simpl; [done|].
  destruct (decide (k' = k)); [done|]. intros H. by rewrite IH.
Qed.

Lemma keys_set_present m k v :
  is_Some (JsMap.get m k) -> JsMap.keys (JsMap.set m k v) = JsMap.keys m.
Proof.
  unfold JsMap.keys.
  induction m as [|[k' v'] m IH]; simpl; [by intros [? ?]|].
  destruct (decide (k' = k)) as [->|Hne]; csimpl; [done|].
  intros H. by rewrite IH.
Qed.

Lemma wf_set m k v : JsMap.wf m -> JsMap.wf (JsMap.set m k v).
Proof.
  unfold JsMap.wf. intros Hwf.
  destruct (JsMap.get m k) as [old|] eqn:Hget.
  - by rewrite keys_set_present.
  - rewrite set_fresh by done. unfold JsMap.keys in *.
    rewrite fmap_app. simpl. apply list.NoDup_app. split_and!; [done| |].
    + intros x Hx ->%list_elem_of_singleton.
      apply list_elem_of_fmap in Hx as [[k' v'] [-> Hin]]. simpl in *.
      clear Hwf. induction m as [|[k0 v0] m IH]; [by inversion Hin|].
      simpl in Hget. destruct (decide (k0 = k')); [done|].
      apply elem_of_cons in Hin as [[= -> ->]|Hin]; [done|by apply IH].
    + apply NoDup_singleton.
Qed.

Lemma elem_of_values_set m k v x :
  x ∈ JsMap.values (JsMap.set m k v) -> x = v \/ x ∈ JsMap.values m.
Proof.
  unfold JsMap.values.
  induction m as [|[k' v'] m IH]; csimpl.
  - intros ->%list_elem_of_singleton. by left.
  - destruct (decide (k' = k)); csimpl; intros [->|Hin]%elem_of_cons.
    + by left.
    + right. by apply elem_of_cons; right.
    + right. by apply elem_of_cons; left.
    + destruct (IH Hin) as [->|?]; [by left|right].
      by apply elem_of_cons; right.
Qed.

(** After [delete] the key reads as absent and every other key as before. *)
Lemma get_delete_eq m k : JsMap.get (JsMap.delete m k).2 k = None.
Proof.
  simpl. induction m as [|[k' v'] m IH]; [done|].
  rewrite filter_cons. csimpl.
  destruct (decide (k' <> k)) as [Hne|Heq]; csimpl; [|done].
  by rewrite decide_False.
Qed.

Lemma get_delete_ne m k k' :
  k <> k' -> JsMap.get (JsMap.delete m k).2 k' = JsMap.get m k'.
Proof.
  intros Hne. simpl. induction m as [|[k0 v0] m IH]; [done|].
  rewrite filter_cons. csimpl.
  destruct (decide (k0 <> k)) as [Hk|Hk]; csimpl.
  - by rewrite IH.
  - apply dec_stable in Hk as ->. by rewrite decide_False.
Qed.

Lemma delete_absent m k :
  JsMap.get m k = None -> (JsMap.delete m k).2 = m.
Proof.
  simpl. induction m as [|[k' v'] m IH]; [done|].
  simpl. destruct (decide (k' = k)) as [->|Hne]; [done|].
  intros H. rewrite filter_cons. simpl. rewrite decide_True by done.
  by rewrite IH.
Qed.

(** With a predicate no stored value satisfies, [set] leaves exactly the new
    value satisfying it. *)
Lemma filter_values_set (P : V -> Prop) `{!forall x, Decision (P x)} m k v :
  Forall (fun x => ~ P x) (JsMap.values m) -> P v ->
  filter P (JsMap.values (JsMap.set m k v)) = [v].
Proof.
  unfold JsMap.values. intros Hall Hv.
  induction m as [|[k' v'] m IH]; csimpl in *.
  - by rewrite filter_cons, decide_True.
  - apply list.Forall_cons in Hall as [Hv' Hall].
    assert (Hnil : filter P m.*2 = []) by by apply filter_none.
    destruct (decide (k' = k)); csimpl.
    + by rewrite filter_cons, decide_True, Hnil.
    + rewrite filter_cons, decide_False by done. by apply IH.
Qed.

Lemma NoDup_values_set {B} (f : V -> B) m k v :
  NoDup (f <$> JsMap.values m) -> f v ∉ f <$> JsMap.values m ->
  NoDup (f <$> JsMap.values (JsMap.set m k v)).
Proof.
  unfold JsMap.values.
  induction m as [|[k' v'] m IH]; csimpl; intros Hnd Hnotin.
  - apply NoDup_singleton.
  - apply list.NoDup_cons in Hnd as [Hhd Hnd].
    apply not_elem_of_cons in Hnotin as [Hne Hnotin].
    destruct (decide (k' = k)); csimpl; apply list.NoDup_cons.
    + done.
    + split; [|by apply IH].
      intros Hin. apply list_elem_of_fmap in Hin as [x [Hfx Hx]].
      apply (elem_of_values_set m k v x) in Hx as [->|Hx]; [done|].
      apply Hhd. apply list_elem_of_fmap. by exists x.
Qed.

End JsMapFacts.

Lemma elem_of_values_set_new {V} (m : JsMap.t V) (k : string) (v : V) :
  v ∈ JsMap.values (JsMap.set m k v).
Proof.
  unfold JsMap.values.
  induction m as [|[k' v'] m IH]; csimpl; [by apply elem_of_cons; left|].
  destruct (decide (k' = k)); csimpl; apply elem_of_cons; auto.
Qed.

(** ** Signup and the uniqueness of emails *)

Section Signup.
Implicit Types (users : UserModel.store) (st : State.t).

Lemma findByEmail_None users email :
  UserModel.findByEmail users email = None <->
  Forall (fun u => User.email u <> email) (JsMap.values users).
Proof.
  unfold UserModel.findByEmail. rewrite fmap_None. apply list_find_None.
Qed.

Lemma findByEmail_Some users email u :
  UserModel.findByEmail users email = Some u ->
  u ∈ JsMap.values users /\ User.email u = email.
Proof.
  unfold UserModel.findByEmail. intros Hfind.
  apply fmap_Some in Hfind as [[i x] [Hfind ->]].
  apply list_find_Some in Hfind as (Hi & Hx & _).
  split; [|done]. by eapply list_elem_of_lookup_2.
Qed.

Lemma findByEmail_stored users email u :
  u ∈ JsMap.values users -> User.email u = email ->
  is_Some (UserModel.findByEmail users email).
Proof.
  intros Hin Hmail. unfold UserModel.findByEmail.
  apply fmap_is_Some.
  by apply (list_find_elem_of (fun u => User.email u = email) _ u).
Qed.

(** What a signup does to the stores, case by case. *)
Lemma signup_conflict body id now hashed gen st existing :
  UserModel.findByEmail (State.users st) (SignupRequest.email body)
    = Some existing ->
  AuthController.signup body id now hashed gen st
    = (sendError 409 "User with this email already exists", st).
Proof. intros Hfind. unfold AuthController.signup, AuthController.signup_check,
    AuthController.signup_insert. by rewrite Hfind. Qed.

Lemma signup_fresh body id now hashed gen st :
  UserModel.findByEmail (State.users st) (SignupRequest.email body) = None ->
  exists user,
    User.email user = SignupRequest.email body
    /\ User.id user = id
    /\ User.role user = default STUDENT (SignupRequest.role body)
    /\ User.progress user = []
    /\ Response.statusCode
         (AuthController.signup body id now hashed gen st).1 = 200
    /\ (AuthController.signup body id now hashed gen st).2
       = State.with_users st (JsMap.set (State.users st) id user).
Proof.
  intros Hfind. unfold AuthController.signup, AuthController.signup_check,
    AuthController.signup_insert. rewrite Hfind. simpl.
  eexists. split_and!; [..|reflexivity]; reflexivity.
Qed.

Lemma signup_keeps_emails_unique body id now hashed gen st :
  emails_unique (State.users st) ->
  emails_unique
    (State.users (AuthController.signup body id now hashed gen st).2).
Proof.
  intros Huniq.
  destruct (UserModel.findByEmail (State.users st) (SignupRequest.email body))
    as [existing|] eqn:Hfind.
  - by rewrite (signup_conflict _ _ _ _ _ _ existing).
  - destruct (signup_fresh body id now hashed gen st Hfind)
      as (user & Hmail & _ & _ & _ & _ & ->).
    simpl. apply NoDup_values_set; [done|].
    rewrite Hmail. intros Hin.
    apply list_elem_of_fmap in Hin as [u [Hu Hin]].
    apply findByEmail_None in Hfind.
    rewrite list.Forall_forall in Hfind. by apply (Hfind u Hin).
Qed.

End Signup.

Lemma signups_keep_emails_unique (calls : list SignupCall.t) (st : State.t) :
  emails_unique (State.users st) ->
  emails_unique (State.users (SignupCall.run_all calls st)).
Proof.
  revert st. induction calls as [|call calls IH]; intros st Huniq; [done|].
  simpl. apply IH. by apply signup_keeps_emails_unique.
Qed.

(** The demo accounts the process starts with have distinct emails, whatever
    ids they were given. *)
Lemma initializeUsers_emails_unique ids ts :
  emails_unique (initializeUsers ids ts).
Proof.
  destruct ids as [[id1 id2] id3], ts as [[t1 t2] t3].
  unfold emails_unique, initializeUsers, UserModel.create. simpl.
  repeat (case_decide; simplify_eq; csimpl);
    by apply (bool_decide_unpack _).
Qed.

(** *** Signups that overlap at the hashing of the password *)

Lemma signup_check_None body st :
  AuthController.signup_check body st = None
  <-> UserModel.findByEmail (State.users st) (SignupRequest.email body) = None.
Proof.
  unfold AuthController.signup_check.
  by destruct (UserModel.findByEmail _ _).
Qed.

Lemma signup_insert_users body id now hashed gen st :
  exists user,
    User.email user = SignupRequest.email body
    /\ State.users (AuthController.signup_insert body id now hashed gen st).2
       = JsMap.set (State.users st) id user.
Proof.
  unfold AuthController.signup_insert. simpl.
  eexists. split; [|reflexivity]. reflexivity.
Qed.

Lemma NoDup_fmap_delete {A B} (f : A -> B) (l : list A) (n : nat) (x c : A) :
  NoDup (f <$> l) -> l !! n = Some x -> c ∈ delete n l -> f c <> f x.
Proof.
  revert n. induction l as [|a l IH]; intros n; [done|].
  csimpl. intros [Hfresh Hnodup]%list.NoDup_cons.
  destruct n as [|n]; simpl.
  - intros [= ->] Hc Heq. apply Hfresh. rewrite <- Heq.
    by apply list_elem_of_fmap_2.
  - intros Hx [->|Hc]%elem_of_cons; [|by apply (IH n)].
    intros Heq. apply Hfresh. rewrite Heq.
    apply list_elem_of_fmap_2. by eapply list_elem_of_lookup_2.
Qed.

Lemma step_keeps_emails_unique (s : Overlap.t) (e : Overlap.event) :
  emails_unique (State.users (Overlap.state s)) -> Overlap.cleared s ->
  Overlap.apart [e] s ->
  emails_unique (State.users (Overlap.state (Overlap.step s e)))
  /\ Overlap.cleared (Overlap.step s e).
Proof.
  intros Huniq [Hdistinct Hfree] [Hapart _].
  destruct e as [call|n].
  - simpl in *.
    destruct (AuthController.signup_check _ _) eqn:Hcheck; simpl; [done|].
    apply signup_check_None in Hcheck.
    split; [done|]. split; simpl.
    + rewrite fmap_app. apply list.NoDup_app. split_and!; [done| |].
      * intros email Hin ->%list_elem_of_singleton.
        apply list_elem_of_fmap in Hin as [c [Hc Hin]].
        rewrite list.Forall_forall in Hapart. by apply (Hapart c Hin).
      * apply NoDup_singleton.
    + apply Forall_app. split; [done|]. by repeat constructor.
  - unfold Overlap.step.
    destruct (Overlap.suspended s !! n) as [call|] eqn:Hn; [|done].
    unfold Overlap.cleared. cbn [Overlap.state Overlap.suspended].
    destruct (signup_insert_users (SignupCall.body call) (SignupCall.id call)
                (SignupCall.now call) (SignupCall.hashedPassword call)
                (SignupCall.generateTokenPair call) (Overlap.state s))
      as (user & Hmail & ->).
    assert (Hcall : UserModel.findByEmail (State.users (Overlap.state s))
                      (SignupCall.email call) = None).
    { rewrite list.Forall_forall in Hfree. apply Hfree.
      by eapply list_elem_of_lookup_2. }
    apply findByEmail_None in Hcall. rewrite list.Forall_forall in Hcall.
    split; [|split].
    + apply NoDup_values_set; [done|].
      intros Hin. apply list_elem_of_fmap in Hin as [u [Hu Hin]].
      apply (Hcall u Hin). by rewrite <- Hu, Hmail.
    + eapply sublist_NoDup; [exact Hdistinct|].
      apply fmap_sublist, sublist_delete.
    + apply list.Forall_forall. intros c Hc.
      apply findByEmail_None, list.Forall_forall.
      intros u [->|Hu]%elem_of_values_set.
      * rewrite Hmail. intros Heq.
        by apply (NoDup_fmap_delete SignupCall.email _ _ _ _ Hdistinct Hn Hc).
      * assert (Hfree_c : UserModel.findByEmail
                            (State.users (Overlap.state s))
                            (SignupCall.email c) = None).
        { rewrite list.Forall_forall in Hfree. apply Hfree.
          eapply elem_of_sublist; [exact Hc|apply sublist_delete]. }
        apply findByEmail_None in Hfree_c.
        rewrite list.Forall_forall in Hfree_c. by apply Hfree_c.
Qed.

Lemma run_keeps_emails_unique (events : list Overlap.event) (s : Overlap.t) :
  emails_unique (State.users (Overlap.state s)) -> Overlap.cleared s ->
  Overlap.apart events s ->
  emails_unique (State.users (Overlap.state (Overlap.run events s))).
Proof.
  revert s. induction events as [|e events IH]; intros s Huniq Hcleared;
    [done|].
  intros [Hhere Hlater].
  destruct (step_keeps_emails_unique s e Huniq Hcleared) as [Huniq' Hcleared'].
  { by split. }
  simpl. by apply IH.
Qed.

(** The handler run without another request between its two parts is the
    schedule in which the request arrives and is resumed at once. *)
Lemma signup_uninterrupted (call : SignupCall.t) (st : State.t) :
  Overlap.run [Overlap.arrive call; Overlap.resume 0] (Overlap.start st)
  = Overlap.mk (SignupCall.run call st).2 [] [(SignupCall.run call st).1].
Proof.
  unfold SignupCall.run, AuthController.signup, Overlap.run, Overlap.start.
  simpl. by destruct (AuthController.signup_check _ st).
Qed.

(** C3, as the code has it.  A signup that is handled without another
    request between its lookup and its insertion, and answers 200, leaves
    exactly one record with the email it registered (a new record at the end
    of the store when the generated id is unused).  From then on a signup
    with the same email is refused at its lookup with 409, and leaves every
    store as it is, for as long as a record with the email is stored.  A
    store without duplicate emails stays so, also along every schedule of
    overlapping signups in which no request arrives while a request with the
    same email is suspended at its hashing. *)
Theorem signup_email_uniqueness
    (st st1 : State.t) (r1 : Response.t) (b1 b2 : SignupRequest.t)
    (id1 id2 : string) (now1 now2 : Date) (h1 h2 : string)
    (g1 g2 : JWTPayload.t -> string * string) :
  SignupRequest.email b2 = SignupRequest.email b1 ->
  AuthController.signup b1 id1 now1 h1 g1 st = (r1, st1) ->
  Response.statusCode r1 = 200 ->
  Overlap.run
    [Overlap.arrive (SignupCall.mk b1 id1 now1 h1 g1); Overlap.resume 0]
    (Overlap.start st)
  = Overlap.mk st1 [] [r1]
  /\ length (users_with_email (State.users st1) (SignupRequest.email b1))
     = 1%nat
  /\ (JsMap.get (State.users st) id1 = None ->
      exists user,
        User.email user = SignupRequest.email b1
        /\ JsMap.values (State.users st1)
           = JsMap.values (State.users st) ++ [user])
  /\ AuthController.signup b2 id2 now2 h2 g2 st1
     = (sendError 409 "User with this email already exists", st1)
  /\ (forall st2,
        users_with_email (State.users st2) (SignupRequest.email b1) <> [] ->
        AuthController.signup_check b2 st2
        = Some (sendError 409 "User with this email already exists")
        /\ AuthController.signup b2 id2 now2 h2 g2 st2
           = (sendError 409 "User with this email already exists", st2))
  /\ (emails_unique (State.users st) -> emails_unique (State.users st1))
  /\ (forall events st0,
        emails_unique (State.users st0) ->
        Overlap.apart events (Overlap.start st0) ->
        emails_unique
          (State.users
             (Overlap.state (Overlap.run events (Overlap.start st0))))).
Proof.
  intros Hsame Hrun Hok.
  assert (Hst1 : st1 = (AuthController.signup b1 id1 now1 h1 g1 st).2)
    by by rewrite Hrun.
  assert (Hschedule :
    Overlap.run
      [Overlap.arrive (SignupCall.mk b1 id1 now1 h1 g1); Overlap.resume 0]
      (Overlap.start st)
    = Overlap.mk st1 [] [r1]).
  { rewrite signup_uninterrupted. unfold SignupCall.run. simpl.
    by rewrite Hrun. }
  destruct (UserModel.findByEmail (State.users st) (SignupRequest.email b1))
    as [existing|] eqn:Hfind.
  { rewrite (signup_conflict _ _ _ _ _ _ existing Hfind) in Hrun.
    injection Hrun as <- _. discriminate Hok. }
  destruct (signup_fresh b1 id1 now1 h1 g1 st Hfind)
    as (user & Hmail & _ & _ & _ & _ & Hst).
  rewrite Hst in Hst1. subst st1. simpl.
  assert (Hone : users_with_email (JsMap.set (State.users st) id1 user)
                   (SignupRequest.email b1) = [user]).
  { apply (filter_values_set
             (fun u => User.email u = SignupRequest.email b1)); [|done].
    by apply findByEmail_None. }
  assert (Hrefused : forall st2,
    users_with_email (State.users st2) (SignupRequest.email b1) <> [] ->
    exists found,
      UserModel.findByEmail (State.users st2) (SignupRequest.email b2)
      = Some found).
  { intros st2 Hstored.
    destruct (users_with_email (State.users st2) (SignupRequest.email b1))
      as [|u us] eqn:Hus; [done|].
    assert (Hu : u ∈ users_with_email (State.users st2)
                       (SignupRequest.email b1))
      by (rewrite Hus; apply elem_of_cons; by left).
    apply list_elem_of_filter in Hu as [Hu Hin].
    apply (findByEmail_stored _ _ u Hin). congruence. }
  split_and!.
  - exact Hschedule.
  - by rewrite Hone.
  - intros Hfresh. exists user. split; [done|].
    rewrite set_fresh by done. unfold JsMap.values. by rewrite fmap_app.
  - destruct (Hrefused (State.with_users st
                          (JsMap.set (State.users st) id1 user)))
      as [found Hfound]; [simpl; by rewrite Hone|].
    by apply (signup_conflict _ _ _ _ _ _ found).
  - intros st2 Hstored. destruct (Hrefused st2 Hstored) as [found Hfound].
    split; [|by apply (signup_conflict _ _ _ _ _ _ found)].
    unfold AuthController.signup_check. by rewrite Hfound.
  - intros Huniq.
    pose proof (signup_keeps_emails_unique b1 id1 now1 h1 g1 st Huniq) as H.
    by rewrite Hst in H.
  - intros events st0 Huniq Hapart.
    apply run_keeps_emails_unique; [done| |done].
    split; simpl; [apply NoDup_nil_2|constructor].
Qed.

Lemma signup_email_uniqueness_witness :
  let b := Sample.signupRequest "a@x.com" in
  let first :=
    AuthController.signup b "user_1700000000000_k3j9x2m1q" 1700000000000
      "$2a$12$digest" Sample.tokens Sample.emptyState in
  Response.statusCode first.1 = 200
  /\ length (users_with_email (State.users first.2) "a@x.com") = 1%nat
  /\ AuthController.signup b "user_1700000000500_zz81kq0pa" 1700000000500
       "$2a$12$other" Sample.tokens first.2
     = (sendError 409 "User with this email already exists", first.2).
Proof.
  intros b first. split; [reflexivity|].
  destruct (signup_email_uniqueness Sample.emptyState first.2 first.1 b b
              "user_1700000000000_k3j9x2m1q" "user_1700000000500_zz81kq0pa"
              1700000000000 1700000000500 "$2a$12$digest" "$2a$12$other"
              Sample.tokens Sample.tokens eq_refl eq_refl eq_refl)
    as (_ & Hone & _ & Hagain & _).
  split; [exact Hone | exact Hagain].
Defined.

(** C3 as stated fails: two signups with one email that overlap (the second
    arrives while the first is hashing its password) both pass the lookup,
    both answer 200 and both insert, so the store holds two records with the
    email. *)
Lemma overlapping_signups_both_insert :
  let call id now :=
    SignupCall.mk (Sample.signupRequest "a@x.com") id now "$2a$12$secret1"
      Sample.tokens in
  let first := call "user_1700000000000_k3j9x2m1q" 1700000000000 in
  let second := call "user_1700000000001_zz81kq0pa" 1700000000001 in
  let s :=
    Overlap.run
      [Overlap.arrive first; Overlap.arrive second;
       Overlap.resume 0; Overlap.resume 0]
      (Overlap.start Sample.emptyState) in
  Response.statusCode <$> Overlap.answers s = [200; 200]
  /\ JsMap.keys (State.users (Overlap.state s))
     = ["user_1700000000000_k3j9x2m1q"; "user_1700000000001_zz81kq0pa"]
  /\ User.email <$> JsMap.values (State.users (Overlap.state s))
     = ["a@x.com"; "a@x.com"]
  /\ length (users_with_email (State.users (Overlap.state s)) "a@x.com")
     = 2%nat
  /\ ~ emails_unique (State.users (Overlap.state s)).
Proof.
  cbv zeta. split_and!; [reflexivity..|].
  unfold emails_unique. intros Hnodup.
  change (NoDup ["a@x.com"; "a@x.com"]) in Hnodup.
  apply list.NoDup_cons in Hnodup as [Hfresh _].
  apply Hfresh, elem_of_cons. by left.
Qed.

(** ** Enrollment *)

Section Enrollment.
Implicit Types (st : State.t) (clk : Clock).

Lemma enroll_spec userId id clk st stored course :
  UserModel.findById (State.users st) userId = Some stored ->
  list_find (fun p => CourseProgress.courseId p = id) (User.progress stored)
    = None ->
  CourseModel.findById (State.courses st) id = Some course ->
  CourseController.enroll userId id clk st
  = (sendSuccess data_null "Enrolled in course successfully" None,
     State.mk
       (JsMap.set (State.users st) userId
          (UserModel.with_progress stored
             (User.progress stored ++ [enrolled_record id clk]) (clk 4%nat)))
       (JsMap.set (State.courses st) id
          (CourseModel.enrolled_once_more course (clk 5%nat)))
       (State.payments st)).
Proof.
  unfold UserModel.findById, CourseModel.findById. intros Hu Hnone Hc.
  unfold CourseController.enroll, UserModel.updateProgress,
    CourseModel.incrementEnrollment.
  by rewrite Hu, Hnone, Hc.
Qed.

(** A handler that answered 200 went through [enroll]. *)
Lemma enrollInCourse_ok caller id paymentIntentId clk st r st1 :
  CourseController.enrollInCourse (Some caller) id paymentIntentId clk st
    = (r, st1) ->
  Response.statusCode r = 200 ->
  exists stored course,
    UserModel.findById (State.users st) (JWTPayload.userId caller)
      = Some stored
    /\ list_find (fun p => CourseProgress.courseId p = id)
                 (User.progress stored) = None
    /\ CourseModel.findById (State.courses st) id = Some course
    /\ Course.isPublished course = true
    /\ (r, st1) = CourseController.enroll (JWTPayload.userId caller) id clk st.
Proof.
  unfold CourseController.enrollInCourse. intros Hrun Hok.
  destruct (CourseModel.findById (State.courses st) id) as [course|] eqn:Hc;
    [|by simplify_eq].
  destruct (Course.isPublished course) eqn:Hpub; simpl in Hrun;
    [|by simplify_eq].
  destruct (UserModel.findById (State.users st) (JWTPayload.userId caller))
    as [stored|] eqn:Hu; [|by simplify_eq].
  destruct (list_find _ (User.progress stored)) as [existing|] eqn:Hfind;
    [by simplify_eq|].
  exists stored, course. split_and!; try done.
  destruct (Qeq_bool (Course.price course) 0); [done|].
  destruct (truthy paymentIntentId); simpl in Hrun; [|by simplify_eq].
  destruct (PaymentModel.findByStripeId _ _) as [payment|];
    [|by simplify_eq].
  case_bool_decide; [by simplify_eq|done].
Qed.

Lemma enrollInCourse_again caller id paymentIntentId clk st stored course
    existing :
  CourseModel.findById (State.courses st) id = Some course ->
  Course.isPublished course = true ->
  UserModel.findById (State.users st) (JWTPayload.userId caller)
    = Some stored ->
  list_find (fun p => CourseProgress.courseId p = id) (User.progress stored)
    = Some existing ->
  CourseController.enrollInCourse (Some caller) id paymentIntentId clk st
  = (sendError 409 "Already enrolled in this course", st).
Proof.
  intros Hc Hpub Hu Hfind. unfold CourseController.enrollInCourse.
  by rewrite Hc, Hpub, Hu, Hfind.
Qed.

End Enrollment.

(** C4.  After an enroll call that answered 200, the caller's progress list
    holds exactly one record for the course, and any further enroll call of
    the same caller for the same course answers 409 and leaves the users,
    courses and payments as they are. *)
Theorem enroll_once_per_course
    (st st1 : State.t) (r : Response.t) (caller : JWTPayload.t) (id : string)
    (paymentIntentId : option string) (clk : Clock) :
  CourseController.enrollInCourse (Some caller) id paymentIntentId clk st
    = (r, st1) ->
  Response.statusCode r = 200 ->
  exists stored,
    UserModel.findById (State.users st1) (JWTPayload.userId caller)
      = Some stored
    /\ length (progress_for stored id) = 1%nat
    /\ forall paymentIntentId' clk',
         CourseController.enrollInCourse (Some caller) id paymentIntentId'
           clk' st1
         = (sendError 409 "Already enrolled in this course", st1).
Proof.
  intros Hrun Hok.
  destruct (enrollInCourse_ok _ _ _ _ _ _ _ Hrun Hok)
    as (stored & course & Hu & Hnone & Hc & Hpub & Heq).
  rewrite (enroll_spec _ _ _ _ stored course Hu Hnone Hc) in Heq.
  injection Heq as -> ->.
  set (stored' := UserModel.with_progress stored _ _).
  assert (Hrec : enrolled_record id clk ∈ User.progress stored').
  { simpl. apply elem_of_app. right. by apply list_elem_of_singleton. }
  exists stored'. split_and!.
  - apply get_set_eq.
  - unfold progress_for. simpl. rewrite list.filter_app.
    rewrite (list_find_none_filter _ _ Hnone). simpl.
    by rewrite filter_cons, decide_True.
  - intros paymentIntentId' clk'.
    destruct (list_find_elem_of
                (fun p => CourseProgress.courseId p = id)
                (User.progress stored') (enrolled_record id clk) Hrec eq_refl)
      as [existing Hfind].
    eapply (enrollInCourse_again _ _ _ _ _ stored'
              (CourseModel.enrolled_once_more course (clk 5%nat))).
    + apply get_set_eq.
    + done.
    + apply get_set_eq.
    + exact Hfind.
Qed.

Lemma enroll_once_per_course_witness :
  let caller := Sample.caller "u_student" STUDENT in
  let first :=
    CourseController.enrollInCourse (Some caller) "c_free" None Sample.clock
      Sample.campus in
  Response.statusCode first.1 = 200
  /\ exists stored,
       UserModel.findById (State.users first.2) "u_student" = Some stored
       /\ length (progress_for stored "c_free") = 1%nat
       /\ forall paymentIntentId' clk',
            CourseController.enrollInCourse (Some caller) "c_free"
              paymentIntentId' clk' first.2
            = (sendError 409 "Already enrolled in this course", first.2).
Proof.
  intros caller first. split; [reflexivity|].
  exact (enroll_once_per_course Sample.campus first.2 first.1 caller "c_free"
           None Sample.clock eq_refl eq_refl).
Defined.

(** ** Account deletion *)

(** C9.  For an authenticated caller, [DELETE /users/account] removes the
    entry stored under the caller's id and no other entry of the user store,
    answers 200 exactly when that entry existed (404 otherwise), and leaves
    the course store and the payment store untouched. *)
Theorem deleteAccount_removes_only_the_user
    (st : State.t) (caller : JWTPayload.t) :
  let res := Routes.delete_user_account (valid_token caller) st in
  let userId := JWTPayload.userId caller in
  State.courses res.2 = State.courses st
  /\ State.payments res.2 = State.payments st
  /\ State.users res.2 = filter (fun e => e.1 <> userId) (State.users st)
  /\ UserModel.findById (State.users res.2) userId = None
  /\ (forall id, id <> userId ->
        UserModel.findById (State.users res.2) id
        = UserModel.findById (State.users st) id)
  /\ (Response.statusCode res.1 = 200
      <-> is_Some (UserModel.findById (State.users st) userId))
  /\ (UserModel.findById (State.users st) userId = None ->
      res = (sendNotFound "User", st)).
Proof.
  destruct st as [users courses payments]. cbv zeta.
  unfold Routes.delete_user_account, Routes.chain, authenticate,
    UserController.deleteAccount, UserModel.delete, UserModel.findById.
  pose proof (get_delete_eq users (JWTPayload.userId caller)) as Hgone.
  pose proof (get_delete_ne users (JWTPayload.userId caller)) as Hkept.
  pose proof (delete_absent users (JWTPayload.userId caller)) as Habsent.
  unfold JsMap.delete, JsMap.has in *. simpl in *.
  destruct (JsMap.get users (JWTPayload.userId caller)) as [stored|] eqn:Hget;
    simpl; split_and!; try done;
    try (intros id Hne; apply Hkept; congruence);
    try (intros _; by rewrite Habsent);
    split; try done; by intros [? ?].
Qed.

Lemma deleteAccount_removes_only_the_user_witness :
  let res :=
    Routes.delete_user_account
      (valid_token (Sample.caller "u_instructor" INSTRUCTOR)) Sample.campus in
  Response.statusCode res.1 = 200
  /\ UserModel.findById (State.users res.2) "u_instructor" = None
  /\ State.courses res.2 = State.courses Sample.campus
  /\ State.payments res.2 = State.payments Sample.campus.
Proof.
  intros res.
  destruct (deleteAccount_removes_only_the_user Sample.campus
              (Sample.caller "u_instructor" INSTRUCTOR))
    as (Hc & Hp & _ & Hgone & _ & Hok & _).
  split_and!; [|exact Hgone|exact Hc|exact Hp].
  apply Hok. by eexists.
Defined.

(** ** Progress update *)

Lemma filter_nil_list_find {A} (P : A -> Prop) `{!forall x, Decision (P x)}
    (l : list A) :
  filter P l = [] -> list_find P l = None.
Proof.
  intros Hnil. apply list_find_None, list.Forall_forall. intros x Hin HP.
  assert (Hx : x ∈ filter P l) by by apply list_elem_of_filter.
  rewrite Hnil in Hx. by apply elem_of_nil in Hx.
Qed.

(** C10.  For a caller whose user record exists and holds no progress record
    for [courseId], [PUT /users/progress/:courseId] answers 200 and appends a
    record for [courseId] to the caller's progress list.  Nothing is asked of
    the course store or the payment store (the course may be absent,
    unpublished or unpaid), and both are left as they are, so no
    [enrollmentCount] moves. *)
Theorem progress_update_creates_record
    (st : State.t) (caller : JWTPayload.t) (courseId : string)
    (body : ProgressBody.t) (clk : Clock) (stored : User.t) :
  UserModel.findById (State.users st) (JWTPayload.userId caller)
    = Some stored ->
  progress_for stored courseId = [] ->
  let res :=
    Routes.put_user_progress (valid_token caller) courseId body clk st in
  res.1 = sendSuccess data_null "Progress updated successfully" None
  /\ State.courses res.2 = State.courses st
  /\ State.payments res.2 = State.payments st
  /\ exists stored' record,
       UserModel.findById (State.users res.2) (JWTPayload.userId caller)
         = Some stored'
       /\ User.progress stored' = User.progress stored ++ [record]
       /\ progress_for stored' courseId = [record]
       /\ CourseProgress.courseId record = courseId
       /\ CourseProgress.enrolledAt record = clk 1%nat
       /\ CourseProgress.completedModules record
          = ProgressBody.completedModules body
       /\ CourseProgress.currentModule record
          = ProgressBody.currentModule body
       /\ CourseProgress.progressPercentage record
          = ProgressBody.progressPercentage body
       /\ CourseProgress.lastAccessedAt record = clk 0%nat.
Proof.
  intros Hstored Hnone. pose proof Hnone as Hempty.
  apply filter_nil_list_find in Hnone.
  unfold UserModel.findById in *. cbv zeta.
  unfold Routes.put_user_progress, Routes.chain, authenticate,
    UserController.updateProgress, UserModel.updateProgress.
  rewrite Hstored, Hnone. simpl. split_and!; try done.
  eexists _, _. split_and!; [apply get_set_eq|reflexivity|..]; try done.
  unfold progress_for in *. simpl. rewrite list.filter_app, Hempty. simpl.
  by rewrite filter_cons, decide_True.
Qed.

Lemma progress_update_creates_record_witness :
  let caller := Sample.caller "u_student" STUDENT in
  let res :=
    Routes.put_user_progress (valid_token caller) "c_draft"
      (ProgressBody.mk (Some ["module_1"]) (Some "module_2") (Some 100%Q))
      Sample.clock Sample.campus in
  res.1 = sendSuccess data_null "Progress updated successfully" None
  /\ State.courses res.2 = State.courses Sample.campus
  /\ State.payments res.2 = State.payments Sample.campus
  /\ (fun stored => progress_for stored "c_draft")
       <$> UserModel.findById (State.users res.2) "u_student"
     = Some [CourseProgress.mk "c_draft" (Sample.clock 1%nat)
               (Some ["module_1"]) (Some "module_2") (Some 100%Q)
               (Sample.clock 0%nat) None None].
Proof.
  intros caller res.
  destruct (progress_update_creates_record Sample.campus caller "c_draft"
              (ProgressBody.mk (Some ["module_1"]) (Some "module_2")
                 (Some 100%Q))
              Sample.clock (Sample.user "u_student" STUDENT [])
              eq_refl eq_refl)
    as (Hres & Hc & Hp & _).
  split_and!; [exact Hres|exact Hc|exact Hp|reflexivity].
Defined.

(** ** Paid enrollment *)

(** For a paid course the handler looks the payment up by the provider's id
    alone and reads its [status]: whose payment it is and for which course
    plays no part. *)
Lemma enrollInCourse_paid_any_succeeded_payment
    (st : State.t) (caller : JWTPayload.t) (id stripeId : string)
    (clk : Clock) (course : Course.t) (stored : User.t)
    (payment : PaymentIntent.t) :
  CourseModel.findById (State.courses st) id = Some course ->
  Course.isPublished course = true ->
  Qeq_bool (Course.price course) 0 = false ->
  UserModel.findById (State.users st) (JWTPayload.userId caller)
    = Some stored ->
  progress_for stored id = [] ->
  stripeId <> "" ->
  PaymentModel.findByStripeId (State.payments st) stripeId = Some payment ->
  PaymentIntent.status payment = SUCCEEDED ->
  CourseController.enrollInCourse (Some caller) id (Some stripeId) clk st
  = CourseController.enroll (JWTPayload.userId caller) id clk st.
Proof.
  intros Hc Hpub Hprice Hu Hnone Hid Hpay Hstatus.
  apply filter_nil_list_find in Hnone.
  unfold CourseController.enrollInCourse.
  rewrite Hc, Hpub, Hu, Hnone, Hprice. simpl.
  destruct (String.eqb_spec stripeId "") as [|_]; [done|]. simpl.
  rewrite Hpay. by rewrite bool_decide_false by (by rewrite Hstatus; intros ?).
Qed.

(** C1 (the handler at a failing input).  [u_student] enrolls in the paid
    course [c_paid] with the provider id of a payment that [u_other] made for
    [c_other].  No succeeded payment of [u_student] for [c_paid] exists, yet
    the handler answers 200, writes the progress record and increments the
    course's [enrollmentCount]. *)
Theorem enroll_accepts_payment_of_another_user :
  let caller := Sample.caller "u_student" STUDENT in
  let res :=
    Routes.post_course_enroll (valid_token caller) "c_paid" (Some "pi_1")
      Sample.clock Sample.campus in
  PaymentModel.findByStripeId (State.payments Sample.campus) "pi_1"
    = Some (Sample.payment "payment_1" "pi_1" "u_other" "c_other" SUCCEEDED)
  /\ PaymentModel.findSuccessfulPayment (State.payments Sample.campus)
       "u_student" "c_paid" = None
  /\ Forall (fun p => PaymentIntent.userId p <> "u_student"
                      /\ PaymentIntent.courseId p <> "c_paid")
            (JsMap.values (State.payments Sample.campus))
  /\ res.1 = sendSuccess data_null "Enrolled in course successfully" None
  /\ (fun stored => progress_for stored "c_paid")
       <$> UserModel.findById (State.users res.2) "u_student"
     = Some [enrolled_record "c_paid" Sample.clock]
  /\ Course.enrollmentCount
       <$> CourseModel.findById (State.courses Sample.campus) "c_paid"
     = Some 2500
  /\ Course.enrollmentCount
       <$> CourseModel.findById (State.courses res.2) "c_paid"
     = Some 2501.
Proof.
  cbv zeta. split_and!; try reflexivity.
  repeat constructor; discriminate.
Qed.

(** ** Visibility of unpublished courses *)

Lemma sort_insert_perm {A} (cmp : A -> A -> Z) (x : A) (l : list A) :
  sort_insert cmp x l ≡ₚ x :: l.
Proof.
  induction l as [|y l IH]; simpl; [done|].
  destruct (0 <? cmp x y); [|done].
  rewrite IH. apply Permutation_swap.
Qed.

Lemma sort_perm {A} (cmp : A -> A -> Z) (l : list A) : sort cmp l ≡ₚ l.
Proof.
  induction l as [|x l IH]; simpl; [done|].
  by rewrite sort_insert_perm, IH.
Qed.

Lemma elem_of_slice {A} (l : list A) (start stop : Z) (x : A) :
  x ∈ slice l start stop -> x ∈ l.
Proof.
  unfold slice. intros Hin.
  eapply elem_of_sublist; [exact Hin|].
  etrans; [apply sublist_take|apply sublist_drop].
Qed.

Lemma findAll_published (toLowerCase : string -> string)
    (courses : CourseModel.store) (filters : FindAllFilters.t)
    (c : Course.t) :
  FindAllFilters.includeUnpublished filters = false ->
  c ∈ CourseModel.findAll toLowerCase courses filters ->
  Course.isPublished c = true.
Proof.
  intros Hflag. unfold CourseModel.findAll. rewrite Hflag. simpl.
  intros Hin%list_elem_of_In. by apply filter_In in Hin as [_ ?].
Qed.

(** The listing shows an unpublished course to administrators only: the
    owner's identity is not part of the filter. *)
Lemma getAllCourses_only_published_unless_admin
    (toLowerCase : string -> string) (st : State.t)
    (user : option JWTPayload.t) (query : CourseQuery.t) (c : Course.t) :
  JWTPayload.role <$> user <> Some ADMIN ->
  c ∈ listed (CourseController.getAllCourses toLowerCase user query st) ->
  Course.isPublished c = true.
Proof.
  intros Hrole. unfold CourseController.getAllCourses, listed. simpl.
  intros Hin%elem_of_slice. rewrite sort_perm in Hin.
  eapply findAll_published; [|exact Hin]. simpl.
  unfold CourseController.is_admin. by rewrite bool_decide_false.
Qed.

(** The detail retrieval shows an unpublished course to administrators and
    to the user its [instructorId] names, and answers 403 to anyone else. *)
Lemma getCourseById_unpublished
    (st : State.t) (user : option JWTPayload.t) (id : string)
    (course : Course.t) :
  CourseModel.findById (State.courses st) id = Some course ->
  Course.isPublished course = false ->
  (Response.statusCode (CourseController.getCourseById user id st) = 200
   <-> JWTPayload.role <$> user = Some ADMIN
       \/ JWTPayload.userId <$> user = Some (Course.instructorId course))
  /\ (Response.statusCode (CourseController.getCourseById user id st) <> 200 ->
      CourseController.getCourseById user id st
      = sendForbidden "Course not available").
Proof.
  intros Hc Hpub. unfold CourseController.getCourseById.
  rewrite Hc, Hpub. unfold CourseController.is_admin. simpl.
  do 2 case_bool_decide; simpl; (split; [split|]); try done; try tauto.
Qed.

(** C5 (the handlers at a failing input).  [c_draft] is an unpublished
    course whose [instructorId] is [u_instructor].  The detail route shows it
    to [u_instructor] and the listing shows it to an administrator, but the
    listing requested by [u_instructor] leaves it out.  The query has no
    search text, so this holds whatever [toLowerCase] is. *)
Theorem listing_hides_draft_from_its_owner (toLowerCase : string -> string) :
  let owner := valid_token (Sample.caller "u_instructor" INSTRUCTOR) in
  let admin := valid_token (Sample.caller "u_admin" ADMIN) in
  let everything := CourseQuery.pagination_only None None in
  (fun c => (Course.instructorId c, Course.isPublished c))
    <$> CourseModel.findById (State.courses Sample.campus) "c_draft"
  = Some ("u_instructor", false)
  /\ Response.statusCode (Routes.get_course owner "c_draft" Sample.campus)
     = 200
  /\ "c_draft"
       ∈ Course.id <$> listed (Routes.get_courses toLowerCase admin
                                 everything Sample.campus)
  /\ Response.statusCode
       (Routes.get_courses toLowerCase owner everything Sample.campus)
     = 200
  /\ "c_draft"
       ∉ Course.id <$> listed (Routes.get_courses toLowerCase owner
                                 everything Sample.campus).
Proof.
  cbv zeta. split_and!; try reflexivity; by apply (bool_decide_unpack _).
Qed.

(** ** Update followed by lookup *)

(** C6, as the code has it.  After [update(id, updates)] on a stored course,
    [findById(id)] returns the record [update] returned: every field but
    [updatedAt] is the one of [updates] where the key is present and the
    stored one elsewhere, [updatedAt] is the clock reading of the call
    (whatever [updates] says), so it exceeds the previous [updatedAt] exactly
    when the clock has moved past it; other keys are not touched. *)
Theorem update_then_findById
    (courses : CourseModel.store) (id : string) (course : Course.t)
    (updates : Course.partial) (now : Date) :
  CourseModel.findById courses id = Some course ->
  exists updated,
    (CourseModel.update courses id updates now).1 = Some updated
    /\ CourseModel.findById (CourseModel.update courses id updates now).2 id
       = Some updated
    /\ merged_fields course updates updated
    /\ Course.updatedAt updated = now
    /\ (Course.updatedAt course < Course.updatedAt updated
        <-> Course.updatedAt course < now)
    /\ forall id', id' <> id ->
         CourseModel.findById (CourseModel.update courses id updates now).2 id'
         = CourseModel.findById courses id'.
Proof.
  unfold CourseModel.findById, CourseModel.update. intros ->. simpl.
  exists (CourseModel.merged course updates now).
  split_and!; try done.
  - apply get_set_eq.
  - intros id' Hne. by apply get_set_ne.
Qed.

Lemma update_then_findById_witness :
  let courses := State.courses Sample.campus in
  let res :=
    CourseModel.update courses "c_paid" (Sample.newPrice 10%Q)
      1700000000000 in
  exists updated,
    CourseModel.findById res.2 "c_paid" = Some updated
    /\ Course.price updated = 10%Q
    /\ Course.title updated = "Advanced React Development"
    /\ Course.updatedAt updated = 1700000000000.
Proof.
  intros courses res.
  destruct (update_then_findById courses "c_paid"
              (Sample.course "c_paid" "u_instructor" 149.99%Q true)
              (Sample.newPrice 10%Q) 1700000000000 eq_refl)
    as (updated & _ & Hfind & Hmerged & Hnow & _).
  exists updated. split_and!; [exact Hfind| | |exact Hnow].
  - apply Hmerged.
  - apply Hmerged.
Defined.

(** C6 as stated fails: a course created and updated within the same
    millisecond keeps its [updatedAt]. *)
Lemma update_in_the_same_millisecond :
  let now := 1700000000000 in
  let created := CourseModel.create JsMap.empty "course_1" now
                   Sample.courseData in
  let updated := CourseModel.update created.2 "course_1"
                   (Sample.newPrice 10%Q) now in
  exists before after,
    CourseModel.findById created.2 "course_1" = Some before
    /\ CourseModel.findById updated.2 "course_1" = Some after
    /\ Course.price after = 10%Q
    /\ ~ Course.updatedAt before < Course.updatedAt after.
Proof.
  cbv zeta. eexists _, _. split_and!; [reflexivity|reflexivity|reflexivity|].
  simpl. lia.
Qed.

(** ** Who may create and update a course *)




(** ** The payment store under confirm, refund and webhook *)

Section Payments.
Implicit Types (payments : PaymentModel.store) (p : PaymentIntent.t).

Lemma set_set {V} (m : JsMap.t V) (k : string) (v v' : V) :
  JsMap.set (JsMap.set m k v) k v' = JsMap.set m k v'.
Proof.
  induction m as [|[k0 v0] m IH]; simpl.
  - by rewrite decide_True.
  - destruct (decide (k0 = k)) as [->|Hne]; simpl.
    + by rewrite decide_True.
    + by rewrite decide_False, IH.
Qed.

Lemma get_Some_key {V} (m : JsMap.t V) (k : string) (v : V) :
  JsMap.get m k = Some v -> k ∈ JsMap.keys m.
Proof.
  unfold JsMap.keys. induction m as [|[k0 v0] m IH]; csimpl; [done|].
  destruct (decide (k0 = k)) as [->|Hne]; intros Hget.
  - by apply elem_of_cons; left.
  - apply elem_of_cons; right. by apply IH.
Qed.

Lemma findByStripeId_cons k p payments stripeId :
  PaymentModel.findByStripeId ((k, p) :: payments) stripeId
  = if decide (PaymentIntent.stripePaymentIntentId p = stripeId) then Some p
    else PaymentModel.findByStripeId payments stripeId.
Proof.
  unfold PaymentModel.findByStripeId, JsMap.values. csimpl.
  destruct (decide (PaymentIntent.stripePaymentIntentId p = stripeId));
    [done|].
  by destruct (list_find _ payments.*2) as [[i x]|].
Qed.

(** A status update keeps the id and the provider's id of a record, and the
    later update wins. *)
Lemma merged_status_id p s now :
  PaymentIntent.id (PaymentModel.merged p (PaymentIntent.status_only s) now)
  = PaymentIntent.id p.
Proof. done. Qed.

Lemma merged_status_twice p s t1 t2 :
  PaymentModel.merged
    (PaymentModel.merged p (PaymentIntent.status_only s) t1)
    (PaymentIntent.status_only s) t2
  = PaymentModel.merged p (PaymentIntent.status_only s) t2.
Proof. done. Qed.

(** Replacing a stored record by one with the same [id] and the same
    provider id does not change which record a provider id resolves to. *)
Lemma findByStripeId_set payments k q q' stripeId :
  JsMap.get payments k = Some q ->
  PaymentIntent.stripePaymentIntentId q'
    = PaymentIntent.stripePaymentIntentId q ->
  PaymentIntent.id q' = PaymentIntent.id q ->
  PaymentIntent.id <$> PaymentModel.findByStripeId (JsMap.set payments k q')
                         stripeId
  = PaymentIntent.id <$> PaymentModel.findByStripeId payments stripeId.
Proof.
  intros Hget Hstripe Hid.
  induction payments as [|[k0 p0] payments IH]; [done|].
  simpl in *. destruct (decide (k0 = k)) as [->|Hne].
  - injection Hget as ->. rewrite !findByStripeId_cons, Hstripe.
    case_decide; simpl; [by rewrite Hid|done].
  - rewrite !findByStripeId_cons. case_decide; [done|by apply IH].
Qed.

Lemma findByStripeId_stored payments stripeId p :
  JsMap.wf payments -> PaymentModel.keyed_by_id payments ->
  PaymentModel.findByStripeId payments stripeId = Some p ->
  JsMap.get payments (PaymentIntent.id p) = Some p
  /\ PaymentIntent.stripePaymentIntentId p = stripeId.
Proof.
  unfold JsMap.wf, JsMap.keys, PaymentModel.keyed_by_id.
  induction payments as [|[k0 p0] payments IH]; [done|].
  csimpl. intros [Hfresh Hwf]%list.NoDup_cons [Hkey Hkeyed]%list.Forall_cons.
  rewrite findByStripeId_cons. simpl in Hkey. case_decide.
  - intros [= ->]. by rewrite decide_True.
  - intros Hfind. destruct (IH Hwf Hkeyed Hfind) as [Hget Hstripe].
    split; [|done]. rewrite decide_False; [done|].
    intros ->. apply Hfresh. by eapply get_Some_key.
Qed.

Lemma keyed_by_id_set payments k p :
  PaymentModel.keyed_by_id payments -> PaymentIntent.id p = k ->
  PaymentModel.keyed_by_id (JsMap.set payments k p).
Proof.
  unfold PaymentModel.keyed_by_id. intros Hkeyed Hid.
  induction Hkeyed as [|[k0 p0] payments Hk0 Htl IH]; simpl.
  - by repeat constructor.
  - case_decide; by constructor.
Qed.

Lemma update_found_keeps_settled payments id stripeId target status now p :
  sound payments -> settled payments id stripeId ->
  PaymentModel.findByStripeId payments target = Some p ->
  (target = stripeId -> status = SUCCEEDED \/ status = REFUNDED) ->
  let payments' :=
    (PaymentModel.update payments (PaymentIntent.id p)
       (PaymentIntent.status_only status) now).2 in
  sound payments' /\ settled payments' id stripeId.
Proof.
  intros [Hwf Hkeyed] (p0 & Hp0 & Hstripe0 & Hstatus0) Hfind Htarget.
  destruct (findByStripeId_stored _ _ _ Hwf Hkeyed Hfind) as [Hget Hstripe].
  unfold PaymentModel.update. rewrite Hget. simpl.
  split; [split|].
  - by apply wf_set.
  - by apply keyed_by_id_set.
  - unfold settled, PaymentModel.findById in *.
    destruct (decide (PaymentIntent.id p = id)) as [<-|Hne].
    + rewrite get_set_eq. eexists. split; [done|]. simpl.
      rewrite Hget in Hp0. injection Hp0 as <-.
      split; [done|]. apply Htarget. congruence.
    + rewrite get_set_ne by done. by exists p0.
Qed.

Lemma run_keeps_settled (op : PaymentOp.t) (st : State.t) id stripeId :
  sound (State.payments st) -> settled (State.payments st) id stripeId ->
  PaymentOp.provider_agrees stripeId op ->
  sound (State.payments (PaymentOp.run op st).2)
  /\ settled (State.payments (PaymentOp.run op st).2) id stripeId.
Proof.
  intros Hsound Hsettled Hagrees.
  destruct op as [user target retrieved now|user target refunded now
                 |constructed now]; simpl in *.
  - unfold PaymentController.confirmPayment.
    destruct user as [caller|]; [|done].
    destruct (PaymentModel.findByStripeId _ target) as [p|] eqn:Hfind;
      [|done].
    case_bool_decide; [done|].
    destruct (stripeService.confirmPayment retrieved) as [status|]; [|done].
    simpl. apply (update_found_keeps_settled _ _ _ target); try done.
    intros ->. left. by apply Hagrees.
  - unfold PaymentController.refundPayment.
    destruct user as [caller|]; [|done].
    destruct (PaymentModel.findByStripeId _ target) as [p|] eqn:Hfind;
      [|done].
    destruct (_ && _); [done|]. case_bool_decide; [done|].
    destruct (stripeService.refundPayment refunded) as [[|]|]; try done.
    simpl. apply (update_found_keeps_settled _ _ _ target); try done.
    by right.
  - unfold PaymentController.handleWebhook, stripeService.handleWebhook,
      PaymentController.mark.
    destruct constructed as [event|]; [|done]. simpl.
    destruct (String.eqb_spec (StripeWebhookEvent.type event)
                "payment_intent.succeeded") as [Hs|_].
    { destruct (PaymentModel.findByStripeId _ _) as [p|] eqn:Hfind; [|done].
      simpl.
      apply (update_found_keeps_settled _ _ _
               (StripeWebhookEvent.object_id event)); try done.
      by left. }
    destruct (String.eqb_spec (StripeWebhookEvent.type event)
                "payment_intent.payment_failed") as [Hf|_]; [|done].
    destruct (PaymentModel.findByStripeId _ _) as [p|] eqn:Hfind; [|done].
    simpl.
    apply (update_found_keeps_settled _ _ _
             (StripeWebhookEvent.object_id event)); try done.
    intros Hsame. by destruct (Hagrees Hf).
Qed.

End Payments.

Lemma run_all_keeps_settled (ops : list PaymentOp.t) (st : State.t)
    (id stripeId : string) :
  sound (State.payments st) -> settled (State.payments st) id stripeId ->
  Forall (PaymentOp.provider_agrees stripeId) ops ->
  settled (State.payments (PaymentOp.run_all ops st)) id stripeId.
Proof.
  intros Hsound Hsettled Hops. revert st Hsound Hsettled.
  induction Hops as [|op ops Hop _ IH]; intros st Hsound Hsettled; [done|].
  simpl. destruct (run_keeps_settled op st id stripeId) as [Hsound' Hsettled'];
    try done.
  by apply IH.
Qed.

Lemma keyed_get (payments : PaymentModel.store) (id : string)
    (p : PaymentIntent.t) :
  PaymentModel.keyed_by_id payments -> JsMap.get payments id = Some p ->
  PaymentIntent.id p = id.
Proof.
  unfold PaymentModel.keyed_by_id.
  induction payments as [|[k0 p0] payments IH]; [done|].
  intros [Hkey Hkeyed]%list.Forall_cons. simpl in *.
  destruct (decide (k0 = id)) as [<-|Hne]; [by intros [= <-]|by apply IH].
Qed.

Lemma handleWebhook_mark (event : StripeWebhookEvent.t) (now : Date)
    (st : State.t) :
  PaymentController.handleWebhook (Some event) now st
  = (Response.mk 200 body_received,
     match event_status event with
     | Some status =>
         PaymentController.mark (StripeWebhookEvent.object_id event) status
           now st
     | None => st
     end).
Proof.
  unfold PaymentController.handleWebhook, stripeService.handleWebhook,
    event_status.
  by repeat destruct (String.eqb _ _).
Qed.

Lemma mark_found (objectId : string) (status : PaymentStatus) (now : Date)
    (st : State.t) (p : PaymentIntent.t) :
  sound (State.payments st) ->
  PaymentModel.findByStripeId (State.payments st) objectId = Some p ->
  PaymentController.mark objectId status now st
  = State.with_payments st
      (JsMap.set (State.payments st) (PaymentIntent.id p)
         (PaymentModel.merged p (PaymentIntent.status_only status) now)).
Proof.
  intros [Hwf Hkeyed] Hfind.
  destruct (findByStripeId_stored _ _ _ Hwf Hkeyed Hfind) as [Hget _].
  unfold PaymentController.mark, PaymentModel.update.
  by rewrite Hfind, Hget.
Qed.

(** C2, as the code has it.  In a payment store that holds each record once
    under its own id: a confirmation by the payer stores the status that the
    provider's answer maps to, and a [payment_intent.succeeded] or
    [payment_intent.payment_failed] event stores Succeeded or Failed, in both
    cases without looking at the stored status; a refund request changes
    the stores only when the record it resolves to is Succeeded, and then
    only by writing Refunded to that record.  Hence a Succeeded record is
    Succeeded or Refunded after any run of confirm, refund and webhook
    operations in which the provider answers [succeeded] to every
    confirmation of its intent and sends no [payment_intent.payment_failed]
    event for it. *)
Theorem succeeded_payment_stays_settled
    (st : State.t) (id : string) (p : PaymentIntent.t) :
  JsMap.wf (State.payments st) ->
  PaymentModel.keyed_by_id (State.payments st) ->
  PaymentModel.findById (State.payments st) id = Some p ->
  let stripeId := PaymentIntent.stripePaymentIntentId p in
  let status_in (st' : State.t) :=
    PaymentIntent.status <$> PaymentModel.findById (State.payments st') id in
  (PaymentModel.findByStripeId (State.payments st) stripeId = Some p ->
   (forall caller retrieved now status,
      PaymentIntent.userId p = JWTPayload.userId caller ->
      stripeService.confirmPayment retrieved = Some status ->
      status_in (PaymentController.confirmPayment (Some caller) stripeId
                   retrieved now st).2 = Some status)
   /\ (forall event now status,
         StripeWebhookEvent.object_id event = stripeId ->
         event_status event = Some status ->
         status_in (PaymentController.handleWebhook (Some event) now st).2
         = Some status))
  /\ (forall st' user target refund now,
        sound (State.payments st') ->
        let res :=
          PaymentController.refundPayment user target refund now st' in
        res.2 = st'
        \/ exists q,
             PaymentModel.findByStripeId (State.payments st') target = Some q
             /\ PaymentIntent.status q = SUCCEEDED
             /\ res.2
                = State.with_payments st'
                    (JsMap.set (State.payments st') (PaymentIntent.id q)
                       (PaymentModel.merged q
                          (PaymentIntent.status_only REFUNDED) now))
             /\ PaymentIntent.status
                  (PaymentModel.merged q (PaymentIntent.status_only REFUNDED)
                     now) = REFUNDED
             /\ same_payment q
                  (PaymentModel.merged q (PaymentIntent.status_only REFUNDED)
                     now))
  /\ (PaymentIntent.status p = SUCCEEDED ->
      forall ops,
        Forall (PaymentOp.provider_agrees stripeId) ops ->
        exists p',
          PaymentModel.findById (State.payments (PaymentOp.run_all ops st)) id
            = Some p'
          /\ (PaymentIntent.status p' = SUCCEEDED
              \/ PaymentIntent.status p' = REFUNDED)).
Proof.
  intros Hwf Hkeyed Hp. cbv zeta.
  assert (Hid : PaymentIntent.id p = id) by by apply (keyed_get _ _ _ Hkeyed).
  split_and!.
  - intros Hfind. split.
    + intros caller retrieved now status Hpayer Hanswer.
      unfold PaymentController.confirmPayment.
      rewrite Hfind, bool_decide_false, Hanswer by (by intros ?).
      cbn [snd State.payments State.with_payments].
      unfold PaymentModel.update, PaymentModel.findById in *.
      rewrite Hid, Hp. cbn [snd]. by rewrite get_set_eq.
    + intros event now status Hobject Hstatus.
      rewrite handleWebhook_mark, Hstatus, Hobject. cbn [snd].
      rewrite (mark_found _ _ _ _ p) by done.
      cbn [State.payments State.with_payments].
      unfold PaymentModel.findById. by rewrite Hid, get_set_eq.
  - intros st' user target refund now [Hwf' Hkeyed']. cbv zeta.
    unfold PaymentController.refundPayment.
    destruct user as [caller|]; [|by left].
    destruct (PaymentModel.findByStripeId _ target) as [q|] eqn:Hq;
      [|by left].
    destruct (bool_decide (PaymentIntent.userId q <> JWTPayload.userId caller)
              && bool_decide (JWTPayload.role caller <> ADMIN)); [by left|].
    case_bool_decide as Hstatus; [by left|].
    destruct (stripeService.refundPayment refund) as [[|]|]; try by left.
    right. exists q.
    destruct (findByStripeId_stored _ _ _ Hwf' Hkeyed' Hq) as [Hget _].
    unfold PaymentModel.update. rewrite Hget.
    split_and!; [done| |done|done|by repeat split].
    by destruct (decide (PaymentIntent.status q = SUCCEEDED)).
  - intros Hstatus ops Hops.
    destruct (run_all_keeps_settled ops st id
                (PaymentIntent.stripePaymentIntentId p))
      as (p' & Hp' & _ & Hstatus'); try done.
    + exists p. by split_and!; [|..|left].
    + by exists p'.
Qed.

Lemma succeeded_payment_stays_settled_witness :
  let payer := Some (Sample.caller "u_other" STUDENT) in
  let ops :=
    [PaymentOp.webhook (Some (Sample.succeededEvent "pi_1")) 1700000000000;
     PaymentOp.confirm payer "pi_1" (Some "succeeded") 1700000000100;
     PaymentOp.webhook (Some (Sample.failedEvent "pi_2")) 1700000000200;
     PaymentOp.refund payer "pi_1" (Some "succeeded") 1700000000300;
     PaymentOp.confirm payer "pi_1" None 1700000000400] in
  (exists p',
     PaymentModel.findById
       (State.payments (PaymentOp.run_all ops Sample.campus)) "payment_1"
       = Some p'
     /\ (PaymentIntent.status p' = SUCCEEDED
         \/ PaymentIntent.status p' = REFUNDED))
  /\ PaymentIntent.status
       <$> PaymentModel.findById
             (State.payments
                (PaymentController.confirmPayment payer "pi_1"
                   (Some "requires_action") 1700000000000 Sample.campus).2)
             "payment_1"
     = Some PENDING.
Proof.
  intros payer ops.
  destruct (succeeded_payment_stays_settled Sample.campus "payment_1"
              (Sample.payment "payment_1" "pi_1" "u_other" "c_other"
                 SUCCEEDED))
    as (Hmirror & _ & Hsettled).
  - by apply (bool_decide_unpack _).
  - by repeat constructor.
  - reflexivity.
  - split.
    + apply (Hsettled eq_refl ops). repeat constructor; simpl; done.
    + destruct (Hmirror eq_refl) as [Hconfirm _].
      by apply (Hconfirm (Sample.caller "u_other" STUDENT)
                  (Some "requires_action") 1700000000000 PENDING).
Defined.

(** C2 as stated fails: the webhook marks a Succeeded payment Failed when a
    [payment_intent.payment_failed] event for its intent arrives, and a
    confirmation stores whatever status the provider reports. *)
Lemma succeeded_payment_marked_failed :
  let payer := Some (Sample.caller "u_other" STUDENT) in
  let status_after op :=
    PaymentIntent.status
      <$> PaymentModel.findById (State.payments (PaymentOp.run op
                                                   Sample.campus).2)
            "payment_1" in
  PaymentIntent.status
    <$> PaymentModel.findById (State.payments Sample.campus) "payment_1"
  = Some SUCCEEDED
  /\ status_after
       (PaymentOp.webhook (Some (Sample.failedEvent "pi_1")) 1700000000000)
     = Some FAILED
  /\ status_after
       (PaymentOp.confirm payer "pi_1" (Some "canceled") 1700000000000)
     = Some CANCELED
  /\ status_after
       (PaymentOp.confirm payer "pi_1" (Some "processing") 1700000000000)
     = Some PENDING.
Proof. cbv zeta. split_and!; reflexivity. Qed.

(** ** Replaying a webhook event *)

Section Replay.
Implicit Types (st : State.t).

Lemma mark_twice objectId status t1 t2 st :
  PaymentController.mark objectId status t2
    (PaymentController.mark objectId status t1 st)
  = PaymentController.mark objectId status t2 st.
Proof.
  destruct st as [users courses payments]. unfold PaymentController.mark.
  simpl.
  destruct (PaymentModel.findByStripeId payments objectId) as [p|] eqn:Hfind;
    simpl; [|by rewrite Hfind].
  unfold PaymentModel.update.
  destruct (JsMap.get payments (PaymentIntent.id p)) as [q|] eqn:Hget;
    simpl; [|by rewrite Hfind, Hget].
  pose proof (findByStripeId_set payments (PaymentIntent.id p) q
                (PaymentModel.merged q (PaymentIntent.status_only status) t1)
                objectId Hget eq_refl eq_refl) as Hsame.
  rewrite Hfind in Hsame.
  destruct (PaymentModel.findByStripeId (JsMap.set _ _ _) objectId)
    as [p1|]; [|done].
  injection Hsame as ->. rewrite get_set_eq. simpl.
  by rewrite set_set.
Qed.

Lemma same_but_updatedAt_set (payments : PaymentModel.store) k q q' :
  forget_updatedAt q = forget_updatedAt q' ->
  same_but_updatedAt (JsMap.set payments k q) (JsMap.set payments k q').
Proof.
  unfold same_but_updatedAt. intros Hq.
  induction payments as [|[k0 p0] payments IH]; csimpl.
  - unfold prod_map. simpl. by rewrite Hq.
  - case_decide; csimpl; by rewrite ?Hq, ?IH.
Qed.

Lemma mark_same_but_updatedAt objectId status t1 t2 st :
  same_but_updatedAt
    (State.payments (PaymentController.mark objectId status t2 st))
    (State.payments (PaymentController.mark objectId status t1 st)).
Proof.
  unfold PaymentController.mark.
  destruct (PaymentModel.findByStripeId _ objectId) as [p|]; [|done].
  simpl. unfold PaymentModel.update.
  destruct (JsMap.get _ (PaymentIntent.id p)) as [q|]; [|done].
  simpl. by apply same_but_updatedAt_set.
Qed.

Lemma mark_frame objectId status now st :
  State.users (PaymentController.mark objectId status now st) = State.users st
  /\ State.courses (PaymentController.mark objectId status now st)
     = State.courses st.
Proof.
  unfold PaymentController.mark. by destruct (PaymentModel.findByStripeId _ _).
Qed.

End Replay.

(** C7, as the code has it.  In a payment store that holds each record once
    under its own id, processing the same event a second time answers as the
    first time did (200 when the event is verified) and leaves the stores as
    a single processing at the later instant would.  When the event is of a
    type the handler acts on and resolves to a record, that record has after
    each processing the status the event asks for and, as [updatedAt], the
    instant of that processing, its other fields being kept: the replay
    changes no status and rewrites that one [updatedAt] to its own instant.
    Every other record, the keys and their order are as before the first
    processing; otherwise nothing is written at all.  Users and courses are
    never touched. *)
Theorem webhook_replay
    (constructed : option StripeWebhookEvent.t) (t1 t2 : Date)
    (st : State.t) :
  sound (State.payments st) ->
  let once := PaymentController.handleWebhook constructed t1 st in
  let twice := PaymentController.handleWebhook constructed t2 once.2 in
  twice.1 = once.1
  /\ (is_Some constructed -> twice.1 = Response.mk 200 body_received)
  /\ twice.2 = (PaymentController.handleWebhook constructed t2 st).2
  /\ same_but_updatedAt (State.payments twice.2) (State.payments once.2)
  /\ State.users twice.2 = State.users st
  /\ State.courses twice.2 = State.courses st
  /\ JsMap.keys (State.payments once.2) = JsMap.keys (State.payments st)
  /\ JsMap.keys (State.payments twice.2) = JsMap.keys (State.payments st)
  /\ (forall event status p,
        constructed = Some event ->
        event_status event = Some status ->
        PaymentModel.findByStripeId (State.payments st)
          (StripeWebhookEvent.object_id event) = Some p ->
        (exists p1 p2,
           PaymentModel.findById (State.payments once.2) (PaymentIntent.id p)
             = Some p1
           /\ PaymentModel.findById (State.payments twice.2)
                (PaymentIntent.id p) = Some p2
           /\ PaymentIntent.status p1 = status
           /\ PaymentIntent.status p2 = status
           /\ PaymentIntent.updatedAt p1 = t1
           /\ PaymentIntent.updatedAt p2 = t2
           /\ same_payment p p1
           /\ same_payment p p2)
        /\ (forall other, other <> PaymentIntent.id p ->
              PaymentModel.findById (State.payments twice.2) other
              = PaymentModel.findById (State.payments st) other
              /\ PaymentModel.findById (State.payments once.2) other
                 = PaymentModel.findById (State.payments st) other))
  /\ ((forall event,
         constructed = Some event ->
         event_status event = None
         \/ PaymentModel.findByStripeId (State.payments st)
              (StripeWebhookEvent.object_id event) = None) ->
      once.2 = st /\ twice.2 = st).
Proof.
  intros Hsound. cbv zeta.
  destruct constructed as [event|]; cycle 1.
  { unfold PaymentController.handleWebhook, stripeService.handleWebhook.
    simpl. split_and!; try done; by intros [? ?]. }
  rewrite !handleWebhook_mark. cbn [fst snd].
  destruct (event_status event) as [status|] eqn:Hstatus; cycle 1.
  { split_and!; try done. intros ? ? ? [= <-]. by rewrite Hstatus. }
  rewrite mark_twice.
  destruct (PaymentModel.findByStripeId (State.payments st)
              (StripeWebhookEvent.object_id event)) as [p|] eqn:Hfind;
    cycle 1.
  { assert (Hnone : forall now,
              PaymentController.mark (StripeWebhookEvent.object_id event)
                status now st = st)
      by (intros now; unfold PaymentController.mark; by rewrite Hfind).
    rewrite !Hnone. split_and!; try done. intros ? ? ? [= <-].
    by rewrite Hfind. }
  destruct Hsound as [Hwf Hkeyed].
  destruct (findByStripeId_stored _ _ _ Hwf Hkeyed Hfind) as [Hget _].
  rewrite !(mark_found _ _ _ _ p) by done.
  cbn [State.payments State.users State.courses State.with_payments].
  unfold PaymentModel.findById.
  split_and!; try done.
  - by apply same_but_updatedAt_set.
  - apply keys_set_present. by eexists.
  - apply keys_set_present. by eexists.
  - intros event' status' p' [= <-] Hstatus' Hfind'.
    rewrite Hstatus in Hstatus'. injection Hstatus' as <-.
    rewrite Hfind in Hfind'. injection Hfind' as <-. split.
    + eexists _, _. rewrite !get_set_eq.
      split_and!; [reflexivity|reflexivity|..]; by repeat split.
    + intros other Hne. by rewrite !get_set_ne.
  - intros Hnothing.
    destruct (Hnothing event eq_refl) as [Hnone|Hnone]; congruence.
Qed.

Lemma webhook_replay_witness :
  let event := Some (Sample.failedEvent "pi_1") in
  let once :=
    PaymentController.handleWebhook event 1700000000000 Sample.campus in
  let twice := PaymentController.handleWebhook event 1700000060000 once.2 in
  twice.1 = Response.mk 200 body_received
  /\ same_but_updatedAt (State.payments twice.2) (State.payments once.2)
  /\ PaymentIntent.status
       <$> PaymentModel.findById (State.payments twice.2) "payment_1"
     = PaymentIntent.status
         <$> PaymentModel.findById (State.payments once.2) "payment_1"
  /\ exists p2,
       PaymentModel.findById (State.payments twice.2) "payment_1" = Some p2
       /\ PaymentIntent.status p2 = FAILED
       /\ PaymentIntent.updatedAt p2 = 1700000060000.
Proof.
  intros event once twice.
  destruct (webhook_replay event 1700000000000 1700000060000 Sample.campus)
    as (_ & Hok & _ & Hsame & _ & _ & _ & _ & Hrecord & _).
  { split; [by apply (bool_decide_unpack _)|by repeat constructor]. }
  destruct (Hrecord (Sample.failedEvent "pi_1") FAILED
              (Sample.payment "payment_1" "pi_1" "u_other" "c_other"
                 SUCCEEDED) eq_refl eq_refl eq_refl)
    as [(p1 & p2 & _ & Hp2 & _ & Hs2 & _ & Ht2 & _) _].
  split_and!; [apply Hok; by eexists|exact Hsame|reflexivity|].
  exists p2. by split_and!.
Defined.

(** C7 as stated fails: the replay rewrites [updatedAt], so the payment
    store after two deliveries differs from the store after one. *)
Lemma webhook_replay_moves_updatedAt :
  let event := Some (Sample.succeededEvent "pi_1") in
  let once :=
    (PaymentController.handleWebhook event 1700000000000 Sample.campus).2 in
  let twice := (PaymentController.handleWebhook event 1700000060000 once).2 in
  PaymentIntent.updatedAt
    <$> PaymentModel.findById (State.payments once) "payment_1"
  = Some 1700000000000
  /\ PaymentIntent.updatedAt
       <$> PaymentModel.findById (State.payments twice) "payment_1"
     = Some 1700000060000
  /\ State.payments twice <> State.payments once.
Proof.
  cbv zeta. split_and!; [reflexivity|reflexivity|].
  intros Heq.
  apply (f_equal (fun payments =>
                    PaymentIntent.updatedAt
                      <$> PaymentModel.findById payments "payment_1")) in Heq.
  discriminate Heq.
Qed.

(** ** Invariants of the stores that the handlers maintain *)

Lemma empty_sound : sound JsMap.empty.
Proof. split; [apply NoDup_nil_2|constructor]. Qed.

Lemma create_sound (payments : PaymentModel.store) (id : string) (now : Date)
    (paymentData : PaymentIntent.data) :
  sound payments ->
  sound (PaymentModel.create payments id now paymentData).2.
Proof.
  intros [Hwf Hkeyed]. split; simpl.
  - by apply wf_set.
  - by apply keyed_by_id_set.
Qed.

(** [UserModel.updateProgress] keeps one record per course as long as the
    partial record does not rename the course. *)
Lemma updateProgress_one_per_course
    (users : UserModel.store) (userId courseId : string)
    (progress : CourseProgress.partial) (t1 t2 t3 : Date) :
  CourseProgress.p_courseId progress = None
  \/ CourseProgress.p_courseId progress = Some courseId ->
  one_progress_per_course users ->
  one_progress_per_course
    (UserModel.updateProgress users userId courseId progress t1 t2 t3).2.
Proof.
  intros Hname Hone. unfold UserModel.updateProgress.
  destruct (JsMap.get users userId) as [user|] eqn:Huser; [|done].
  simpl. intros id stored. unfold UserModel.findById.
  destruct (decide (userId = id)) as [<-|Hne];
    [|rewrite get_set_ne by done; apply Hone].
  rewrite get_set_eq. intros [= <-]. simpl.
  pose proof (Hone userId user Huser) as Hnodup.
  destruct (list_find _ (User.progress user)) as [[i existing]|] eqn:Hfind.
  - apply list_find_Some in Hfind as (Hi & Hexisting & _).
    rewrite list_fmap_insert.
    assert (Hsame : CourseProgress.courseId
                      (CourseProgress.spread existing progress)
                    = CourseProgress.courseId existing).
    { destruct Hname as [Hn|Hn]; simpl; by rewrite Hn. }
    rewrite Hsame, list_insert_id; [done|].
    by rewrite list_lookup_fmap, Hi.
  - rewrite fmap_app. apply list.NoDup_app. split_and!; [done| |].
    + intros x Hx Hnew%list_elem_of_singleton. subst x.
      apply list_elem_of_fmap in Hx as [p [Hp Hin]].
      apply list_find_None in Hfind.
      rewrite list.Forall_forall in Hfind. apply (Hfind p Hin).
      rewrite <- Hp. destruct Hname as [Hn|Hn]; simpl; by rewrite Hn.
    + apply NoDup_singleton.
Qed.

Lemma enrollInCourse_one_per_course
    (user : option JWTPayload.t) (id : string)
    (paymentIntentId : option string) (clk : Clock) (st : State.t) :
  one_progress_per_course (State.users st) ->
  one_progress_per_course
    (State.users
       (CourseController.enrollInCourse user id paymentIntentId clk st).2).
Proof.
  intros Hone.
  assert (Henroll : forall userId,
            one_progress_per_course
              (State.users (CourseController.enroll userId id clk st).2)).
  { intros userId. simpl. apply updateProgress_one_per_course; [|done].
    by right. }
  unfold CourseController.enrollInCourse.
  repeat (match goal with
          | |- context [match ?x with _ => _ end] => destruct x
          end; try done).
Qed.

Lemma updateProgress_handler_one_per_course
    (user : option JWTPayload.t) (courseId : string) (body : ProgressBody.t)
    (clk : Clock) (st : State.t) :
  one_progress_per_course (State.users st) ->
  one_progress_per_course
    (State.users
       (UserController.updateProgress user courseId body clk st).2).
Proof.
  intros Hone. unfold UserController.updateProgress.
  destruct user as [caller|]; [|done].
  match goal with
  | |- context [UserModel.updateProgress ?u ?i ?c ?p ?a ?b ?d] =>
      pose proof (updateProgress_one_per_course u i c p a b d
                    (or_introl eq_refl) Hone) as Hstep;
      destruct (UserModel.updateProgress u i c p a b d) as [success users']
  end.
  by destruct success.
Qed.

(** * Further properties of the handlers *)

(** ** Pagination *)

Lemma totalPages_bounds (page limit total : Z) :
  1 <= limit -> 0 <= total ->
  total
  <= PaginationInfo.totalPages (createPagination page limit total) * limit
  < total + limit.
Proof.
  intros Hlimit Htotal. unfold createPagination. simpl.
  pose proof (Z.div_mod (- total) limit ltac:(lia)) as Hdiv.
  pose proof (Z.mod_pos_bound (- total) limit ltac:(lia)) as Hmod.
  set (q := (- total) / limit) in *. nia.
Qed.

(** X1.  [createPagination] with a limit of at least 1: [totalPages] is the least
    number of pages of [limit] records that hold [total] records, [hasNext]
    says that records remain after this page and [hasPrev] that the page is
    not the first. *)
Theorem createPagination_spec (page limit total : Z) :
  1 <= limit -> 0 <= total ->
  let p := createPagination page limit total in
  total <= PaginationInfo.totalPages p * limit < total + limit
  /\ (PaginationInfo.hasNext p = true <-> page * limit < total)
  /\ (PaginationInfo.hasPrev p = true <-> 1 < page).
Proof.
  intros Hlimit Htotal. cbv zeta.
  pose proof (totalPages_bounds page limit total Hlimit Htotal) as Hbounds.
  split; [done|].
  unfold createPagination in *. simpl in *. rewrite !Z.ltb_lt.
  set (q := (- total) / limit) in *. split; [nia|lia].
Qed.

Lemma createPagination_spec_witness :
  let p := createPagination 2 12 25 in
  PaginationInfo.totalPages p = 3
  /\ PaginationInfo.hasNext p = true
  /\ PaginationInfo.hasPrev p = true.
Proof.
  cbv zeta.
  pose proof (createPagination_spec 2 12 25 ltac:(lia) ltac:(lia))
    as (Hpages & Hnext & Hprev).
  split_and!; [reflexivity|by apply Hnext|by apply Hprev].
Defined.

Lemma page_window_take_drop {A} (l : list A) (page limit : Z) :
  1 <= page -> 0 <= limit ->
  page_window l page limit
  = take (Z.to_nat limit) (drop (Z.to_nat ((page - 1) * limit)) l).
Proof.
  intros Hpage Hlimit. unfold page_window, slice.
  set (start := (page - 1) * limit). assert (0 <= start) by nia.
  destruct (Z.ltb_spec start 0) as [?|_]; [lia|].
  destruct (Z.ltb_spec (start + limit) 0) as [?|_]; [lia|].
  set (len := Z.of_nat (length l)).
  destruct (Z_le_gt_dec len start) as [Hout|Hin].
  - rewrite (Z.min_r start len) by lia.
    rewrite !drop_ge by lia. by rewrite !take_nil.
  - rewrite (Z.min_l start len) by lia.
    destruct (Z_le_gt_dec (start + limit) len) as [Hfull|Hpart].
    + rewrite (Z.min_l (start + limit) len) by lia. f_equal. lia.
    + rewrite (Z.min_r (start + limit) len) by lia.
      rewrite !take_ge; [done| |]; rewrite length_drop; lia.
Qed.

(** X2.  The record at position [j] of page [page] is the record at position
    [(page - 1) * limit + j] of the list, for [j] below [limit]; the page
    holds nothing else, so it is empty past the end of the list. *)
Theorem page_window_lookup {A} (l : list A) (page limit : Z) (j : nat) :
  1 <= page -> 1 <= limit ->
  page_window l page limit !! j
  = if Z.of_nat j <? limit
    then l !! (Z.to_nat ((page - 1) * limit) + j)%nat
    else None.
Proof.
  intros Hpage Hlimit. rewrite page_window_take_drop by lia.
  destruct (Z.ltb_spec (Z.of_nat j) limit) as [Hj|Hj].
  - rewrite lookup_take_lt by lia. by rewrite lookup_drop.
  - apply lookup_take_ge. lia.
Qed.

Lemma page_window_lookup_witness :
  page_window [10; 20; 30; 40; 50] 2 2 !! 1%nat = Some 40
  /\ page_window [10; 20; 30; 40; 50] 4 2 = [].
Proof.
  split; [|reflexivity].
  by rewrite (page_window_lookup [10; 20; 30; 40; 50] 2 2 1
                ltac:(lia) ltac:(lia)).
Defined.

Lemma pages_upto_take {A} (l : list A) (limit : Z) (n : nat) :
  1 <= limit ->
  pages_upto l limit n = take (n * Z.to_nat limit) l.
Proof.
  intros Hlimit. unfold pages_upto.
  induction n as [|n IH]; [done|].
  rewrite seq_S, fmap_app, concat_app, IH. simpl. rewrite app_nil_r.
  rewrite page_window_take_drop by lia.
  replace (Z.to_nat ((Z.of_nat n + 1 - 1) * limit))
    with (n * Z.to_nat limit)%nat by nia.
  rewrite take_take_drop. f_equal. lia.
Qed.

(** X3.  Walking the pages 1 to [totalPages] in order yields the whole list, each
    record once and in its order. *)
Theorem pages_cover_the_list {A} (l : list A) (limit : Z) :
  1 <= limit ->
  let total := Z.of_nat (length l) in
  let n := PaginationInfo.totalPages (createPagination 1 limit total) in
  pages_upto l limit (Z.to_nat n) = l.
Proof.
  intros Hlimit. cbv zeta.
  destruct (totalPages_bounds 1 limit (Z.of_nat (length l)))
    as [Hlow Hhigh]; [lia..|].
  rewrite pages_upto_take by lia. apply take_ge. nia.
Qed.

Lemma pages_cover_the_list_witness :
  pages_upto [10; 20; 30; 40; 50] 2 3 = [10; 20; 30; 40; 50].
Proof.
  exact (pages_cover_the_list [10; 20; 30; 40; 50] 2 ltac:(lia)).
Defined.

(** ** Enrollment: when it succeeds and what it changes *)

Lemma enrollInCourse_accepts
    (st : State.t) (caller : JWTPayload.t) (id : string)
    (paymentIntentId : option string) (clk : Clock)
    (course : Course.t) (stored : User.t) :
  CourseModel.findById (State.courses st) id = Some course ->
  Course.isPublished course = true ->
  UserModel.findById (State.users st) (JWTPayload.userId caller)
    = Some stored ->
  progress_for stored id = [] ->
  Qeq_bool (Course.price course) 0 = true
  \/ payment_presented st paymentIntentId ->
  Response.statusCode
    (CourseController.enrollInCourse (Some caller) id paymentIntentId clk st).1
  = 200.
Proof.
  unfold payment_presented. intros Hc Hpub Hu Hnone Hpay.
  apply filter_nil_list_find in Hnone.
  assert (Henroll :
            Response.statusCode
              (CourseController.enroll (JWTPayload.userId caller) id clk
                 st).1 = 200)
    by by rewrite (enroll_spec _ _ _ _ stored course).
  unfold CourseController.enrollInCourse.
  rewrite Hc, Hpub, Hu, Hnone. simpl.
  destruct (Qeq_bool (Course.price course) 0); [done|].
  destruct Hpay as [?|(Htruthy & payment & Hfind & Hstatus)]; [done|].
  rewrite Htruthy, Hfind. simpl.
  by rewrite bool_decide_false by (by rewrite Hstatus; intros ?).
Qed.

(** A refused enrollment hands back the state it was given. *)
Lemma enrollInCourse_refused_state
    (st : State.t) (user : option JWTPayload.t) (id : string)
    (paymentIntentId : option string) (clk : Clock) :
  Response.statusCode
    (CourseController.enrollInCourse user id paymentIntentId clk st).1
  <> 200 ->
  (CourseController.enrollInCourse user id paymentIntentId clk st).2 = st.
Proof.
  unfold CourseController.enrollInCourse.
  assert (Henrolled : forall userId,
            Response.statusCode (CourseController.enroll userId id clk st).1
            <> 200 ->
            (CourseController.enroll userId id clk st).2 = st)
    by (by intros userId []).
  destruct user as [caller|]; [|done].
  destruct (CourseModel.findById _ id) as [course|]; [|done].
  destruct (Course.isPublished course); cbn [negb]; [|done].
  destruct (UserModel.findById _ _) as [stored|]; [|done].
  destruct (list_find _ _) as [existing|]; [done|].
  destruct (Qeq_bool _ _); [by apply Henrolled|].
  destruct (truthy paymentIntentId); cbn [negb]; [|done].
  destruct (PaymentModel.findByStripeId _ _) as [payment|]; [|done].
  case_bool_decide; [done|].
  by apply Henrolled.
Qed.

(** X4.  The enrollment handler answers 200 exactly when the course exists and is
    published, the caller's user record exists and holds no record for the
    course, and the course is free or the request names a payment whose
    status is Succeeded. *)
Theorem enrollInCourse_succeeds_iff
    (st : State.t) (caller : JWTPayload.t) (id : string)
    (paymentIntentId : option string) (clk : Clock) :
  Response.statusCode
    (CourseController.enrollInCourse (Some caller) id paymentIntentId clk st).1
  = 200
  <-> exists course stored,
        CourseModel.findById (State.courses st) id = Some course
        /\ Course.isPublished course = true
        /\ UserModel.findById (State.users st) (JWTPayload.userId caller)
           = Some stored
        /\ progress_for stored id = []
        /\ (Qeq_bool (Course.price course) 0 = true
            \/ payment_presented st paymentIntentId).
Proof.
  unfold payment_presented. split.
  - intros Hok.
    destruct (CourseController.enrollInCourse (Some caller) id paymentIntentId
                clk st) as [r st1] eqn:Hrun.
    destruct (enrollInCourse_ok _ _ _ _ _ _ _ Hrun Hok)
      as (stored & course & Hu & Hnone & Hc & Hpub & _).
    exists course, stored. split_and!; try done.
    { by apply list_find_none_filter. }
    unfold CourseController.enrollInCourse in Hrun.
    rewrite Hc, Hpub, Hu, Hnone in Hrun. simpl in Hrun.
    destruct (Qeq_bool (Course.price course) 0); [by left|right].
    destruct (truthy paymentIntentId); simpl in Hrun; [|by simplify_eq].
    split; [done|].
    destruct (PaymentModel.findByStripeId _ _) as [payment|];
      [|by simplify_eq].
    exists payment. split; [done|].
    case_bool_decide as Hs; [by simplify_eq|].
    by destruct (decide (PaymentIntent.status payment = SUCCEEDED)).
  - intros (course & stored & Hc & Hpub & Hu & Hnone & Hpay).
    by apply (enrollInCourse_accepts st caller id paymentIntentId clk course
                stored).
Qed.

(** X5.  A refused enrollment changes nothing: whenever the handler answers
    something other than 200, the status is 400, 401, 403, 404 or 409 and
    the users, courses and payments are those it was given. *)
Theorem enrollInCourse_refusal_changes_nothing
    (st : State.t) (user : option JWTPayload.t) (id : string)
    (paymentIntentId : option string) (clk : Clock) :
  let res := CourseController.enrollInCourse user id paymentIntentId clk st in
  Response.statusCode res.1 <> 200 ->
  res.2 = st /\ Response.statusCode res.1 ∈ [400; 401; 403; 404; 409].
Proof.
  cbv zeta. unfold CourseController.enrollInCourse.
  assert (Hrefused : forall response : Response.t,
            Response.statusCode response ∈ [400; 401; 403; 404; 409] ->
            Response.statusCode (response, st).1 <> 200 ->
            (response, st).2 = st
            /\ Response.statusCode (response, st).1
               ∈ [400; 401; 403; 404; 409]) by done.
  assert (Henrolled : forall userId,
            Response.statusCode (CourseController.enroll userId id clk st).1
            <> 200 ->
            (CourseController.enroll userId id clk st).2 = st
            /\ Response.statusCode
                 (CourseController.enroll userId id clk st).1
               ∈ [400; 401; 403; 404; 409]) by (by intros userId []).
  destruct user as [caller|];
    [|by apply Hrefused, (bool_decide_unpack _)].
  destruct (CourseModel.findById _ id) as [course|];
    [|by apply Hrefused, (bool_decide_unpack _)].
  destruct (Course.isPublished course); cbn [negb];
    [|by apply Hrefused, (bool_decide_unpack _)].
  destruct (UserModel.findById _ _) as [stored|];
    [|by apply Hrefused, (bool_decide_unpack _)].
  destruct (list_find _ _) as [existing|];
    [by apply Hrefused, (bool_decide_unpack _)|].
  destruct (Qeq_bool _ _); [by apply Henrolled|].
  destruct (truthy paymentIntentId); cbn [negb];
    [|by apply Hrefused, (bool_decide_unpack _)].
  destruct (PaymentModel.findByStripeId _ _) as [payment|];
    [|by apply Hrefused, (bool_decide_unpack _)].
  case_bool_decide; [by apply Hrefused, (bool_decide_unpack _)|].
  by apply Henrolled.
Qed.

Lemma enrollInCourse_refusal_changes_nothing_witness :
  let res :=
    CourseController.enrollInCourse
      (Some (Sample.caller "u_student" STUDENT)) "c_paid" None Sample.clock
      Sample.campus in
  res.1 = sendError 400 "Payment required for paid courses"
  /\ res.2 = Sample.campus.
Proof.
  cbv zeta. split; [reflexivity|].
  apply (enrollInCourse_refusal_changes_nothing Sample.campus
           (Some (Sample.caller "u_student" STUDENT)) "c_paid" None
           Sample.clock).
  discriminate.
Defined.

(** X6.  What a successful enrollment changes: the caller's progress list gains
    one record at its end, with no module completed and 0 percent; the
    course's [enrollmentCount] goes up by exactly 1 and it stays published;
    every other user and every other course reads as before, and the
    payments are untouched. *)
Theorem enrollInCourse_effect
    (st st1 : State.t) (r : Response.t) (caller : JWTPayload.t) (id : string)
    (paymentIntentId : option string) (clk : Clock) :
  CourseController.enrollInCourse (Some caller) id paymentIntentId clk st
    = (r, st1) ->
  Response.statusCode r = 200 ->
  State.payments st1 = State.payments st
  /\ (exists stored stored',
        UserModel.findById (State.users st) (JWTPayload.userId caller)
          = Some stored
        /\ UserModel.findById (State.users st1) (JWTPayload.userId caller)
           = Some stored'
        /\ User.progress stored'
           = User.progress stored ++ [enrolled_record id clk]
        /\ User.email stored' = User.email stored
        /\ User.password stored' = User.password stored
        /\ User.role stored' = User.role stored)
  /\ (exists course course',
        CourseModel.findById (State.courses st) id = Some course
        /\ CourseModel.findById (State.courses st1) id = Some course'
        /\ Course.enrollmentCount course' = Course.enrollmentCount course + 1
        /\ Course.isPublished course' = true
        /\ Course.price course' = Course.price course
        /\ Course.instructorId course' = Course.instructorId course)
  /\ (forall other, other <> JWTPayload.userId caller ->
        UserModel.findById (State.users st1) other
        = UserModel.findById (State.users st) other)
  /\ (forall other, other <> id ->
        CourseModel.findById (State.courses st1) other
        = CourseModel.findById (State.courses st) other).
Proof.
  intros Hrun Hok.
  destruct (enrollInCourse_ok _ _ _ _ _ _ _ Hrun Hok)
    as (stored & course & Hu & Hnone & Hc & Hpub & Heq).
  rewrite (enroll_spec _ _ _ _ stored course Hu Hnone Hc) in Heq.
  injection Heq as -> ->. simpl.
  unfold UserModel.findById, CourseModel.findById in *.
  split_and!; [done| | | |].
  - eexists stored, _. split_and!; [done|apply get_set_eq|done..].
  - eexists course, _. split_and!; [done|apply get_set_eq|done..].
  - intros other Hne. by apply get_set_ne.
  - intros other Hne. by apply get_set_ne.
Qed.

Lemma enrollInCourse_effect_witness :
  let caller := Sample.caller "u_student" STUDENT in
  let res :=
    CourseController.enrollInCourse (Some caller) "c_free" None Sample.clock
      Sample.campus in
  State.payments res.2 = State.payments Sample.campus
  /\ Course.enrollmentCount
       <$> CourseModel.findById (State.courses res.2) "c_free"
     = Some 2501
  /\ CourseModel.findById (State.courses res.2) "c_paid"
     = CourseModel.findById (State.courses Sample.campus) "c_paid".
Proof.
  cbv zeta.
  destruct (enrollInCourse_effect Sample.campus _ _
              (Sample.caller "u_student" STUDENT) "c_free" None Sample.clock
              eq_refl eq_refl)
    as (Hpay & _ & _ & _ & Hother).
  split_and!; [exact Hpay|reflexivity|by apply Hother].
Defined.

(** X7.  After a successful enrollment the detail of the course, asked by the same
    caller, reports [isEnrolled] with the record just written. *)
Theorem getCourseById_after_enrollment
    (st st1 : State.t) (r : Response.t) (caller : JWTPayload.t) (id : string)
    (paymentIntentId : option string) (clk : Clock) :
  CourseController.enrollInCourse (Some caller) id paymentIntentId clk st
    = (r, st1) ->
  Response.statusCode r = 200 ->
  exists course',
    CourseModel.findById (State.courses st1) id = Some course'
    /\ CourseController.getCourseById (Some caller) id st1
       = sendSuccess
           (data_course_detail course' true (Some (enrolled_record id clk)))
           "Course retrieved successfully" None.
Proof.
  intros Hrun Hok.
  destruct (enrollInCourse_ok _ _ _ _ _ _ _ Hrun Hok)
    as (stored & course & Hu & Hnone & Hc & Hpub & Heq).
  rewrite (enroll_spec _ _ _ _ stored course Hu Hnone Hc) in Heq.
  injection Heq as -> ->.
  eexists. split; [apply get_set_eq|].
  unfold CourseController.getCourseById, CourseModel.findById,
    UserModel.findById. simpl.
  rewrite !get_set_eq. simpl. rewrite Hpub. simpl.
  assert (Hfind :
            list_find (fun p => CourseProgress.courseId p = id)
              (User.progress stored ++ [enrolled_record id clk])
            = Some (length (User.progress stored), enrolled_record id clk)).
  { apply list_find_Some. split_and!.
    - by rewrite lookup_app_r, Nat.sub_diag by lia.
    - done.
    - intros j y Hj Hlt. rewrite lookup_app_l in Hj by done.
      apply list_find_None in Hnone. rewrite list.Forall_forall in Hnone.
      apply Hnone. by eapply list_elem_of_lookup_2. }
  rewrite Hfind. simpl. f_equal.
Qed.

Lemma getCourseById_after_enrollment_witness :
  let caller := Sample.caller "u_student" STUDENT in
  let res :=
    CourseController.enrollInCourse (Some caller) "c_free" None Sample.clock
      Sample.campus in
  exists course',
    CourseController.getCourseById (Some caller) "c_free" res.2
    = sendSuccess
        (data_course_detail course' true
           (Some (enrolled_record "c_free" Sample.clock)))
        "Course retrieved successfully" None.
Proof.
  cbv zeta.
  destruct (getCourseById_after_enrollment Sample.campus _ _
              (Sample.caller "u_student" STUDENT) "c_free" None Sample.clock
              eq_refl eq_refl) as (course' & _ & Hdetail).
  by exists course'.
Defined.

(** ** The life of a course *)

(** X8.  [POST /courses/:id/publish] on an existing course: the course's
    instructor (role Instructor) and any Admin get 200 and the stored course
    becomes published with every field but [isPublished] and [updatedAt]
    kept; a Student and any other Instructor get 403 and nothing changes. *)
Theorem publishCourse_spec
    (st : State.t) (caller : JWTPayload.t) (id : string) (now : Date)
    (course : Course.t) :
  CourseModel.findById (State.courses st) id = Some course ->
  let res := Routes.post_course_publish (valid_token caller) id now st in
  let allowed :=
    JWTPayload.role caller = ADMIN
    \/ (JWTPayload.role caller = INSTRUCTOR
        /\ Course.instructorId course = JWTPayload.userId caller) in
  (allowed ->
     Response.statusCode res.1 = 200
     /\ State.users res.2 = State.users st
     /\ State.payments res.2 = State.payments st
     /\ exists course',
          CourseModel.findById (State.courses res.2) id = Some course'
          /\ Course.isPublished course' = true
          /\ Course.updatedAt course' = now
          /\ merged_fields course CourseModel.published course')
  /\ (~ allowed -> Response.statusCode res.1 = 403 /\ res.2 = st).
Proof.
  intros Hc. cbv zeta.
  unfold Routes.post_course_publish, Routes.chain, authenticate,
    requireInstructorOrAdmin, CourseController.publishCourse,
    CourseModel.update.
  unfold CourseModel.findById in *.
  destruct (decide (Course.instructorId course = JWTPayload.userId caller))
    as [Hown|Hother];
    destruct (JWTPayload.role caller) eqn:Hrole; simpl; rewrite Hc;
    rewrite ?Hrole; simpl;
    rewrite ?(bool_decide_true _ Hother),
      ?(bool_decide_false (_ <> JWTPayload.userId caller))
      by (by intros ?);
    simpl; (split; [intros Hallowed|intros Hrefused]);
    try (split_and!; try done; eexists;
         (split; [apply get_set_eq|by split_and!]));
    try done; try (by destruct Hallowed as [?|[? ?]]);
    try (destruct Hrefused; tauto).
Qed.

Lemma publishCourse_spec_witness :
  let owner := Sample.caller "u_instructor" INSTRUCTOR in
  let res :=
    Routes.post_course_publish (valid_token owner) "c_draft" 1700000000000
      Sample.campus in
  Response.statusCode res.1 = 200
  /\ Course.isPublished
       <$> CourseModel.findById (State.courses res.2) "c_draft"
     = Some true.
Proof.
  cbv zeta.
  destruct (publishCourse_spec Sample.campus
              (Sample.caller "u_instructor" INSTRUCTOR) "c_draft"
              1700000000000
              (Sample.course "c_draft" "u_instructor" 149.99%Q false)
              eq_refl) as [Hallowed _].
  destruct Hallowed as (Hok & _); [right; by split|].
  split; [exact Hok|reflexivity].
Defined.

Section CourseLife.
Implicit Types (st : State.t) (courses : CourseModel.store).

Lemma course_advanced_refl course : course_advanced course course.
Proof. unfold course_advanced. split_and!; [done..|lia]. Qed.

Lemma courses_advanced_refl courses : courses_advanced courses courses.
Proof. intros id course Hc. exists course. auto using course_advanced_refl. Qed.

Lemma courses_advanced_trans courses1 courses2 courses3 :
  courses_advanced courses1 courses2 -> courses_advanced courses2 courses3 ->
  courses_advanced courses1 courses3.
Proof.
  intros H12 H23 id c1 Hc1.
  destruct (H12 id c1 Hc1) as (c2 & Hc2 & Ha & Hb & Hc & Hd & He).
  destruct (H23 id c2 Hc2) as (c3 & Hc3 & Ha' & Hb' & Hc' & Hd' & He').
  exists c3. split; [done|]. unfold course_advanced.
  split_and!; [congruence..|auto|lia].
Qed.

Lemma courses_advanced_set courses id course course' :
  CourseModel.findById courses id = Some course ->
  course_advanced course course' ->
  courses_advanced courses (JsMap.set courses id course').
Proof.
  intros Hc Hadv other c Hother. unfold CourseModel.findById in *.
  destruct (decide (id = other)) as [<-|Hne].
  - rewrite get_set_eq. exists course'. split; [done|]. congruence.
  - rewrite get_set_ne by done. exists c.
    auto using course_advanced_refl.
Qed.

Lemma run_course_op_advances (op : CourseOp.t) st :
  courses_advanced (State.courses st) (State.courses (CourseOp.run op st).2).
Proof.
  destruct op as [user id updates now|user id now|user id pid clk]; simpl.
  - unfold CourseController.updateCourse, CourseModel.update.
    destruct user as [caller|]; [|apply courses_advanced_refl].
    destruct (CourseModel.findById _ id) as [course|] eqn:Hc;
      [|apply courses_advanced_refl].
    destruct (_ && _); [apply courses_advanced_refl|].
    unfold CourseModel.findById in Hc. rewrite Hc. simpl.
    apply (courses_advanced_set _ _ course); [done|].
    unfold course_advanced. simpl. split_and!; [done..|lia].
  - unfold CourseController.publishCourse, CourseModel.update.
    destruct user as [caller|]; [|apply courses_advanced_refl].
    destruct (CourseModel.findById _ id) as [course|] eqn:Hc;
      [|apply courses_advanced_refl].
    destruct (_ && _); [apply courses_advanced_refl|].
    unfold CourseModel.findById in Hc. rewrite Hc. simpl.
    apply (courses_advanced_set _ _ course); [done|].
    unfold course_advanced. simpl. split_and!; [done..|lia].
  - destruct user as [caller|]; [|apply courses_advanced_refl].
    destruct (CourseController.enrollInCourse (Some caller) id pid clk st)
      as [r st1] eqn:Hrun.
    destruct (decide (Response.statusCode r = 200)) as [Hok|Hrefused].
    + destruct (enrollInCourse_ok _ _ _ _ _ _ _ Hrun Hok)
        as (stored & course & Hu & Hnone & Hc & Hpub & Heq).
      rewrite (enroll_spec _ _ _ _ stored course Hu Hnone Hc) in Heq.
      injection Heq as -> ->. simpl.
      apply (courses_advanced_set _ _ course); [done|].
      unfold course_advanced. simpl. split_and!; [done..|lia].
    + pose proof (enrollInCourse_refused_state st (Some caller) id pid clk)
        as Hsame.
      rewrite Hrun in Hsame. simpl in Hsame.
      rewrite (Hsame Hrefused). apply courses_advanced_refl.
Qed.

End CourseLife.

(** X9.  No update, publication or enrollment, by whomever and in whatever order,
    removes a course, unpublishes it, changes its [id], its [instructorId] or
    its [createdAt], or lowers its [enrollmentCount]. *)
Theorem course_operations_only_advance
    (ops : list CourseOp.t) (st : State.t) (id : string) (course : Course.t) :
  CourseModel.findById (State.courses st) id = Some course ->
  exists course',
    CourseModel.findById (State.courses (CourseOp.run_all ops st)) id
      = Some course'
    /\ course_advanced course course'.
Proof.
  revert id course.
  change (courses_advanced (State.courses st)
            (State.courses (CourseOp.run_all ops st))).
  revert st. induction ops as [|op ops IH]; intros st.
  - apply courses_advanced_refl.
  - simpl. eapply courses_advanced_trans; [apply run_course_op_advances|].
    apply IH.
Qed.

Lemma course_operations_only_advance_witness :
  let owner := Some (Sample.caller "u_instructor" INSTRUCTOR) in
  let student := Some (Sample.caller "u_student" STUDENT) in
  let ops :=
    [CourseOp.enroll student "c_free" None Sample.clock;
     CourseOp.update owner "c_free" Sample.noChange 1700000000100;
     CourseOp.publish owner "c_free" 1700000000200] in
  exists course',
    CourseModel.findById (State.courses (CourseOp.run_all ops Sample.campus))
      "c_free" = Some course'
    /\ Course.isPublished course' = true
    /\ 2500 <= Course.enrollmentCount course'.
Proof.
  intros owner student ops.
  destruct (course_operations_only_advance ops Sample.campus "c_free"
              (Sample.course "c_free" "u_instructor" 0%Q true) eq_refl)
    as (course' & Hfind & _ & _ & _ & Hpub & Hcount).
  exists course'. split_and!; [exact Hfind|by apply Hpub|exact Hcount].
Defined.

(** X10.  [DELETE /courses/:id] on an existing course: the course's instructor and
    any Admin get 200, the course is gone (its detail and an enrollment
    then answer 404), the other courses are kept, and the users (with their
    progress records for the course) and the payments are left as they are;
    a Student and any other Instructor get 403 and nothing changes. *)
Theorem deleteCourse_spec
    (st : State.t) (caller : JWTPayload.t) (id : string) (course : Course.t) :
  CourseModel.findById (State.courses st) id = Some course ->
  let res := Routes.delete_course (valid_token caller) id st in
  let allowed :=
    JWTPayload.role caller = ADMIN
    \/ (JWTPayload.role caller = INSTRUCTOR
        /\ Course.instructorId course = JWTPayload.userId caller) in
  (allowed ->
     res.1 = sendSuccess data_null "Course deleted successfully" None
     /\ State.users res.2 = State.users st
     /\ State.payments res.2 = State.payments st
     /\ CourseModel.findById (State.courses res.2) id = None
     /\ (forall other, other <> id ->
           CourseModel.findById (State.courses res.2) other
           = CourseModel.findById (State.courses st) other)
     /\ (forall user, CourseController.getCourseById user id res.2
                      = sendNotFound "Course")
     /\ (forall user' paymentIntentId clk,
           CourseController.enrollInCourse (Some user') id paymentIntentId
             clk res.2
           = (sendNotFound "Course", res.2)))
  /\ (~ allowed -> Response.statusCode res.1 = 403 /\ res.2 = st).
Proof.
  intros Hc. cbv zeta.
  unfold Routes.delete_course, Routes.chain, authenticate,
    requireInstructorOrAdmin, CourseController.deleteCourse,
    CourseModel.delete.
  pose proof (get_delete_eq (State.courses st) id) as Hgone.
  pose proof (get_delete_ne (State.courses st) id) as Hkept.
  unfold CourseModel.findById in *.
  unfold JsMap.delete, JsMap.has in *. simpl in Hgone, Hkept.
  assert (Hafter : forall users payments,
            let st' :=
              State.mk users
                (filter (fun e : string * Course.t => e.1 <> id)
                   (State.courses st : list (string * Course.t)))
                payments in
            (forall user, CourseController.getCourseById user id st'
                          = sendNotFound "Course")
            /\ (forall user' paymentIntentId clk,
                  CourseController.enrollInCourse (Some user') id
                    paymentIntentId clk st'
                  = (sendNotFound "Course", st'))).
  { intros users payments.
    unfold CourseController.getCourseById,
      CourseController.enrollInCourse, CourseModel.findById. simpl.
    split; intros; by rewrite Hgone. }
  destruct (decide (Course.instructorId course = JWTPayload.userId caller))
    as [Hown|Hother];
    destruct (JWTPayload.role caller) eqn:Hrole; simpl; rewrite Hc;
    rewrite ?Hrole; simpl;
    rewrite ?(bool_decide_true _ Hother),
      ?(bool_decide_false (_ <> JWTPayload.userId caller))
      by (by intros ?);
    simpl; (split; [intros Hallowed|intros Hrefused]);
    try (split_and!; try done;
         try (intros other Hne; apply Hkept; congruence);
         apply Hafter);
    try done; try (by destruct Hallowed as [?|[? ?]]);
    try (destruct Hrefused; tauto).
Qed.

Lemma deleteCourse_spec_witness :
  let owner := Sample.caller "u_instructor" INSTRUCTOR in
  let res := Routes.delete_course (valid_token owner) "c_paid" Sample.campus in
  res.1 = sendSuccess data_null "Course deleted successfully" None
  /\ CourseModel.findById (State.courses res.2) "c_paid" = None
  /\ State.users res.2 = State.users Sample.campus.
Proof.
  cbv zeta.
  destruct (deleteCourse_spec Sample.campus
              (Sample.caller "u_instructor" INSTRUCTOR) "c_paid"
              (Sample.course "c_paid" "u_instructor" 149.99%Q true)
              eq_refl) as [Hallowed _].
  destruct Hallowed as (Hres & Husers & _ & Hgone & _); [right; by split|].
  by split_and!.
Defined.

(** ** Payments: opening, confirming and refunding an intent *)

Section PaymentFacts.
Implicit Types (payments : PaymentModel.store) (p : PaymentIntent.t)
  (st : State.t).

Lemma findByStripeId_set_new payments k p stripeId :
  PaymentModel.findByStripeId payments stripeId = None ->
  PaymentIntent.stripePaymentIntentId p = stripeId ->
  PaymentModel.findByStripeId (JsMap.set payments k p) stripeId = Some p.
Proof.
  intros Hnone Hstripe.
  induction payments as [|[k0 p0] payments IH]; simpl.
  - by rewrite findByStripeId_cons, decide_True.
  - rewrite findByStripeId_cons in Hnone.
    destruct (decide (PaymentIntent.stripePaymentIntentId p0 = stripeId))
      as [|Hp0]; [done|].
    destruct (decide (k0 = k)); rewrite findByStripeId_cons.
    + by rewrite decide_True.
    + rewrite decide_False by done. by apply IH.
Qed.

Lemma findByStripeId_set_found payments stripeId p p' :
  sound payments ->
  PaymentModel.findByStripeId payments stripeId = Some p ->
  PaymentIntent.stripePaymentIntentId p' = stripeId ->
  PaymentModel.findByStripeId (JsMap.set payments (PaymentIntent.id p) p')
    stripeId = Some p'.
Proof.
  intros [Hwf Hkeyed] Hfind Hstripe. revert Hwf Hkeyed Hfind.
  unfold JsMap.wf, JsMap.keys, PaymentModel.keyed_by_id.
  induction payments as [|[k0 p0] payments IH]; [done|].
  csimpl. intros [Hfresh Hwf]%list.NoDup_cons [Hkey Hkeyed]%list.Forall_cons.
  simpl in Hkey. rewrite findByStripeId_cons.
  destruct (decide (PaymentIntent.stripePaymentIntentId p0 = stripeId))
    as [Hp0|Hp0].
  - intros [= <-]. rewrite Hkey, decide_True by done.
    by rewrite findByStripeId_cons, decide_True.
  - intros Hfind.
    destruct (findByStripeId_stored payments stripeId p) as [Hget _];
      [done..|].
    rewrite decide_False.
    + rewrite findByStripeId_cons, decide_False by done. by apply IH.
    + intros ->. apply Hfresh. by eapply get_Some_key.
Qed.

Lemma findSuccessfulPayment_stored payments userId courseId p :
  p ∈ JsMap.values payments ->
  PaymentIntent.userId p = userId -> PaymentIntent.courseId p = courseId ->
  PaymentIntent.status p = SUCCEEDED ->
  is_Some (PaymentModel.findSuccessfulPayment payments userId courseId).
Proof.
  intros Hin Hu Hc Hs. unfold PaymentModel.findSuccessfulPayment.
  apply fmap_is_Some.
  by apply (list_find_elem_of _ _ p).
Qed.

Lemma same_payment_refl p : same_payment p p.
Proof. by unfold same_payment. Qed.

Lemma payments_kept_refl payments : payments_kept payments payments.
Proof.
  split; [done|]. intros id p' Hp'. exists p'.
  auto using same_payment_refl.
Qed.

Lemma payments_kept_trans payments1 payments2 payments3 :
  payments_kept payments1 payments2 -> payments_kept payments2 payments3 ->
  payments_kept payments1 payments3.
Proof.
  intros [Hk12 H12] [Hk23 H23]. split; [congruence|].
  intros id p3 Hp3.
  destruct (H23 id p3 Hp3) as (p2 & Hp2 & S23).
  destruct (H12 id p2 Hp2) as (p1 & Hp1 & S12).
  exists p1. split; [done|]. unfold same_payment in *.
  destruct S12 as (?&?&?&?&?&?&?), S23 as (?&?&?&?&?&?&?).
  split_and!; congruence.
Qed.

Lemma update_status_kept payments id status now :
  payments_kept payments
    (PaymentModel.update payments id (PaymentIntent.status_only status) now).2.
Proof.
  unfold PaymentModel.update.
  destruct (JsMap.get payments id) as [q|] eqn:Hget;
    [|apply payments_kept_refl].
  simpl. split.
  - apply keys_set_present. by eexists.
  - unfold PaymentModel.findById. intros other p' Hp'.
    destruct (decide (id = other)) as [<-|Hne].
    + rewrite get_set_eq in Hp'. injection Hp' as <-.
      exists q. by split.
    + rewrite get_set_ne in Hp' by done. exists p'.
      auto using same_payment_refl.
Qed.

Lemma run_payment_op_kept (op : PaymentOp.t) st :
  State.users (PaymentOp.run op st).2 = State.users st
  /\ State.courses (PaymentOp.run op st).2 = State.courses st
  /\ payments_kept (State.payments st) (State.payments (PaymentOp.run op st).2).
Proof.
  pose proof (payments_kept_refl (State.payments st)) as Hrefl.
  pose proof (update_status_kept (State.payments st)) as Hupd.
  destruct op as [user target retrieved now|user target refunded now
                 |constructed now]; simpl.
  - unfold PaymentController.confirmPayment.
    destruct user as [caller|]; [|done].
    destruct (PaymentModel.findByStripeId _ target) as [p|]; [|done].
    case_bool_decide; [done|].
    destruct (stripeService.confirmPayment retrieved) as [status|];
      simpl; auto.
  - unfold PaymentController.refundPayment.
    destruct user as [caller|]; [|done].
    destruct (PaymentModel.findByStripeId _ target) as [p|]; [|done].
    destruct (_ && _); [done|]. case_bool_decide; [done|].
    destruct (stripeService.refundPayment refunded) as [[|]|]; simpl; auto.
  - unfold PaymentController.handleWebhook, stripeService.handleWebhook,
      PaymentController.mark.
    destruct constructed as [event|]; [|done]. simpl.
    destruct (String.eqb _ "payment_intent.succeeded").
    { destruct (PaymentModel.findByStripeId _ _); simpl; auto. }
    destruct (String.eqb _ "payment_intent.payment_failed"); [|done].
    destruct (PaymentModel.findByStripeId _ _); simpl; auto.
Qed.

End PaymentFacts.

(** X11.  No run of confirm, refund and webhook operations touches the users or
    the courses, adds or removes a payment record, or changes a record's
    [id], [amount], [currency], [courseId], [userId], provider id or
    [createdAt]: only [status] and [updatedAt] move. *)
Theorem payment_operations_keep_records
    (ops : list PaymentOp.t) (st : State.t) :
  State.users (PaymentOp.run_all ops st) = State.users st
  /\ State.courses (PaymentOp.run_all ops st) = State.courses st
  /\ payments_kept (State.payments st)
       (State.payments (PaymentOp.run_all ops st)).
Proof.
  revert st. induction ops as [|op ops IH]; intros st.
  - split_and!; [done..|apply payments_kept_refl].
  - simpl. destruct (IH (PaymentOp.run op st).2) as (Hu & Hc & Hp).
    destruct (run_payment_op_kept op st) as (Hu' & Hc' & Hp').
    split_and!; [congruence..|].
    by eapply payments_kept_trans.
Qed.

(** X12.  [POST /payments/create-intent] answers 200 exactly when the course
    exists, is published and not free, the caller holds no Succeeded payment
    for it and the provider opened an intent; it then stores, under the
    generated id, a Pending record for the caller and the course with the
    provider's id, amount and currency.  In every other case the stores are
    left as they are. *)
Theorem createPaymentIntent_spec
    (st : State.t) (caller : JWTPayload.t) (courseId : string)
    (created : option PaymentIntentResponse.t) (id : string) (now : Date) :
  let res :=
    PaymentController.createPaymentIntent (Some caller) courseId created id
      now st in
  (Envelope.statusCode res.1 = 200
   <-> exists course response,
         CourseModel.findById (State.courses st) courseId = Some course
         /\ Course.isPublished course = true
         /\ Qeq_bool (Course.price course) 0 = false
         /\ PaymentModel.findSuccessfulPayment (State.payments st)
              (JWTPayload.userId caller) courseId = None
         /\ created = Some response)
  /\ (Envelope.statusCode res.1 <> 200 -> res.2 = st)
  /\ (forall response,
        Envelope.statusCode res.1 = 200 -> created = Some response ->
        res.1 = Envelope.success response "Payment intent created successfully"
        /\ State.users res.2 = State.users st
        /\ State.courses res.2 = State.courses st
        /\ PaymentModel.findById (State.payments res.2) id
           = Some (pending_payment id now caller courseId response)).
Proof.
  cbv zeta. unfold PaymentController.createPaymentIntent,
    stripeService.createPaymentIntent.
  destruct (CourseModel.findById _ courseId) as [course|] eqn:Hc;
    [|split_and!; [split; [done|by intros (?&?&?&_)]|done..]].
  destruct (Course.isPublished course) eqn:Hpub; cbn [negb];
    [|split_and!;
      [split; [done|intros (?&?&?&?&_); simplify_eq; congruence]|done..]].
  destruct (Qeq_bool (Course.price course) 0) eqn:Hprice;
    [split_and!;
      [split; [done|intros (?&?&?&_&?&_); simplify_eq; congruence]|done..]|].
  destruct (PaymentModel.findSuccessfulPayment _ _ _) as [existing|] eqn:Hpay;
    [split_and!; [split; [done|by intros (?&?&_&_&_&?&_)]|done..]|].
  destruct created as [response|];
    [|split_and!; [split; [done|by intros (?&?&_&_&_&_&?)]|done..]].
  simpl. split_and!.
  - split; [intros _; by exists course, response|done].
  - done.
  - intros response' _ [= <-]. split_and!; try done.
    apply get_set_eq.
Qed.

Lemma createPaymentIntent_spec_witness :
  let caller := Sample.caller "u_student" STUDENT in
  let res :=
    PaymentController.createPaymentIntent (Some caller) "c_paid"
      (Some (Sample.intentResponse "pi_2")) "payment_2" 1700000000000
      Sample.campus in
  Envelope.statusCode res.1 = 200
  /\ PaymentModel.findById (State.payments res.2) "payment_2"
     = Some (pending_payment "payment_2" 1700000000000 caller "c_paid"
               (Sample.intentResponse "pi_2")).
Proof.
  cbv zeta.
  destruct (createPaymentIntent_spec Sample.campus
              (Sample.caller "u_student" STUDENT) "c_paid"
              (Some (Sample.intentResponse "pi_2")) "payment_2"
              1700000000000) as (_ & _ & Hstored).
  split; [reflexivity|].
  by apply (Hstored (Sample.intentResponse "pi_2")).
Defined.

(** X13.  Opening an intent, confirming it and enrolling compose.  For a published
    paid course and a caller who holds no progress record and no Succeeded
    payment for it, when the provider's id is new to the payment store: once
    the intent is opened and the provider answers [succeeded] to the caller's
    confirmation, the confirmation answers 200, the enrollment with that
    provider id answers 200, and a further attempt to open an intent for the
    course answers 409 and changes nothing. *)
Theorem purchase_then_enroll
    (st : State.t) (caller : JWTPayload.t) (courseId : string)
    (course : Course.t) (stored : User.t)
    (response : PaymentIntentResponse.t) (id : string) (t1 t2 : Date) :
  let stripeId := PaymentIntentResponse.paymentIntentId response in
  CourseModel.findById (State.courses st) courseId = Some course ->
  Course.isPublished course = true ->
  Qeq_bool (Course.price course) 0 = false ->
  UserModel.findById (State.users st) (JWTPayload.userId caller)
    = Some stored ->
  progress_for stored courseId = [] ->
  PaymentModel.findSuccessfulPayment (State.payments st)
    (JWTPayload.userId caller) courseId = None ->
  PaymentModel.findByStripeId (State.payments st) stripeId = None ->
  stripeId <> "" ->
  let opened :=
    PaymentController.createPaymentIntent (Some caller) courseId
      (Some response) id t1 st in
  let confirmed :=
    PaymentController.confirmPayment (Some caller) stripeId
      (Some "succeeded") t2 opened.2 in
  Envelope.statusCode opened.1 = 200
  /\ confirmed.1
     = sendSuccess (data_confirmed SUCCEEDED courseId)
         "Payment confirmed successfully" None
  /\ (forall clk,
        Response.statusCode
          (CourseController.enrollInCourse (Some caller) courseId
             (Some stripeId) clk confirmed.2).1 = 200)
  /\ (forall created id' now,
        PaymentController.createPaymentIntent (Some caller) courseId created
          id' now confirmed.2
        = (Envelope.error 409 "Course already purchased", confirmed.2)).
Proof.
  intros stripeId Hc Hpub Hprice Hu Hnone Hpay Hfresh Hid. cbv zeta.
  set (pending := pending_payment id t1 caller courseId response).
  set (paid := PaymentModel.merged pending
                 (PaymentIntent.status_only SUCCEEDED) t2).
  set (st1 := State.with_payments st
                (JsMap.set (State.payments st) id pending)).
  set (st2 := State.with_payments st1
                (JsMap.set (State.payments st) id paid)).
  assert (Hopened :
            PaymentController.createPaymentIntent (Some caller) courseId
              (Some response) id t1 st
            = (Envelope.success response "Payment intent created successfully",
               st1)).
  { unfold PaymentController.createPaymentIntent,
      stripeService.createPaymentIntent.
    by rewrite Hc, Hpub, Hprice, Hpay. }
  assert (Hfound :
            PaymentModel.findByStripeId (State.payments st1) stripeId
            = Some pending) by by apply findByStripeId_set_new.
  assert (Hconfirmed :
            PaymentController.confirmPayment (Some caller) stripeId
              (Some "succeeded") t2 st1
            = (sendSuccess (data_confirmed SUCCEEDED courseId)
                 "Payment confirmed successfully" None, st2)).
  { unfold PaymentController.confirmPayment. rewrite Hfound.
    rewrite bool_decide_false by (by intros ?). simpl.
    unfold PaymentModel.update. rewrite get_set_eq. simpl.
    by rewrite set_set. }
  assert (Hfound2 :
            PaymentModel.findByStripeId (State.payments st2) stripeId
            = Some paid) by by apply findByStripeId_set_new.
  rewrite Hopened. cbn [fst snd]. rewrite Hconfirmed. cbn [fst snd].
  split_and!; try done.
  - intros clk.
    apply (enrollInCourse_accepts _ _ _ _ _ course stored); try done.
    right. split.
    + simpl. by destruct (String.eqb_spec stripeId "").
    + by exists paid.
  - intros created id' now.
    unfold PaymentController.createPaymentIntent.
    change (State.courses st2) with (State.courses st).
    rewrite Hc, Hpub, Hprice. cbn [negb].
    destruct (findSuccessfulPayment_stored (State.payments st2)
                (JWTPayload.userId caller) courseId paid)
      as [existing Hexisting]; try done.
    { apply elem_of_values_set_new. }
    by rewrite Hexisting.
Qed.

Lemma purchase_then_enroll_witness :
  let caller := Sample.caller "u_student" STUDENT in
  let opened :=
    PaymentController.createPaymentIntent (Some caller) "c_paid"
      (Some (Sample.intentResponse "pi_2")) "payment_2" 1700000000000
      Sample.campus in
  let confirmed :=
    PaymentController.confirmPayment (Some caller) "pi_2" (Some "succeeded")
      1700000000500 opened.2 in
  Response.statusCode
    (CourseController.enrollInCourse (Some caller) "c_paid" (Some "pi_2")
       Sample.clock confirmed.2).1 = 200.
Proof.
  cbv zeta.
  destruct (purchase_then_enroll Sample.campus
              (Sample.caller "u_student" STUDENT) "c_paid"
              (Sample.course "c_paid" "u_instructor" 149.99%Q true)
              (Sample.user "u_student" STUDENT [])
              (Sample.intentResponse "pi_2") "payment_2" 1700000000000
              1700000000500 eq_refl eq_refl eq_refl eq_refl eq_refl eq_refl
              eq_refl ltac:(discriminate))
    as (_ & _ & Henroll & _).
  apply Henroll.
Defined.

(** X14.  A confirmation by the payer stores the status the provider reports
    whatever the answer to the request is: 200 for [succeeded] and 400 for
    any other status, which is recorded all the same.  Anyone
    else, an Admin included, is answered 403 and changes nothing. *)
Theorem confirmPayment_records_provider_status
    (st : State.t) (caller : JWTPayload.t) (stripeId providerStatus : string)
    (now : Date) (p : PaymentIntent.t) :
  sound (State.payments st) ->
  PaymentModel.findByStripeId (State.payments st) stripeId = Some p ->
  let res :=
    PaymentController.confirmPayment (Some caller) stripeId
      (Some providerStatus) now st in
  (PaymentIntent.userId p <> JWTPayload.userId caller ->
   res = (sendError 403 "Access denied", st))
  /\ (PaymentIntent.userId p = JWTPayload.userId caller ->
      (Response.statusCode res.1 = 200 <-> providerStatus = "succeeded")
      /\ (providerStatus <> "succeeded" -> Response.statusCode res.1 = 400)
      /\ exists p',
           PaymentModel.findById (State.payments res.2) (PaymentIntent.id p)
             = Some p'
           /\ Some (PaymentIntent.status p')
              = stripeService.confirmPayment (Some providerStatus)
           /\ PaymentIntent.status p' <> REFUNDED
           /\ same_payment p p').
Proof.
  intros [Hwf Hkeyed] Hfind. cbv zeta.
  destruct (findByStripeId_stored _ _ _ Hwf Hkeyed Hfind) as [Hget _].
  unfold PaymentController.confirmPayment. rewrite Hfind. split.
  - intros Hother. by rewrite bool_decide_true.
  - intros Hpayer. rewrite bool_decide_false by (by intros ?).
    unfold PaymentModel.update, PaymentModel.findById. rewrite Hget.
    unfold stripeService.confirmPayment. simpl.
    destruct (String.eqb_spec providerStatus "succeeded") as [->|Hne].
    + simpl. split_and!; [done|done|].
      eexists. rewrite get_set_eq. by split_and!.
    + assert (Hmapped :
                (if String.eqb providerStatus "processing" then PENDING
                 else if String.eqb providerStatus "requires_payment_method"
                         || String.eqb providerStatus "requires_confirmation"
                         || String.eqb providerStatus "requires_action"
                 then PENDING
                 else if String.eqb providerStatus "canceled" then CANCELED
                 else FAILED) ∈ [PENDING; CANCELED; FAILED]).
      { repeat (match goal with
                | |- context [if ?b then _ else _] => destruct b
                end); by apply (bool_decide_unpack _). }
      revert Hmapped.
      generalize (if String.eqb providerStatus "processing" then PENDING
                  else if String.eqb providerStatus "requires_payment_method"
                          || String.eqb providerStatus "requires_confirmation"
                          || String.eqb providerStatus "requires_action"
                  then PENDING
                  else if String.eqb providerStatus "canceled" then CANCELED
                  else FAILED).
      intros status Hstatus.
      assert (Hns : status <> SUCCEEDED /\ status <> REFUNDED).
      { repeat (apply elem_of_cons in Hstatus as [->|Hstatus]; [done|]).
        by apply elem_of_nil in Hstatus. }
      destruct Hns as [Hs Hr].
      rewrite (bool_decide_false (status = SUCCEEDED)) by done. simpl.
      split_and!; [done|done|].
      eexists. rewrite get_set_eq. by split_and!.
Qed.

Lemma confirmPayment_records_provider_status_witness :
  let res :=
    PaymentController.confirmPayment
      (Some (Sample.caller "u_other" STUDENT)) "pi_1" (Some "canceled")
      1700000000000 Sample.campus in
  Response.statusCode res.1 = 400
  /\ PaymentIntent.status
       <$> PaymentModel.findById (State.payments res.2) "payment_1"
     = Some CANCELED.
Proof.
  cbv zeta.
  destruct (confirmPayment_records_provider_status Sample.campus
              (Sample.caller "u_other" STUDENT) "pi_1" "canceled"
              1700000000000
              (Sample.payment "payment_1" "pi_1" "u_other" "c_other"
                 SUCCEEDED))
    as [_ Hpayer].
  - split; [by apply (bool_decide_unpack _)|by repeat constructor].
  - reflexivity.
  - destruct (Hpayer eq_refl) as (_ & Hbad & _).
    split; [by apply Hbad|reflexivity].
Defined.

(** X15.  A refund is granted once.  For a Succeeded payment, the payer or an
    Admin, and a provider that reports the refund [succeeded], the handler
    answers 200 and the record becomes Refunded; after that every refund
    request for the same intent, by anyone and whatever the provider would
    answer, is refused and changes nothing. *)
Theorem refund_is_granted_once
    (st : State.t) (caller : JWTPayload.t) (stripeId : string) (now : Date)
    (p : PaymentIntent.t) :
  sound (State.payments st) ->
  PaymentModel.findByStripeId (State.payments st) stripeId = Some p ->
  PaymentIntent.status p = SUCCEEDED ->
  PaymentIntent.userId p = JWTPayload.userId caller
  \/ JWTPayload.role caller = ADMIN ->
  let res :=
    PaymentController.refundPayment (Some caller) stripeId (Some "succeeded")
      now st in
  res.1 = sendSuccess data_null "Refund processed successfully" None
  /\ (exists p',
        PaymentModel.findByStripeId (State.payments res.2) stripeId = Some p'
        /\ PaymentIntent.status p' = REFUNDED
        /\ same_payment p p')
  /\ (forall user answer now',
        let again :=
          PaymentController.refundPayment user stripeId answer now' res.2 in
        again.2 = res.2 /\ Response.statusCode again.1 ∈ [400; 401; 403]).
Proof.
  intros Hsound Hfind Hstatus Hwho. cbv zeta.
  destruct (findByStripeId_stored _ _ _ (proj1 Hsound) (proj2 Hsound) Hfind)
    as [Hget Hstripe].
  set (refunded := PaymentModel.merged p
                     (PaymentIntent.status_only REFUNDED) now).
  set (st1 := State.with_payments st
                (JsMap.set (State.payments st) (PaymentIntent.id p)
                   refunded)).
  assert (Hgate :
            bool_decide (PaymentIntent.userId p <> JWTPayload.userId caller)
            && bool_decide (JWTPayload.role caller <> ADMIN) = false).
  { destruct Hwho as [Hpayer|Hadmin].
    - by rewrite (bool_decide_false (_ <> JWTPayload.userId caller))
        by (by intros ?).
    - rewrite (bool_decide_false (_ <> ADMIN)) by (by intros ?).
      apply andb_false_r. }
  assert (Hfirst :
            PaymentController.refundPayment (Some caller) stripeId
              (Some "succeeded") now st
            = (sendSuccess data_null "Refund processed successfully" None,
               st1)).
  { unfold PaymentController.refundPayment.
    rewrite Hfind, Hgate, bool_decide_false by (by intros ?). simpl.
    unfold PaymentModel.update. by rewrite Hget. }
  assert (Hfound :
            PaymentModel.findByStripeId (State.payments st1) stripeId
            = Some refunded) by by apply findByStripeId_set_found.
  rewrite Hfirst. cbn [fst snd].
  split_and!; [done|by exists refunded|].
  intros user answer now'. unfold PaymentController.refundPayment.
  rewrite Hfound.
  destruct user as [caller'|];
    [|split; [done|by apply (bool_decide_unpack _)]].
  destruct (bool_decide (PaymentIntent.userId refunded
                         <> JWTPayload.userId caller')
            && bool_decide (JWTPayload.role caller' <> ADMIN));
    [split; [done|by apply (bool_decide_unpack _)]|].
  rewrite (bool_decide_true (PaymentIntent.status refunded <> SUCCEEDED))
    by done.
  split; [done|by apply (bool_decide_unpack _)].
Qed.

Lemma refund_is_granted_once_witness :
  let payer := Some (Sample.caller "u_other" STUDENT) in
  let res :=
    PaymentController.refundPayment payer "pi_1" (Some "succeeded")
      1700000000000 Sample.campus in
  res.1 = sendSuccess data_null "Refund processed successfully" None
  /\ (PaymentController.refundPayment payer "pi_1" (Some "succeeded")
        1700000000500 res.2).2 = res.2.
Proof.
  cbv zeta.
  destruct (refund_is_granted_once Sample.campus
              (Sample.caller "u_other" STUDENT) "pi_1" 1700000000000
              (Sample.payment "payment_1" "pi_1" "u_other" "c_other"
                 SUCCEEDED))
    as (Hres & _ & Hagain).
  - split; [by apply (bool_decide_unpack _)|by repeat constructor].
  - reflexivity.
  - reflexivity.
  - by left.
  - split; [exact Hres|].
    apply (Hagain (Some (Sample.caller "u_other" STUDENT)) (Some "succeeded")
             1700000000500).
Defined.

(** ** Accounts: login, refresh, password change and deletion *)

Section Accounts.
Implicit Types (users : UserModel.store) (st : State.t).

Lemma findByEmail_cons k u users email :
  UserModel.findByEmail ((k, u) :: users) email
  = if decide (User.email u = email) then Some u
    else UserModel.findByEmail users email.
Proof.
  unfold UserModel.findByEmail, JsMap.values. csimpl.
  destruct (decide (User.email u = email)); [done|].
  by destruct (list_find _ users.*2) as [[i x]|].
Qed.

Lemma findByEmail_set_new users k u email :
  UserModel.findByEmail users email = None ->
  User.email u = email ->
  UserModel.findByEmail (JsMap.set users k u) email = Some u.
Proof.
  intros Hnone Hmail.
  induction users as [|[k0 u0] users IH]; simpl.
  - by rewrite findByEmail_cons, decide_True.
  - rewrite findByEmail_cons in Hnone.
    destruct (decide (User.email u0 = email)) as [|Hu0]; [done|].
    destruct (decide (k0 = k)); rewrite findByEmail_cons.
    + by rewrite decide_True.
    + rewrite decide_False by done. by apply IH.
Qed.

Lemma findByEmail_deleted users id stored :
  emails_unique users ->
  UserModel.findById users id = Some stored ->
  UserModel.findByEmail (UserModel.delete users id).2 (User.email stored)
  = None.
Proof.
  unfold emails_unique, UserModel.findById, UserModel.delete, JsMap.delete,
    JsMap.values.
  simpl. induction users as [|[k0 u0] users IH]; [done|].
  csimpl. intros [Hfresh Hnodup]%list.NoDup_cons.
  rewrite filter_cons. simpl.
  destruct (decide (k0 = id)) as [->|Hne].
  - intros [= ->]. rewrite decide_False by (by intros ?).
    apply findByEmail_None, list.Forall_forall. intros u Hu Hsame.
    apply Hfresh. apply list_elem_of_fmap. exists u. split; [done|].
    unfold JsMap.values in Hu.
    apply list_elem_of_fmap in Hu as [[k' u'] [-> Hin]].
    apply list_elem_of_filter in Hin as [_ Hin].
    apply list_elem_of_fmap. by exists (k', u').
  - intros Hget. rewrite decide_True by done.
    rewrite findByEmail_cons, decide_False; [by apply IH|].
    intros Hsame. apply Hfresh. rewrite Hsame.
    apply list_elem_of_fmap. exists stored. split; [done|].
    clear -Hget. induction users as [|[k1 u1] users IH]; [done|].
    simpl in Hget. csimpl. destruct (decide (k1 = id)).
    + injection Hget as ->. by apply elem_of_cons; left.
    + apply elem_of_cons; right. by apply IH.
Qed.

Lemma fmap_values_set_same {B} (f : User.t -> B) users k u u' :
  JsMap.get users k = Some u -> f u' = f u ->
  f <$> JsMap.values (JsMap.set users k u') = f <$> JsMap.values users.
Proof.
  unfold JsMap.values. intros Hget Hf.
  induction users as [|[k0 u0] users IH]; [done|].
  simpl in *. destruct (decide (k0 = k)); csimpl.
  - injection Hget as ->. by rewrite Hf.
  - by rewrite IH.
Qed.

End Accounts.

(** X16.  Login answers 200 exactly when a user with the email is stored and the
    password matches its digest; an unknown email and a wrong password get
    the same 401 answer. *)
Theorem login_spec
    (st : State.t) (email password : string)
    (compare : string -> string -> bool)
    (generateTokenPair : JWTPayload.t -> string * string) :
  let r := AuthController.login email password compare generateTokenPair st in
  (Response.statusCode r = 200
   <-> exists user,
         UserModel.findByEmail (State.users st) email = Some user
         /\ compare password (User.password user) = true)
  /\ (Response.statusCode r <> 200 ->
      r = sendUnauthorized "Invalid email or password").
Proof.
  cbv zeta. unfold AuthController.login.
  destruct (UserModel.findByEmail _ email) as [user|].
  - destruct (compare password (User.password user)) eqn:Hcmp; simpl.
    + split; [split; [by exists user|done]|done].
    + split; [split; [done|]|done].
      intros (user' & [= <-] & Hcmp'). congruence.
  - split; [split; [done|by intros (? & ? & _)]|done].
Qed.

(** X17.  A signup followed by a login.  After a signup that answered 200, a login
    with the same email and a password matching the stored digest answers
    200 with the profile the signup returned. *)
Theorem login_after_signup
    (st st1 : State.t) (r1 : Response.t) (body : SignupRequest.t)
    (id : string) (now : Date) (hashed : string)
    (compare : string -> string -> bool)
    (g1 g2 : JWTPayload.t -> string * string) :
  AuthController.signup body id now hashed g1 st = (r1, st1) ->
  Response.statusCode r1 = 200 ->
  compare (SignupRequest.password body) hashed = true ->
  let payload :=
    JWTPayload.mk id (SignupRequest.email body)
      (default STUDENT (SignupRequest.role body)) in
  exists profile,
    r1 = sendSuccess (data_auth profile (g1 payload).1 (g1 payload).2)
           "Account created successfully" None
    /\ AuthController.login (SignupRequest.email body)
         (SignupRequest.password body) compare g2 st1
       = sendSuccess (data_auth profile (g2 payload).1 (g2 payload).2)
           "Login successful" None
    /\ UserProfile.id profile = id
    /\ UserProfile.email profile = SignupRequest.email body
    /\ UserProfile.role profile = default STUDENT (SignupRequest.role body).
Proof.
  intros Hrun Hok Hcmp.
  destruct (UserModel.findByEmail (State.users st) (SignupRequest.email body))
    as [existing|] eqn:Hfind.
  { rewrite (signup_conflict _ _ _ _ _ _ existing Hfind) in Hrun.
    injection Hrun as <- _. discriminate Hok. }
  unfold AuthController.signup, AuthController.signup_check,
    AuthController.signup_insert in Hrun. rewrite Hfind in Hrun.
  simpl in Hrun. injection Hrun as <- <-.
  eexists. split; [reflexivity|].
  unfold AuthController.login. simpl.
  erewrite findByEmail_set_new; [|done|reflexivity]. simpl.
  rewrite Hcmp. simpl. by split_and!.
Qed.

Lemma login_after_signup_witness :
  let body := Sample.signupRequest "a@x.com" in
  let first :=
    AuthController.signup body "user_1" 1700000000000 "$2a$12$secret1"
      Sample.tokens Sample.campus in
  Response.statusCode
    (AuthController.login "a@x.com" "secret1" Sample.compare Sample.tokens
       first.2) = 200.
Proof.
  cbv zeta.
  destruct (login_after_signup Sample.campus _ _
              (Sample.signupRequest "a@x.com") "user_1" 1700000000000
              "$2a$12$secret1" Sample.compare Sample.tokens Sample.tokens
              eq_refl eq_refl eq_refl)
    as (profile & _ & Hlogin & _).
  exact (f_equal Response.statusCode Hlogin).
Defined.

(** X18.  Deleting an account closes it and frees its email.  In a store without
    duplicate emails, once the caller's account is deleted a refresh with the
    caller's token answers 401, a login with the account's email answers 401
    whatever the password, and a signup with that email is accepted. *)
Theorem account_deletion_frees_the_email
    (st : State.t) (caller : JWTPayload.t) (stored : User.t) :
  emails_unique (State.users st) ->
  UserModel.findById (State.users st) (JWTPayload.userId caller)
    = Some stored ->
  let st1 := (UserController.deleteAccount (Some caller) st).2 in
  (forall gen,
     AuthController.refreshToken (Some caller) gen st1
     = Envelope.error 401 "User not found")
  /\ (forall password compare gen,
        AuthController.login (User.email stored) password compare gen st1
        = sendUnauthorized "Invalid email or password")
  /\ (forall body id now hashed gen,
        SignupRequest.email body = User.email stored ->
        Response.statusCode
          (AuthController.signup body id now hashed gen st1).1 = 200)
  /\ emails_unique (State.users st1).
Proof.
  intros Huniq Hstored. cbv zeta.
  pose proof (findByEmail_deleted _ _ _ Huniq Hstored) as Hfree.
  assert (Hgone :
    JsMap.get (UserModel.delete (State.users st) (JWTPayload.userId caller)).2
      (JWTPayload.userId caller) = None) by apply get_delete_eq.
  assert (Hst1 :
    State.users (UserController.deleteAccount (Some caller) st).2
    = (UserModel.delete (State.users st) (JWTPayload.userId caller)).2).
  { unfold UserController.deleteAccount, UserModel.delete, JsMap.delete.
    by destruct (negb _). }
  split_and!.
  - intros gen. unfold AuthController.refreshToken, UserModel.findById.
    by rewrite Hst1, Hgone.
  - intros password compare gen. unfold AuthController.login.
    by rewrite Hst1, Hfree.
  - intros body id now hashed gen Hmail.
    destruct (signup_fresh body id now hashed gen
                (UserController.deleteAccount (Some caller) st).2)
      as (user & _ & _ & _ & _ & Hok & _); [|done].
    by rewrite Hst1, Hmail.
  - rewrite Hst1. unfold emails_unique, JsMap.values in *.
    eapply sublist_NoDup; [exact Huniq|].
    apply fmap_sublist, fmap_sublist, sublist_filter.
Qed.

Lemma account_deletion_frees_the_email_witness :
  let caller := Sample.caller "u_student" STUDENT in
  let st1 := (UserController.deleteAccount (Some caller) Sample.campus).2 in
  AuthController.refreshToken (Some caller) Sample.tokens st1
    = Envelope.error 401 "User not found"
  /\ Response.statusCode
       (AuthController.signup (Sample.signupRequest "u_student@example.com")
          "user_2" 1700000000000 "$2a$12$secret1" Sample.tokens st1).1 = 200.
Proof.
  cbv zeta.
  destruct (account_deletion_frees_the_email Sample.campus
              (Sample.caller "u_student" STUDENT)
              (Sample.user "u_student" STUDENT []))
    as (Hrefresh & _ & Hsignup & _).
  - by apply (bool_decide_unpack _).
  - reflexivity.
  - split; [apply Hrefresh|by apply Hsignup].
Defined.

(** X19.  A password change, for a caller whose record is stored under its own id:
    with a wrong current password it answers 401 and changes nothing; with
    the right one it answers 200 and replaces the digest and [updatedAt] of
    the caller's record, leaving its other fields, the other users, the
    courses, the payments and the absence of duplicate emails as they
    were. *)
Theorem changePassword_spec
    (st : State.t) (caller : JWTPayload.t) (stored : User.t)
    (currentPassword hashedNewPassword : string)
    (compare : string -> string -> bool) (now : Date) :
  UserModel.findById (State.users st) (JWTPayload.userId caller)
    = Some stored ->
  User.id stored = JWTPayload.userId caller ->
  let res :=
    AuthController.changePassword (Some caller) currentPassword compare
      hashedNewPassword now st in
  (compare currentPassword (User.password stored) = false ->
   res = (sendUnauthorized "Current password is incorrect", st))
  /\ (compare currentPassword (User.password stored) = true ->
      res.1 = sendSuccess data_null "Password changed successfully" None
      /\ State.courses res.2 = State.courses st
      /\ State.payments res.2 = State.payments st
      /\ UserModel.findById (State.users res.2) (JWTPayload.userId caller)
         = Some (UserModel.merged stored
                   (UserModel.password_only hashedNewPassword) now)
      /\ (forall other, other <> JWTPayload.userId caller ->
            UserModel.findById (State.users res.2) other
            = UserModel.findById (State.users st) other)
      /\ (emails_unique (State.users st) ->
          emails_unique (State.users res.2))).
Proof.
  intros Hstored Hid. cbv zeta. unfold AuthController.changePassword.
  rewrite Hstored. unfold UserModel.findById in *. split.
  - by intros ->.
  - intros ->. simpl. unfold UserModel.update. rewrite Hid, Hstored. simpl.
    split_and!; try done.
    + apply get_set_eq.
    + intros other Hne. by apply get_set_ne.
    + unfold emails_unique.
      by rewrite (fmap_values_set_same User.email _ _ stored).
Qed.

Lemma changePassword_spec_witness :
  let caller := Sample.caller "u_student" STUDENT in
  let res :=
    AuthController.changePassword (Some caller) "digest" Sample.compare
      "$2a$12$renewed" 1700000000000 Sample.campus in
  res.1 = sendSuccess data_null "Password changed successfully" None
  /\ User.password
       <$> UserModel.findById (State.users res.2) "u_student"
     = Some "$2a$12$renewed".
Proof.
  cbv zeta.
  destruct (changePassword_spec Sample.campus
              (Sample.caller "u_student" STUDENT)
              (Sample.user "u_student" STUDENT []) "digest" "$2a$12$renewed"
              Sample.compare 1700000000000 eq_refl eq_refl)
    as [_ Hright].
  destruct (Hright eq_refl) as (Hres & _ & _ & Hfind & _).
  split; [exact Hres|].
  exact (f_equal (fmap (M:=option) User.password) Hfind).
Defined.

(** ** Middleware *)

Lemma prefix_append (p t : string) : String.prefix p (p +:+ t) = true.
Proof.
  induction p as [|c p IH]; simpl; [by destruct t|].
  by destruct (ascii_dec c c).
Qed.

Lemma substring_from_append (p t : string) :
  substring_from (String.length p) (p +:+ t) = t.
Proof. induction p as [|c p IH]; simpl; [by destruct t|done]. Qed.

Lemma prefix_split (p s : string) :
  String.prefix p s = true ->
  s = p +:+ substring_from (String.length p) s.
Proof.
  revert s. induction p as [|c p IH]; intros s; simpl; [done|].
  destruct s as [|c' s]; [done|]. simpl.
  destruct (ascii_dec c c') as [->|]; [|done].
  intros Hp.
  change (String c' s
          = String c' (p +:+ substring_from (String.length p) s)).
  f_equal. exact (IH s Hp).
Qed.

Lemma elem_of_List_filter {A} (f : A -> bool) (l : list A) (x : A) :
  x ∈ List.filter f l <-> x ∈ l /\ f x = true.
Proof. by rewrite !list_elem_of_In, filter_In. Qed.

Lemma elem_of_keep_if {A} (active : bool) (f : A -> bool) (l : list A)
    (x : A) :
  x ∈ CourseModel.keep_if active f l <-> x ∈ l /\ (active = true -> f x = true).
Proof.
  unfold CourseModel.keep_if. destruct active.
  - rewrite elem_of_List_filter. intuition.
  - intuition discriminate.
Qed.

(** X20.  The token of an [Authorization] header.  A token is extracted exactly
    from a header made of [Bearer], one space and the token; every other
    header, and a missing one, gives none. *)
Theorem extractTokenFromHeader_spec (authHeader : option string)
    (token : string) :
  extractTokenFromHeader authHeader = Some token
  <-> authHeader = Some ("Bearer " +:+ token).
Proof.
  unfold extractTokenFromHeader. split.
  - destruct authHeader as [header|]; [|done].
    destruct (String.prefix "Bearer " header) eqn:Hp;
      [|by rewrite orb_true_r].
    destruct (negb (truthy (Some header))); [done|]. simpl negb. cbn [orb].
    intros [= <-]. f_equal. exact (prefix_split "Bearer " header Hp).
  - intros ->.
    by rewrite (prefix_append "Bearer " token).
Qed.

(** X21.  [requireInstructorOrAdmin] lets through exactly the requests that
    [authorize(INSTRUCTOR, ADMIN)] lets through, with the caller unchanged,
    and refuses the others with the same status. *)
Theorem requireInstructorOrAdmin_as_authorize (user : option JWTPayload.t) :
  match requireInstructorOrAdmin user, authorize [INSTRUCTOR; ADMIN] user with
  | inr u, inr u' => u = user /\ u' = user
  | inl r, inl r' => Response.statusCode r = Response.statusCode r'
  | _, _ => False
  end.
Proof.
  destruct user as [[userId email role]|]; [|done].
  by destruct role.
Qed.

(** X22.  [requireOwnership] for an authenticated caller: the request passes when
    the caller is an administrator, when the parameter is neither [id] nor
    [userId], or when the parameter's value is the caller's id; otherwise it
    is answered 403. *)
Theorem requireOwnership_spec (resourceIdParam : string)
    (resourceId : option string) (caller : JWTPayload.t) :
  let r := requireOwnership resourceIdParam resourceId (Some caller) in
  (r = inr (Some caller)
   <-> JWTPayload.role caller = ADMIN
       \/ (resourceIdParam <> "userId" /\ resourceIdParam <> "id")
       \/ resourceId = Some (JWTPayload.userId caller))
  /\ (r <> inr (Some caller) ->
      r = inl (sendForbidden
                 "Access denied: You can only access your own resources")).
Proof.
  cbv zeta. unfold requireOwnership.
  case_bool_decide as Hadmin; [by intuition|].
  destruct (String.eqb_spec resourceIdParam "userId") as [->|Hne1];
    [|destruct (String.eqb_spec resourceIdParam "id") as [->|Hne2]];
    cbn [orb andb]; try case_bool_decide; intuition congruence.
Qed.

(** X23.  An entry of [allowedTypes] with a [/] admits the one media type equal to
    it; an entry without admits the media types that continue it with a
    [/]. *)
Theorem type_allows_spec (mimetype type : string) :
  type_allows mimetype type = true
  <-> if includes type "/" then mimetype = type
      else exists subtype, mimetype = (type +:+ "/") +:+ subtype.
Proof.
  unfold type_allows. destruct (includes type "/").
  - apply String.eqb_eq.
  - split.
    + intros Hp. eexists. exact (prefix_split _ _ Hp).
    + intros [subtype ->]. apply prefix_append.
Qed.

(** X24.  [validateFile] lets a request through exactly when: without a file, the
    file is not required; with a file, the list of allowed types is empty or
    one of its entries admits the file's media type, and the file's size is
    at most [maxSize]. *)
Theorem validateFile_accepts (options : FileOptions.t)
    (file : option UploadedFile.t) :
  validateFile options file = None
  <-> match file with
      | None => FileOptions.required options = false
      | Some f =>
          (FileOptions.allowedTypes options = []
           \/ exists type,
                type ∈ FileOptions.allowedTypes options
                /\ type_allows (UploadedFile.mimetype f) type = true)
          /\ UploadedFile.size f <= FileOptions.maxSize options
      end.
Proof.
  unfold validateFile. destruct file as [f|].
  - destruct (FileOptions.allowedTypes options) as [|type types] eqn:Htypes.
    + cbn [length Z.of_nat Z.ltb Z.compare andb].
      destruct (Z.ltb_spec (FileOptions.maxSize options) (UploadedFile.size f));
        [split; [done|lia]|split; [intros _; split; [by left|lia]|done]].
    + replace (0 <? Z.of_nat (length (type :: types))) with true
        by (symmetry; apply Z.ltb_lt; simpl; lia).
      cbn [andb].
      destruct (existsb _ (type :: types)) eqn:Hex; cbn [negb].
      * apply existsb_exists in Hex as (t & Hin%list_elem_of_In & Ht).
        destruct (Z.ltb_spec (FileOptions.maxSize options)
                    (UploadedFile.size f));
          [split; [done|lia]|].
        split; [intros _; split; [right; by exists t|lia]|done].
      * split; [done|]. intros [[?|(t & Hin & Ht)] _]; [done|].
        assert (existsb (type_allows (UploadedFile.mimetype f))
                  (type :: types) = true) as Hyes; [|congruence].
        apply existsb_exists. exists t. by rewrite <- list_elem_of_In.
  - by destruct (FileOptions.required options).
Qed.

(** ** Listing, search and the instructor's courses *)

Lemma matches_search_holds (toLowerCase : string -> string)
    (course : Course.t) (search : string) :
  CourseModel.matches_search toLowerCase course search = true
  <-> holds_text toLowerCase course search.
Proof.
  unfold CourseModel.matches_search, holds_text. cbv zeta.
  rewrite !orb_true_iff, existsb_exists. split.
  - intros [[?|?]|(tag & Hin & ?)]; [by left|by right; left|].
    right; right. exists tag. by rewrite list_elem_of_In.
  - intros [?|[?|(tag & Hin & ?)]]; [by left; left|by left; right|].
    right. exists tag. by rewrite <- list_elem_of_In.
Qed.

(** X25.  Which courses [findAll] returns: the stored courses that pass
    every filter in force.  [category], [instructorId] and [search] are in
    force when they are non-empty strings, [level] when given, the two price
    bounds when given (also when 0), [rating] when given and not 0, and the
    publication filter unless [includeUnpublished] is set.  A course passes
    the search filter when it holds the search text in its title, its
    description or one of its tags, text and field being lowered by the
    runtime's [toLowerCase], whatever that function does. *)
Theorem findAll_membership (toLowerCase : string -> string)
    (courses : CourseModel.store) (filters : FindAllFilters.t)
    (course : Course.t) :
  course ∈ CourseModel.findAll toLowerCase courses filters
  <-> course ∈ JsMap.values courses
      /\ (truthy (FindAllFilters.category filters) = true ->
          Some (Course.category course) = FindAllFilters.category filters)
      /\ (is_Some (FindAllFilters.level filters) ->
          Some (Course.level course) = FindAllFilters.level filters)
      /\ (truthy (FindAllFilters.instructorId filters) = true ->
          Some (Course.instructorId course)
          = FindAllFilters.instructorId filters)
      /\ (truthy (FindAllFilters.search filters) = true ->
          holds_text toLowerCase course
            (default "" (FindAllFilters.search filters)))
      /\ (forall priceMin, FindAllFilters.priceMin filters = Some priceMin ->
            (priceMin <= Course.price course)%Q)
      /\ (forall priceMax, FindAllFilters.priceMax filters = Some priceMax ->
            (Course.price course <= priceMax)%Q)
      /\ (forall rating, FindAllFilters.rating filters = Some rating ->
            ~ (rating == 0)%Q -> (rating <= Course.rating course)%Q)
      /\ (FindAllFilters.includeUnpublished filters = false ->
          Course.isPublished course = true).
Proof.
  unfold CourseModel.findAll. cbv zeta.
  rewrite elem_of_keep_if, negb_true_iff.
  assert (Hrating : forall l,
    course ∈ match FindAllFilters.rating filters with
             | Some rating =>
                 CourseModel.keep_if (negb (Qeq_bool rating 0))
                   (fun c => Qle_bool rating (Course.rating c)) l
             | None => l
             end
    <-> course ∈ l
        /\ forall rating, FindAllFilters.rating filters = Some rating ->
             ~ (rating == 0)%Q -> (rating <= Course.rating course)%Q).
  { intros l. destruct (FindAllFilters.rating filters) as [rating|];
      [|intuition discriminate].
    rewrite elem_of_keep_if, negb_true_iff, Qle_bool_iff.
    rewrite <- not_true_iff_false, Qeq_bool_iff.
    split; intros [Hin Hle]; (split; [done|]); [|by apply Hle].
    by intros ? [= <-]. }
  assert (HpriceMax : forall l,
    course ∈ match FindAllFilters.priceMax filters with
             | Some priceMax =>
                 List.filter (fun c => Qle_bool (Course.price c) priceMax) l
             | None => l
             end
    <-> course ∈ l
        /\ forall priceMax, FindAllFilters.priceMax filters = Some priceMax ->
             (Course.price course <= priceMax)%Q).
  { intros l. destruct (FindAllFilters.priceMax filters) as [priceMax|];
      [|intuition discriminate].
    rewrite elem_of_List_filter, Qle_bool_iff.
    split; intros [Hin Hle]; (split; [done|]); [|by apply Hle].
    by intros ? [= <-]. }
  assert (HpriceMin : forall l,
    course ∈ match FindAllFilters.priceMin filters with
             | Some priceMin =>
                 List.filter (fun c => Qle_bool priceMin (Course.price c)) l
             | None => l
             end
    <-> course ∈ l
        /\ forall priceMin, FindAllFilters.priceMin filters = Some priceMin ->
             (priceMin <= Course.price course)%Q).
  { intros l. destruct (FindAllFilters.priceMin filters) as [priceMin|];
      [|intuition discriminate].
    rewrite elem_of_List_filter, Qle_bool_iff.
    split; intros [Hin Hle]; (split; [done|]); [|by apply Hle].
    by intros ? [= <-]. }
  rewrite Hrating, HpriceMax, HpriceMin, !elem_of_keep_if.
  rewrite !bool_decide_eq_true, matches_search_holds. tauto.
Qed.

(** X26.  The search handler, for a non-empty search text: every course it
    returns is stored, holds the text in its title, description or one of
    its tags (text and field lowered by the runtime's [toLowerCase],
    whatever that function does), and is published unless the caller is an
    administrator. *)
Theorem searchCourses_results (toLowerCase : string -> string)
    (st : State.t) (user : option JWTPayload.t) (q : option string)
    (page limit : option Z) (course : Course.t) :
  truthy q = true ->
  course
    ∈ listed (CourseController.searchCourses toLowerCase user q page limit
                st) ->
  course ∈ JsMap.values (State.courses st)
  /\ holds_text toLowerCase course (default "" q)
  /\ (JWTPayload.role <$> user <> Some ADMIN ->
      Course.isPublished course = true).
Proof.
  intros Hq. unfold CourseController.searchCourses, listed. rewrite Hq.
  simpl. intros Hin%elem_of_slice.
  unfold CourseModel.findAll in Hin. simpl in Hin. rewrite Hq in Hin.
  apply elem_of_keep_if in Hin as [Hin Hp].
  apply elem_of_keep_if in Hin as [Hin Hs].
  split_and!; [done|by apply matches_search_holds, Hs|].
  intros Hrole. apply Hp. unfold CourseController.is_admin.
  by rewrite bool_decide_false.
Qed.

Lemma searchCourses_results_witness :
  let r :=
    CourseController.searchCourses Sample.toLowerCase None (Some "REACT")
      None None Sample.campus in
  Course.id <$> listed r = ["c_free"; "c_paid"; "c_other"]
  /\ Forall (fun course =>
               Course.isPublished course = true
               /\ holds_text Sample.toLowerCase course "REACT")
            (listed r).
Proof.
  cbv zeta. split; [reflexivity|].
  apply list.Forall_forall. intros course Hin.
  destruct (searchCourses_results Sample.toLowerCase Sample.campus None
              (Some "REACT") None None course eq_refl Hin)
    as (_ & Hholds & Hpublished).
  split; [by apply Hpublished|exact Hholds].
Defined.

(** X27.  The search route never reaches a result: with a search text the
    pagination schema in front of the handler refuses the key [q], and
    without one the handler refuses the request; both answers are 400. *)
Theorem search_route_always_refuses (toLowerCase : string -> string)
    (header : Bearer) (q : option string) (page limit : option Z)
    (st : State.t) :
  Response.statusCode
    (Routes.get_courses_search toLowerCase header q page limit st)
  = 400.
Proof.
  unfold Routes.get_courses_search, Routes.validateSearchQuery.
  assert (exists user, optionalAuth header = inr user) as [user ->]
    by (destruct header; by eexists).
  destruct q as [text|].
  - by rewrite andb_false_r.
  - rewrite andb_true_r.
    by destruct (_ && _).
Qed.

(** X28.  The listing route, for a query whose [page] and [limit], when
    present, are whole numbers: it answers 200 exactly when the query is
    made of a [page] from 1 to [Number.MAX_SAFE_INTEGER] and a [limit] from
    1 to 100 only; a query with a sort or filter key, or with a [page] or
    [limit] outside these bounds, is answered 400 and never reaches the
    handler. *)
Theorem listing_route_accepts_pagination_only
    (toLowerCase : string -> string) (header : Bearer)
    (query : CourseQuery.t) (st : State.t) :
  let r := Routes.get_courses toLowerCase header query st in
  (Response.statusCode r = 200
   <-> (forall page, CourseQuery.page query = Some page ->
          1 <= page <= 9007199254740991)
       /\ (forall limit, CourseQuery.limit query = Some limit ->
             1 <= limit <= 100)
       /\ CourseQuery.sortBy query = None
       /\ CourseQuery.sortOrder query = None
       /\ CourseQuery.category query = None
       /\ CourseQuery.level query = None
       /\ CourseQuery.instructorId query = None
       /\ CourseQuery.search query = None
       /\ CourseQuery.priceMin query = None
       /\ CourseQuery.priceMax query = None
       /\ CourseQuery.rating query = None)
  /\ (Response.statusCode r <> 200 -> r = sendError 400 "Validation failed").
Proof.
  cbv zeta. unfold Routes.get_courses, validatePagination, MAX_SAFE_INTEGER.
  assert (exists user, optionalAuth header = inr user) as [user ->]
    by (destruct header; by eexists).
  match goal with |- context [if ?b then _ else _] => destruct b eqn:Hok end.
  - split; [split; [intros _|done]|done].
    rewrite !andb_true_iff, !bool_decide_eq_true in Hok.
    destruct Hok as [[Hpage Hlimit] [[[[[[? ?] ?] ?] ?] ?] Hrest]].
    destruct (CourseQuery.priceMin query), (CourseQuery.priceMax query),
      (CourseQuery.rating query); try discriminate Hrest.
    split_and!; try done.
    + intros page Heq. rewrite Heq in Hpage. lia.
    + intros limit Heq. rewrite Heq in Hlimit. lia.
  - split; [split; [done|]|done].
    intros (Hpage & Hlimit & Hq1 & Hq2 & Hq3 & Hq4 & Hq5 & Hq6 & Hq7 & Hq8
            & Hq9).
    rewrite Hq1, Hq2, Hq3, Hq4, Hq5, Hq6, Hq7, Hq8, Hq9 in Hok.
    rewrite !bool_decide_eq_true_2, !andb_true_r in Hok by done.
    apply andb_false_iff in Hok as [Hok|Hok].
    + destruct (CourseQuery.page query) as [page|]; [|done].
      specialize (Hpage page eq_refl). lia.
    + destruct (CourseQuery.limit query) as [limit|]; [|done].
      specialize (Hlimit limit eq_refl). lia.
Qed.

Lemma listing_route_accepts_pagination_only_witness :
  let header := valid_token (Sample.caller "u_student" STUDENT) in
  let route query :=
    Response.statusCode
      (Routes.get_courses Sample.toLowerCase header query Sample.campus) in
  route (CourseQuery.pagination_only (Some 9007199254740991) (Some 100)) = 200
  /\ route (CourseQuery.pagination_only (Some 9007199254740993) None) = 400.
Proof.
  cbv zeta. split.
  - apply (listing_route_accepts_pagination_only Sample.toLowerCase).
    split_and!; try done; intros ? [= <-]; lia.
  - destruct (listing_route_accepts_pagination_only Sample.toLowerCase
                (valid_token (Sample.caller "u_student" STUDENT))
                (CourseQuery.pagination_only (Some 9007199254740993) None)
                Sample.campus) as [[Hok _] Hno].
    rewrite Hno; [done|]. intros H200.
    destruct (Hok H200) as (Hpage & _).
    specialize (Hpage 9007199254740993 eq_refl). lia.
Defined.

(** X29.  The instructor's own listing: every course it returns is stored under
    the caller's id as instructor, published or not, and the total of its
    pagination counts all of the caller's courses. *)
Theorem getInstructorCourses_only_own
    (st : State.t) (caller : JWTPayload.t) (page limit : option Z) :
  let r := CourseController.getInstructorCourses (Some caller) page limit st in
  let own :=
    CourseModel.findByInstructor (State.courses st)
      (JWTPayload.userId caller) in
  Response.statusCode r = 200
  /\ (forall course, course ∈ listed r ->
        course ∈ JsMap.values (State.courses st)
        /\ Course.instructorId course = JWTPayload.userId caller)
  /\ (forall course, course ∈ own
        <-> course ∈ JsMap.values (State.courses st)
            /\ Course.instructorId course = JWTPayload.userId caller)
  /\ exists data message pagination,
       Response.body r = body_success data message (Some pagination)
       /\ PaginationInfo.total pagination = Z.of_nat (length own).
Proof.
  cbv zeta. unfold CourseController.getInstructorCourses, listed. simpl.
  assert (Hown : forall course,
    course ∈ CourseModel.findByInstructor (State.courses st)
               (JWTPayload.userId caller)
    <-> course ∈ JsMap.values (State.courses st)
        /\ Course.instructorId course = JWTPayload.userId caller).
  { intros course. unfold CourseModel.findByInstructor.
    by rewrite elem_of_List_filter, bool_decide_eq_true. }
  split_and!; [done| |done|by eexists _, _, _].
  intros course Hin%elem_of_slice. by apply Hown.
Qed.

(** ** A progress update on an existing record *)

(** X30.  For a caller whose user record already holds a progress record for
    [courseId], the first one being at index [i],
    [PUT /users/progress/:courseId] answers 200 and rewrites that record in
    place: the list keeps its length and its other records, the record keeps
    its course, its enrolment date and its certificate, and takes the three
    members of the body as they are (a missing member erases the stored one)
    and the instant of the request as [lastAccessedAt]. *)
Theorem progress_update_rewrites_record
    (st : State.t) (caller : JWTPayload.t) (courseId : string)
    (body : ProgressBody.t) (clk : Clock) (stored : User.t) (i : nat)
    (existing : CourseProgress.t) :
  UserModel.findById (State.users st) (JWTPayload.userId caller)
    = Some stored ->
  User.progress stored !! i = Some existing ->
  CourseProgress.courseId existing = courseId ->
  (forall j earlier, User.progress stored !! j = Some earlier -> (j < i)%nat ->
     CourseProgress.courseId earlier <> courseId) ->
  let res :=
    Routes.put_user_progress (valid_token caller) courseId body clk st in
  res.1 = sendSuccess data_null "Progress updated successfully" None
  /\ State.courses res.2 = State.courses st
  /\ State.payments res.2 = State.payments st
  /\ exists stored' record,
       UserModel.findById (State.users res.2) (JWTPayload.userId caller)
         = Some stored'
       /\ User.progress stored' = <[i := record]> (User.progress stored)
       /\ length (User.progress stored') = length (User.progress stored)
       /\ (forall j, j <> i ->
             User.progress stored' !! j = User.progress stored !! j)
       /\ User.progress stored' !! i = Some record
       /\ CourseProgress.courseId record = courseId
       /\ CourseProgress.enrolledAt record
          = CourseProgress.enrolledAt existing
       /\ CourseProgress.certificateEarned record
          = CourseProgress.certificateEarned existing
       /\ CourseProgress.certificateUrl record
          = CourseProgress.certificateUrl existing
       /\ CourseProgress.completedModules record
          = ProgressBody.completedModules body
       /\ CourseProgress.currentModule record
          = ProgressBody.currentModule body
       /\ CourseProgress.progressPercentage record
          = ProgressBody.progressPercentage body
       /\ CourseProgress.lastAccessedAt record = clk 0%nat.
Proof.
  intros Hstored Hi Hcourse Hfirst.
  assert (Hfind :
    list_find (fun p => CourseProgress.courseId p = courseId)
      (User.progress stored) = Some (i, existing)).
  { apply list_find_Some. split_and!; [done|done|].
    intros j earlier Hj Hlt. by apply (Hfirst j earlier). }
  unfold UserModel.findById in *. cbv zeta.
  unfold Routes.put_user_progress, Routes.chain, authenticate,
    UserController.updateProgress, UserModel.updateProgress.
  rewrite Hstored, Hfind. simpl. split_and!; try done.
  eexists _, _. split_and!; [apply get_set_eq|reflexivity|..]; simpl;
    try done.
  - by rewrite length_insert.
  - intros j Hne. by rewrite list_lookup_insert_ne.
  - apply list_lookup_insert_eq. by eapply lookup_lt_Some.
Qed.

Lemma progress_update_rewrites_record_witness :
  let caller := Sample.caller "u_other" STUDENT in
  let enrolled :=
    Sample.user "u_other" STUDENT
      [enrolled_record "c_free" Sample.clock;
       enrolled_record "c_paid" Sample.clock] in
  let st := State.mk [("u_other", enrolled)] [] [] in
  let body := ProgressBody.mk (Some ["m1"]) None None in
  let res :=
    Routes.put_user_progress (valid_token caller) "c_paid" body Sample.clock
      st in
  res.1 = sendSuccess data_null "Progress updated successfully" None
  /\ State.courses res.2 = [].
Proof.
  cbv zeta.
  destruct (progress_update_rewrites_record
              (State.mk
                 [("u_other",
                   Sample.user "u_other" STUDENT
                     [enrolled_record "c_free" Sample.clock;
                      enrolled_record "c_paid" Sample.clock])] [] [])
              (Sample.caller "u_other" STUDENT) "c_paid"
              (ProgressBody.mk (Some ["m1"]) None None) Sample.clock
              (Sample.user "u_other" STUDENT
                 [enrolled_record "c_free" Sample.clock;
                  enrolled_record "c_paid" Sample.clock]) 1
              (enrolled_record "c_paid" Sample.clock))
    as (Hres & Hcourses & _).
  - reflexivity.
  - reflexivity.
  - reflexivity.
  - intros [|j] earlier Hj Hlt; [|lia]. by injection Hj as <-.
  - by split.
Defined.
